(** * geo2wiki-osm: the radius-expansion controller and the report builder

    A shallow embedding of the two script variants of the repository,
    [geo2wiki-osm.py] (variant [V1]) and [geo2wiki-osm_v3.py] (variant [V3]).

    - Python values decoded from JSON are the inductive type [pyval]; a dict
      is an association list with string keys, looked up from the front.
    - A Python [int] is [Z].  A finite Python [float] held in a value is a
      rational ([Q]); the values [inf] and [nan], which the JSON decoder
      accepts, are not values of [pyval].  The floating-point evaluation of
      [haversine_distance] is modelled over [R] with the rounding and the
      [math] functions of the interpreter as parameters ([floats]), so that
      its [ValueError] and [OverflowError] are outcomes of the model; the
      vertex mean of [calculate_centroid] is computed exactly.
    - A Python [str] is the string of its UTF-8 bytes; a lone surrogate
      (U+D800 to U+DFFF), which UTF-8 cannot encode, is the three bytes
      [ED A0..BF 80..BF].
    - Statements run in the monad [M]: a trace of observable events
      (requests, printed lines, sleeps, the file written) together with a
      value or a raised exception.  Standard output accepts every line, a
      request is always sent and answered with a status (its parameters can
      be encoded, the server is reached), and the CSV file can always be
      opened for writing; writing a row to it can fail.
    - The HTTP servers are an oracle ([world]); third-party library calls
      ([str], [urllib.parse.quote], [haversine.haversine],
      [shapely Polygon(...).centroid]) are the fields of [libs]. *)

From Stdlib Require Import ZArith QArith Qreals Reals Lra Lia List String Ascii Bool DecimalString.
Import ListNotations.
Open Scope string_scope.
Open Scope list_scope.
Set Warnings "-register-all".

(** ** Python values *)

Inductive pyval : Type :=
| PNone
| PBool (b : bool)
| PInt (z : Z)
| PFloat (q : Q)
| PStr (s : string)
| PList (l : list pyval)
| PDict (kv : list (string * pyval)).

Inductive exn : Type :=
| KeyError | TypeError | AttributeError | ValueError
| StopIteration | JSONDecodeError | RecursionError
| OverflowError | UnicodeEncodeError.

Inductive result (A : Type) : Type :=
| Ok (a : A)
| Raise (e : exn).
Arguments Ok {A} a.
Arguments Raise {A} e.

Definition rbind {A B : Type} (r : result A) (k : A -> result B) : result B :=
  match r with
  | Ok a => k a
  | Raise e => Raise e
  end.

Fixpoint rmap {A B : Type} (f : A -> result B) (l : list A) : result (list B) :=
  match l with
  | [] => Ok []
  | x :: xs => rbind (f x) (fun y => rbind (rmap f xs) (fun ys => Ok (y :: ys)))
  end.

(** [bool(v)] *)
Definition truthy (v : pyval) : bool :=
  match v with
  | PNone => false
  | PBool b => b
  | PInt z => negb (z =? 0)%Z
  | PFloat q => negb (Qeq_bool q 0)
  | PStr s => negb (String.eqb s "")
  | PList l => match l with [] => false | _ :: _ => true end
  | PDict kv => match kv with [] => false | _ :: _ => true end
  end.

Fixpoint lookup (key : string) (kv : list (string * pyval)) : option pyval :=
  match kv with
  | [] => None
  | (k, v) :: rest => if String.eqb k key then Some v else lookup key rest
  end.

(** [v[key]] for a string key *)
Definition py_getitem (v : pyval) (key : string) : result pyval :=
  match v with
  | PDict kv => match lookup key kv with Some x => Ok x | None => Raise KeyError end
  | _ => Raise TypeError
  end.

(** [v.get(key)] *)
Definition py_get (v : pyval) (key : string) : result pyval :=
  match v with
  | PDict kv => match lookup key kv with Some x => Ok x | None => Ok PNone end
  | _ => Raise AttributeError
  end.

Fixpoint is_substring (needle hay : string) : bool :=
  if String.prefix needle hay then true
  else match hay with
       | EmptyString => false
       | String _ rest => is_substring needle rest
       end.

Definition is_str (key : string) (v : pyval) : bool :=
  match v with
  | PStr s => String.eqb s key
  | _ => false
  end.

(** [key in v] for a string key *)
Definition py_in (key : string) (v : pyval) : result bool :=
  match v with
  | PDict kv => Ok (match lookup key kv with Some _ => true | None => false end)
  | PList l => Ok (existsb (is_str key) l)
  | PStr s => Ok (is_substring key s)
  | _ => Raise TypeError
  end.

(** [len(v)] *)
Definition py_len (v : pyval) : result Z :=
  match v with
  | PList l => Ok (Z.of_nat (List.length l))
  | PDict kv => Ok (Z.of_nat (List.length kv))
  | PStr s => Ok (Z.of_nat (String.length s))
  | _ => Raise TypeError
  end.

Fixpoint chars (s : string) : list pyval :=
  match s with
  | EmptyString => []
  | String c rest => PStr (String c EmptyString) :: chars rest
  end.

(** the items a [for] loop, a comprehension or [list.extend] draws from [v] *)
Definition py_iter (v : pyval) : result (list pyval) :=
  match v with
  | PList l => Ok l
  | PDict kv => Ok (map (fun p => PStr (fst p)) kv)
  | PStr s => Ok (chars s)
  | _ => Raise TypeError
  end.

(** [l[:n]] on a list: a negative bound counts from the end *)
Definition slice_to {A : Type} (n : Z) (l : list A) : list A :=
  if (0 <=? n)%Z then firstn (Z.to_nat n) l
  else firstn (Z.to_nat (Z.of_nat (List.length l) + n)) l.

Definition py_slice_to (v : pyval) (n : Z) : result pyval :=
  match v with
  | PList l => Ok (PList (slice_to n l))
  | PStr s =>
      Ok (PStr (if (0 <=? n)%Z then String.substring 0 (Z.to_nat n) s
                else String.substring 0 (Z.to_nat (Z.of_nat (String.length s) + n)) s))
  | _ => Raise TypeError
  end.

(** a value used as a real number ([bool] is a subtype of [int]) *)
Definition as_number (v : pyval) : result Q :=
  match v with
  | PInt z => Ok (inject_Z z)
  | PFloat q => Ok q
  | PBool b => Ok (if b then 1%Q else 0%Q)
  | _ => Raise TypeError
  end.

(** [v == "s"] *)
Definition eq_str (v : pyval) (s : string) : bool := is_str s v.

Definition string_of_Z (z : Z) : string := NilZero.string_of_int (Z.to_int z).

Definition newline : string := String (ascii_of_nat 10) EmptyString.

(** ** Effects: a trace of events and a value or an exception *)

Inductive event : Type :=
| HttpGet (url : string) (params headers : pyval)
| Print (line : string)
| Sleep (seconds : Z)
| WriteCsv (filename : string) (rows : list (list pyval))
| WriteFailed (filename : string) (rows : list (list pyval)).

Definition M (A : Type) : Type := (list event * result A)%type.

Definition ret {A : Type} (a : A) : M A := ([], Ok a).

Definition raise {A : Type} (e : exn) : M A := ([], Raise e).

Definition bind {A B : Type} (m : M A) (k : A -> M B) : M B :=
  match snd m with
  | Ok a => let r := k a in (fst m ++ fst r, snd r)
  | Raise e => (fst m, Raise e)
  end.

Definition lift {A : Type} (r : result A) : M A := ([], r).

Definition tell (e : event) : M unit := ([e], Ok tt).

Definition print (line : string) : M unit := tell (Print line).

Definition sleep (seconds : Z) : M unit := tell (Sleep seconds).

Declare Scope py_scope.
Delimit Scope py_scope with py.
Notation "x <- m ;; k" := (bind m (fun x => k))
  (at level 100, m at next level, right associativity) : py_scope.
Notation "m ;;; k" := (bind m (fun _ => k))
  (at level 100, right associativity) : py_scope.
Open Scope py_scope.

(** [executor.submit(task)]: the task runs (its events happen) and its outcome
    is kept in the future; [future.result()] returns it or re-raises. *)
Definition submit {A : Type} (task : M A) : M (result A) := (fst task, Ok (snd task)).

Definition future_result {A : Type} (future : result A) : M A := lift future.

(** ** The outside world *)

Record response : Type := {
  status_code : Z;
  json : result pyval   (* what [response.json()] returns or raises *)
}.

Record world : Type := {
  geosearch_reply : nat -> response;        (* Wikipedia geosearch, per iteration *)
  nominatim_reply : nat -> response;        (* Nominatim reverse, per iteration *)
  overpass_reply : nat -> nat -> response;  (* Overpass, per iteration and attempt *)
  wikiurl_reply : nat -> response;          (* Wikipedia info, per reported place *)
  recursion_limit : nat;                    (* frames left to the Overpass worker *)
  strftime_now : string                     (* [now.strftime(...)] *)
}.

(** Floating point, as the interpreter provides it: [fl x] is the float
    nearest to the real [x] (the result of an arithmetic operation on
    floats is [fl] of the exact result), and the other fields are the
    functions of the [math] module on finite floats. *)
Record floats : Type := {
  fl : R -> R;
  fsin : R -> R;
  fcos : R -> R;
  fsqrt : R -> R;
  fatan2 : R -> R -> R
}.

Record libs : Type := {
  fp : floats;                                               (* float arithmetic and [math] *)
  py_str : pyval -> string;                                  (* [str(v)] in f-strings *)
  quote : string -> result string;                           (* [urllib.parse.quote] *)
  haversine : pyval * pyval -> pyval * pyval -> result Q;    (* [haversine(p, q, unit=Unit.METERS)] *)
  polygon_centroid : list (pyval * pyval) -> result (Q * Q)  (* [Polygon(pts).centroid], as (x, y) *)
}.

Inductive variant : Type :=
| V1   (* geo2wiki-osm.py *)
| V3.  (* geo2wiki-osm_v3.py *)

Record config : Type := {
  center_lat : Q;
  center_lon : Q;
  initial_radius : Z;
  max_radius : Z;
  radius_increment : Z;
  min_results : Z;
  max_results : Z
}.

Definition default_config (v : variant) : config :=
  match v with
  | V1 => {| center_lat := 38897685330838804 # 1000000000000000;
             center_lon := - (77036533179882840 # 1000000000000000);
             initial_radius := 500; max_radius := 10000; radius_increment := 500;
             min_results := 5; max_results := 20 |}
  | V3 => {| center_lat := 38897774764920680 # 1000000000000000;
             center_lon := - (77036545245193370 # 1000000000000000);
             initial_radius := 500; max_radius := 10000; radius_increment := 500;
             min_results := 5; max_results := 20 |}
  end.

(** ** The clients *)

Section Program.

Variable L : libs.
Variable W : world.
Variable cfg : config.

Definition wikipedia_endpoint : string := "https://en.wikipedia.org/w/api.php".

Definition user_agent : pyval :=
  PDict [("User-Agent", PStr "YourAppName/1.0 (your_email@example.com)")].

(** [get_wikipedia_geosearch(lat, lon, radius, limit)]; [http] is the reply
    [requests.get] obtains.  [V1] projects the hits to title/lat/lon records
    and answers a failure with [[]]; [V3] hands back the decoded body and
    answers a failure with [None]. *)
Definition get_wikipedia_geosearch (v : variant) (http : response) (lat lon : pyval)
  (radius limit : Z) : M pyval :=
  let params := PDict [("action", PStr "query"); ("list", PStr "geosearch");
                       ("gscoord", PStr (py_str L lat ++ "|" ++ py_str L lon));
                       ("gsradius", PInt radius); ("gslimit", PInt limit);
                       ("format", PStr "json")] in
  tell (HttpGet wikipedia_endpoint params PNone) ;;;
  if (status_code http =? 200)%Z then
    match v with
    | V1 =>
        data <- lift (json http) ;;
        hits <- lift (rbind (py_getitem data "query") (fun q => py_getitem q "geosearch")) ;;
        items <- lift (py_iter hits) ;;
        places <- lift (rmap (fun item =>
                     rbind (py_getitem item "title") (fun t =>
                     rbind (py_getitem item "lat") (fun la =>
                     rbind (py_getitem item "lon") (fun lo =>
                     Ok (PDict [("title", t); ("lat", la); ("lon", lo)]))))) items) ;;
        ret (PList places)
    | V3 => lift (json http)
    end
  else
    print ("Error fetching Wikipedia geosearch data: " ++ string_of_Z (status_code http)) ;;;
    ret (match v with V1 => PList [] | V3 => PNone end).

(** [get_osm_administrative_info(lat, lon)] *)
Definition get_osm_administrative_info (http : response) (lat lon : pyval) : M pyval :=
  let params := PDict [("format", PStr "json"); ("lat", lat); ("lon", lon);
                       ("zoom", PInt 10); ("addressdetails", PInt 1)] in
  tell (HttpGet "https://nominatim.openstreetmap.org/reverse" params user_agent) ;;;
  if (status_code http =? 200)%Z then lift (json http)
  else
    print ("Error fetching OSM data: " ++ string_of_Z (status_code http)) ;;;
    ret PNone.

Definition overpass_query (lat lon : pyval) (radius : Z) : string :=
  newline ++
  "    [out:json];" ++ newline ++
  "    (" ++ newline ++
  "      node(around:" ++ string_of_Z radius ++ "," ++ py_str L lat ++ "," ++ py_str L lon
    ++ ")[amenity];" ++ newline ++
  "      way(around:" ++ string_of_Z radius ++ "," ++ py_str L lat ++ "," ++ py_str L lon
    ++ ")[building];" ++ newline ++
  "    );" ++ newline ++
  "    out body geom;" ++ newline ++
  "    ".

(** The replies left for a retry once the first one has been consumed. *)
Definition shift (http : nat -> response) : nat -> response :=
  fun attempt => http (S attempt).

Definition overpass_request (lat lon : pyval) (radius : Z) : event :=
  HttpGet "https://overpass-api.de/api/interpreter"
    (PDict [("data", PStr (overpass_query lat lon radius))]) user_agent.

(** [get_osm_nearby_features(lat, lon, radius)].  [http] answers the
    successive requests of this call; [depth] is the number of frames the
    interpreter still grants, so that the self-call on 429 raises
    [RecursionError] once they are used up. *)
Fixpoint get_osm_nearby_features (depth : nat) (http : nat -> response)
  (lat lon : pyval) (radius : Z) : M pyval :=
  match depth with
  | O => raise RecursionError
  | S depth' =>
      tell (overpass_request lat lon radius) ;;;
      if (status_code (http O) =? 200)%Z then lift (json (http O))
      else if (status_code (http O) =? 429)%Z then
        print "Rate limit hit, sleeping for 1 minute" ;;;
        sleep 60 ;;;
        get_osm_nearby_features depth' (shift http) lat lon radius
      else
        print ("Error fetching OSM features: " ++ string_of_Z (status_code (http O))) ;;;
        ret PNone
  end.

(** [title.replace(" ", "_")] *)
Fixpoint replace_spaces (s : string) : string :=
  match s with
  | EmptyString => EmptyString
  | String c rest =>
      String (if Ascii.eqb c " "%char then "_"%char else c) (replace_spaces rest)
  end.

(** [get_wikipedia_url(title)]: [V1] builds the address, [V3] asks the API. *)
Definition get_wikipedia_url (v : variant) (http : response) (title : pyval) : M pyval :=
  match v with
  | V1 =>
      match title with
      | PStr t =>
          quoted <- lift (quote L (replace_spaces t)) ;;
          ret (PStr ("https://en.wikipedia.org/wiki/" ++ quoted))
      | _ => raise AttributeError
      end
  | V3 =>
      let params := PDict [("action", PStr "query"); ("titles", title);
                           ("prop", PStr "info"); ("inprop", PStr "url");
                           ("format", PStr "json")] in
      tell (HttpGet wikipedia_endpoint params PNone) ;;;
      if (status_code http =? 200)%Z then
        data <- lift (json http) ;;
        pages <- lift (rbind (py_getitem data "query") (fun q => py_getitem q "pages")) ;;
        page <- lift (match pages with
                      | PDict [] => Raise StopIteration
                      | PDict ((_, p) :: _) => Ok p
                      | _ => Raise AttributeError
                      end) ;;
        lift (py_getitem page "fullurl")
      else
        print ("Error fetching URL for " ++ py_str L title ++ ": "
               ++ string_of_Z (status_code http)) ;;;
        ret PNone
  end.

(** ** The radius-expansion controller *)

Record state : Type := {
  current_radius : Z;
  wiki_results : pyval;
  osm_admin_data : pyval;
  osm_features_data : list pyval
}.

Definition initial_state : state :=
  {| current_radius := initial_radius cfg;
     wiki_results := PList [];
     osm_admin_data := PNone;
     osm_features_data := [] |}.

Definition set_wiki_results (s : state) (r : pyval) : state :=
  {| current_radius := current_radius s;
     wiki_results := r;
     osm_admin_data := osm_admin_data s;
     osm_features_data := osm_features_data s |}.

(** [current_radius += radius_increment] *)
Definition increase_radius (s : state) : state :=
  {| current_radius := current_radius s + radius_increment cfg;
     wiki_results := wiki_results s;
     osm_admin_data := osm_admin_data s;
     osm_features_data := osm_features_data s |}.

(** [current_radius <= max_radius and len(wiki_results) < min_results] *)
Definition loop_cond (s : state) : M bool :=
  if (current_radius s <=? max_radius cfg)%Z then
    n <- lift (py_len (wiki_results s)) ;;
    ret (n <? min_results cfg)%Z
  else ret false.

(** [if osm_features and "elements" in osm_features:
       osm_features_data.extend(osm_features["elements"])] *)
Definition merge_features (data : list pyval) (osm_features : pyval) : M (list pyval) :=
  if truthy osm_features then
    present <- lift (py_in "elements" osm_features) ;;
    if present then
      elements <- lift (py_getitem osm_features "elements") ;;
      items <- lift (py_iter elements) ;;
      ret (data ++ items)
    else ret data
  else ret data.

Definition center (cfg0 : config) : pyval * pyval :=
  (PFloat (center_lat cfg0), PFloat (center_lon cfg0)).

(** The three calls of iteration [k], submitted to the pool. *)
Definition geosearch_call (v : variant) (k : nat) (s : state) : M pyval :=
  get_wikipedia_geosearch v (geosearch_reply W k) (fst (center cfg)) (snd (center cfg))
    (current_radius s) (max_results cfg).

Definition admin_call (k : nat) : M pyval :=
  get_osm_administrative_info (nominatim_reply W k) (fst (center cfg)) (snd (center cfg)).

Definition features_call (k : nat) (s : state) : M pyval :=
  get_osm_nearby_features (recursion_limit W) (overpass_reply W k)
    (fst (center cfg)) (snd (center cfg)) (current_radius s).

(** What [V3] reads out of the geosearch body:
    [wiki_data and "query" in wiki_data and wiki_data["query"]["geosearch"]]. *)
Definition geosearch_hits (wiki_data : pyval) : M (option pyval) :=
  if truthy wiki_data then
    present <- lift (py_in "query" wiki_data) ;;
    if present then
      hits <- lift (rbind (py_getitem wiki_data "query") (fun q => py_getitem q "geosearch")) ;;
      ret (if truthy hits then Some hits else None)
    else ret None
  else ret None.

(** The end of a pass, once the three futures are joined and the features
    merged into [s]: keep the geosearch results, then leave the loop or widen
    the radius.  The boolean tells whether the pass ended in [break]. *)
Definition decide (v : variant) (s : state) (wiki : pyval) : M (state * bool) :=
  match v with
  | V1 =>
      let s2 := set_wiki_results s wiki in
      if truthy wiki then
        n <- lift (py_len wiki) ;;
        print ("Found " ++ string_of_Z n ++ " Wikipedia results with radius: "
               ++ string_of_Z (current_radius s) ++ " meters") ;;;
        if (min_results cfg <=? n)%Z then ret (s2, true)
        else ret (increase_radius s2, false)
      else
        print ("No Wikipedia results found with radius: "
               ++ string_of_Z (current_radius s) ++ " meters. Increasing radius.") ;;;
        ret (increase_radius s2, false)
  | V3 =>
      found <- geosearch_hits wiki ;;
      match found with
      | Some hits =>
          let s2 := set_wiki_results s hits in
          n <- lift (py_len hits) ;;
          if (min_results cfg <=? n)%Z then
            print ("Found " ++ string_of_Z n ++ " Wikipedia results with radius: "
                   ++ string_of_Z (current_radius s) ++ " meters") ;;;
            ret (s2, false)
          else
            print ("Found " ++ string_of_Z n ++ " Wikipedia results with radius: "
                   ++ string_of_Z (current_radius s) ++ " meters. Increasing radius.") ;;;
            ret (increase_radius s2, false)
      | None =>
          print ("No Wikipedia results found with radius: "
                 ++ string_of_Z (current_radius s) ++ " meters. Increasing radius.") ;;;
          ret (increase_radius s, false)
      end
  end.

(** One pass through the body of the [while] loop, iteration [k] (from 0). *)
Definition loop_body (v : variant) (k : nat) (s : state) : M (state * bool) :=
  future_wiki <- submit (geosearch_call v k s) ;;
  future_osm_admin <- submit (admin_call k) ;;
  future_osm_features <- submit (features_call k s) ;;
  wiki <- future_result future_wiki ;;
  admin <- (if truthy (osm_admin_data s) then ret (osm_admin_data s)
            else future_result future_osm_admin) ;;
  osm_features <- future_result future_osm_features ;;
  features <- merge_features (osm_features_data s) osm_features ;;
  decide v {| current_radius := current_radius s;
              wiki_results := wiki_results s;
              osm_admin_data := admin;
              osm_features_data := features |} wiki.

(** The [while] loop from iteration [k] on.  [fuel] bounds the passes the
    model is willing to unfold: [None] means the fuel ran out with the loop
    still running; otherwise the state at loop exit and the number of passes
    executed since the start of the run. *)
Fixpoint controller_loop (v : variant) (fuel : nat) (k : nat) (s : state)
  : M (option (state * nat)) :=
  match fuel with
  | O => ret None
  | S fuel' =>
      continue <- loop_cond s ;;
      if continue then
        r <- loop_body v k s ;;
        if snd r then ret (Some (fst r, S k))
        else controller_loop v fuel' (S k) (fst r)
      else ret (Some (s, k))
  end.

(** The passes still possible from [s]: none once the radius is past the
    maximum, otherwise one per increment that fits. *)
Definition remaining (s : state) : Z :=
  if (current_radius s <=? max_radius cfg)%Z
  then ((max_radius cfg - current_radius s) / radius_increment cfg + 1)%Z
  else 0%Z.

(** ** Distances and centroids *)

(** [math.radians], [math.atan2] and [round] on reals. *)
Definition radians (x : R) : R := (x * (PI / 180))%R.

Definition atan2 (y x : R) : R :=
  if Rlt_dec 0 x then atan (y / x)
  else if Rlt_dec x 0 then
    (if Rle_dec 0 y then atan (y / x) + PI else atan (y / x) - PI)%R
  else if Rlt_dec 0 y then (PI / 2)%R
  else if Rlt_dec y 0 then (- (PI / 2))%R
  else 0%R.

(** [round(x)]: the nearest integer, a tie going to the even neighbour. *)
Definition py_round (x : R) : Z :=
  let f := Zfloor x in
  let d := (x - IZR f)%R in
  if Rlt_dec d (1 / 2) then f
  else if Rlt_dec (1 / 2) d then (f + 1)%Z
  else if Z.even f then f else (f + 1)%Z.

(** The central angle of the haversine formula, before scaling, as the
    formula of [haversine_distance] gives it in exact arithmetic. *)
Definition haversine_angle (lat1 lon1 lat2 lon2 : R) : R :=
  let phi1 := radians lat1 in
  let phi2 := radians lat2 in
  let delta_phi := radians (lat2 - lat1) in
  let delta_lambda := radians (lon2 - lon1) in
  let a := (sin (delta_phi / 2) ^ 2
            + cos phi1 * cos phi2 * sin (delta_lambda / 2) ^ 2)%R in
  (2 * atan2 (sqrt a) (sqrt (1 - a)))%R.

(** What [haversine_distance(lat1, lon1, lat2, lon2)] of [V3] returns in
    exact arithmetic; [haversine_distance_float] below is the function as
    the interpreter evaluates it. *)
Definition haversine_distance (lat1 lon1 lat2 lon2 : R) : Z :=
  let R_earth := 6371000%R in
  py_round (R_earth * haversine_angle lat1 lon1 lat2 lon2).

(** An [int] converts to a float unless it rounds to 2^1024 or beyond. *)
Definition float_int_limit : Z := (2 ^ 1024 - 2 ^ 970)%Z.

(** A number used where a float is needed: [math.radians(x)], [x - lat1]. *)
Definition to_float (F : floats) (x : pyval) : result R :=
  match x with
  | PFloat q => Ok (Q2R q)
  | PInt z =>
      if (Z.abs z <? float_int_limit)%Z then Ok (fl F (IZR z)) else Raise OverflowError
  | PBool b => Ok (if b then 1%R else 0%R)
  | _ => Raise TypeError
  end.

(** [math.radians(x)]: the product of [x] and the float [pi / 180]. *)
Definition math_radians (F : floats) (x : R) : R :=
  fl F (x * fl F (fl F PI / 180)).

(** [math.sqrt(x)] raises on a negative argument. *)
Definition math_sqrt (F : floats) (x : R) : result R :=
  if Rlt_dec x 0 then Raise ValueError else Ok (fsqrt F x).

(** The quantity [a] of [haversine_distance], on floats. *)
Definition haversine_a_float (F : floats) (lat1 lon1 lat2 lon2 : R) : R :=
  let phi1 := math_radians F lat1 in
  let phi2 := math_radians F lat2 in
  let delta_phi := math_radians F (fl F (lat2 - lat1)) in
  let delta_lambda := math_radians F (fl F (lon2 - lon1)) in
  fl F (fl F (fsin F (fl F (delta_phi / 2)) ^ 2)
        + fl F (fl F (fcos F phi1 * fcos F phi2)
                * fl F (fsin F (fl F (delta_lambda / 2)) ^ 2))).

(** [haversine_distance(lat1, lon1, lat2, lon2)] of [V3] as evaluated: the
    first point is the centre, two floats; the second comes from a reply. *)
Definition haversine_distance_float (F : floats) (lat1 lon1 : R) (lat2 lon2 : pyval)
  : result Z :=
  rbind (to_float F lat2) (fun la =>
  rbind (to_float F lon2) (fun lo =>
  let a := haversine_a_float F lat1 lon1 la lo in
  rbind (math_sqrt F a) (fun y =>
  rbind (math_sqrt F (fl F (1 - a))) (fun x =>
  let c := fl F (2 * fatan2 F y x) in
  Ok (py_round (fl F (6371000 * c))))))).

(** The distance cell of a row: [V1] calls the [haversine] package and keeps
    the float it returns; [V3] calls its own [haversine_distance]. *)
Definition distance (v : variant) (lat lon : pyval) : M pyval :=
  match v with
  | V1 => d <- lift (haversine L (center cfg) (lat, lon)) ;; ret (PFloat d)
  | V3 =>
      lift (rbind (haversine_distance_float (fp L) (Q2R (center_lat cfg))
                     (Q2R (center_lon cfg)) lat lon) (fun d => Ok (PInt d)))
  end.

(** [sum(values)], computed exactly: the rounding of the float additions is
    left out. *)
Fixpoint py_sum (values : list pyval) : result Q :=
  match values with
  | [] => Ok 0%Q
  | x :: rest => rbind (as_number x) (fun q => rbind (py_sum rest) (fun r => Ok (Qred (q + r))))
  end.

(** [sum([node[key] for node in geometry]) / len(geometry)], exactly; the
    float the interpreter computes is within rounding of it. *)
Definition mean_of (key : string) (nodes : list pyval) : result Q :=
  rbind (rmap (fun node => py_getitem node key) nodes) (fun values =>
  rbind (py_sum values) (fun total =>
  Ok (Qred (total / inject_Z (Z.of_nat (List.length nodes)))))).

(** [calculate_centroid(geometry)], returning [(lat, lon)]. *)
Definition calculate_centroid (v : variant) (geometry : pyval) : M (pyval * pyval) :=
  if negb (truthy geometry) then ret (PNone, PNone)
  else
    nodes <- lift (py_iter geometry) ;;
    match v with
    | V1 =>
        points <- lift (rmap (fun node =>
                     rbind (py_getitem node "lon") (fun lo =>
                     rbind (py_getitem node "lat") (fun la => Ok (lo, la)))) nodes) ;;
        centroid <- lift (polygon_centroid L points) ;;
        ret (PFloat (snd centroid), PFloat (fst centroid))
    | V3 =>
        lat <- lift (mean_of "lat" nodes) ;;
        lon <- lift (mean_of "lon" nodes) ;;
        ret (PFloat lat, PFloat lon)
    end.

(** ** The report builder *)

Definition row : Type := list pyval.

Fixpoint mmap {A B : Type} (f : A -> M B) (l : list A) : M (list B) :=
  match l with
  | [] => ret []
  | x :: xs => y <- f x ;; ys <- mmap f xs ;; ret (y :: ys)
  end.

Fixpoint mfilter {A : Type} (f : A -> M bool) (l : list A) : M (list A) :=
  match l with
  | [] => ret []
  | x :: xs => keep <- f x ;; ys <- mfilter f xs ;; ret (if keep then x :: ys else ys)
  end.

Definition wiki_row (v : variant) (i : nat) (place : pyval) : M row :=
  lat <- lift (py_getitem place "lat") ;;
  lon <- lift (py_getitem place "lon") ;;
  d <- distance v lat lon ;;
  title <- lift (py_getitem place "title") ;;
  url <- get_wikipedia_url v (wikiurl_reply W i) title ;;
  ret [PStr "Wikipedia"; title; lat; lon; d; url].

Fixpoint wiki_rows_from (v : variant) (i : nat) (places : list pyval) : M (list row) :=
  match places with
  | [] => ret []
  | place :: rest =>
      r <- wiki_row v i place ;;
      rs <- wiki_rows_from v (S i) rest ;;
      ret (r :: rs)
  end.

Definition wiki_placeholder : row :=
  [PStr "Wikipedia"; PStr "No results found"; PStr ""; PStr ""; PStr ""; PStr ""].

Definition wiki_rows (v : variant) (s : state) : M (list row) :=
  nonempty <- match v with
              | V1 => ret (truthy (wiki_results s))
              | V3 => n <- lift (py_len (wiki_results s)) ;; ret (1 <=? n)%Z
              end ;;
  if nonempty then
    head <- lift (py_slice_to (wiki_results s) (max_results cfg)) ;;
    places <- lift (py_iter head) ;;
    wiki_rows_from v O places
  else ret [wiki_placeholder].

Definition admin_placeholder : row :=
  [PStr "OSM"; PStr "No administrative info found"; PStr ""; PStr ""; PStr ""; PStr "null"].

Definition admin_row (s : state) : M row :=
  if truthy (osm_admin_data s) then
    name <- lift (py_getitem (osm_admin_data s) "display_name") ;;
    let lat := py_str L (fst (center cfg)) in
    let lon := py_str L (snd (center cfg)) in
    ret [PStr "OSM"; name; fst (center cfg); snd (center cfg); PInt 0;
         PStr ("https://www.openstreetmap.org/?mlat=" ++ lat ++ "&mlon=" ++ lon
               ++ "#map=10/" ++ lat ++ "/" ++ lon)]
  else ret admin_placeholder.

(** ["tags" in element and element["tags"].get("name")] *)
Definition has_name (element : pyval) : M bool :=
  present <- lift (py_in "tags" element) ;;
  if present then
    name <- lift (rbind (py_getitem element "tags") (fun tags => py_get tags "name")) ;;
    ret (truthy name)
  else ret false.

(** The representative coordinate of an element, [(None, None)] when its
    type is neither node nor way. *)
Definition coordinate (v : variant) (element : pyval) : M (pyval * pyval) :=
  type <- lift (py_getitem element "type") ;;
  if eq_str type "node" then
    lat <- lift (py_getitem element "lat") ;;
    lon <- lift (py_getitem element "lon") ;;
    ret (lat, lon)
  else if eq_str type "way" then
    geometry <- lift (py_getitem element "geometry") ;;
    calculate_centroid v geometry
  else ret (PNone, PNone).

(** [d.get(key, default)] *)
Definition py_get_default (d : pyval) (key : string) (default : pyval) : result pyval :=
  match d with
  | PDict kv => Ok (match lookup key kv with Some x => x | None => default end)
  | _ => Raise AttributeError
  end.

(** The body of the loop over [filtered_osm_features]: the row appended for
    [element], if any. *)
Definition feature_row (v : variant) (element : pyval) : M (option row) :=
  name <- lift (rbind (py_getitem element "tags") (fun tags =>
                py_get_default tags "name" (PStr "Unnamed"))) ;;
  position <- coordinate v element ;;
  let lat := fst position in
  let lon := snd position in
  if truthy lat && truthy lon then
    d <- distance v lat lon ;;
    type <- lift (py_getitem element "type") ;;
    id <- lift (py_getitem element "id") ;;
    ret (Some [PStr "OSM"; name; lat; lon; d;
               PStr ("https://www.openstreetmap.org/" ++ py_str L type ++ "/" ++ py_str L id)])
  else ret None.

Fixpoint somes {A : Type} (l : list (option A)) : list A :=
  match l with
  | [] => []
  | Some x :: rest => x :: somes rest
  | None :: rest => somes rest
  end.

Definition features_placeholder : row :=
  [PStr "OSM"; PStr "No nearby features found"; PStr ""; PStr ""; PStr ""; PStr "null"].

(** The branch on [filtered_osm_features] that follows the filter. *)
Definition feature_rows (v : variant) (s : state) (filtered_osm_features : list pyval)
  : M (list row) :=
  match filtered_osm_features with
  | _ :: _ =>
      emitted <- mmap (feature_row v) filtered_osm_features ;;
      print ("Found " ++ string_of_Z (Z.of_nat (List.length filtered_osm_features))
             ++ " OSM features with radius: " ++ string_of_Z (current_radius s) ++ " meters") ;;;
      ret (somes emitted)
  | [] =>
      print ("No OSM features found with radius: "
             ++ string_of_Z (current_radius s) ++ " meters") ;;;
      ret [features_placeholder]
  end.

Definition header : row :=
  [PStr "Source"; PStr "Name"; PStr "Latitude"; PStr "Longitude";
   PStr "Distance (meters)"; PStr "URL"].

(** Whether the bytes of a string hold a lone surrogate: the byte [ED]
    followed by a byte from [A0] to [BF]. *)
Fixpoint has_surrogate (s : string) : bool :=
  match s with
  | String c ((String d _) as rest) =>
      (Nat.eqb (nat_of_ascii c) 237
       && Nat.leb 160 (nat_of_ascii d) && Nat.leb (nat_of_ascii d) 191)
      || has_surrogate rest
  | _ => false
  end.

(** The file is opened with [encoding="utf-8"]: the line of a row can be
    written unless one of its cells is a [str] holding a lone surrogate (a
    cell that is not a [str] is written as its [str()], which is ASCII for
    numbers and [None] and escapes the strings inside a list or dict). *)
Definition encodable_cell (cell : pyval) : bool :=
  match cell with
  | PStr s => negb (has_surrogate s)
  | _ => true
  end.

Definition encodable (r : row) : bool := forallb encodable_cell r.

(** [writer.writerow(header); writer.writerows(csv_data)]: the rows written
    before the first one that cannot be encoded, and the outcome. *)
Fixpoint writerows (rows : list row) : list row * result unit :=
  match rows with
  | [] => ([], Ok tt)
  | r :: rest =>
      if encodable r then
        let w := writerows rest in (r :: fst w, snd w)
      else ([], Raise UnicodeEncodeError)
  end.

(** The [with open(filename, ...)] block.  The file is created in any case;
    when a row cannot be encoded the block is left by the exception and the
    file holds the rows before that one. *)
Definition write_csv (filename : string) (rows : list row) : M unit :=
  match snd (writerows rows) with
  | Ok _ => tell (WriteCsv filename rows)
  | Raise e => ([WriteFailed filename (fst (writerows rows))], Raise e)
  end.

(** Everything after the loop: build [csv_data], write the file, print the
    summary.  The value is the list of rows written, header first. *)
Definition report (v : variant) (s : state) : M (list row) :=
  wiki <- wiki_rows v s ;;
  admin <- admin_row s ;;
  filtered_osm_features <- mfilter has_name (osm_features_data s) ;;
  features <- feature_rows v s filtered_osm_features ;;
  let csv_data := wiki ++ [admin] ++ features in
  let filename := strftime_now W in
  write_csv filename (header :: csv_data) ;;;
  print ("Results saved to " ++ filename) ;;;
  print ("Final radius used: " ++ string_of_Z (current_radius s) ++ " meters") ;;;
  n <- lift (py_len (wiki_results s)) ;;
  print ("Total Wikipedia results found: " ++ string_of_Z n) ;;;
  print ("Total OSM features found: "
         ++ string_of_Z (Z.of_nat (List.length filtered_osm_features))) ;;;
  ret (header :: csv_data).

(** The whole script.  [None]: the loop was still running when [fuel] ran out. *)
Definition main (v : variant) (fuel : nat) : M (option (list row)) :=
  exit <- controller_loop v fuel O initial_state ;;
  match exit with
  | Some (s, _) => rows <- report v s ;; ret (Some rows)
  | None => ret None
  end.

End Program.

(** The first cell of a row is the string [name]. *)
Definition first_field (name : string) (r : list pyval) : Prop := hd PNone r = PStr name.

(** ** Observations on traces, and the iteration bound *)

Definition nominatim_endpoint : string := "https://nominatim.openstreetmap.org/reverse".

(** Every pass of the loop submits exactly one reverse-geocoder call, so the
    passes a trace went through are counted by its Nominatim requests. *)
Definition is_admin_request (e : event) : bool :=
  match e with
  | HttpGet url _ _ => String.eqb url nominatim_endpoint
  | _ => false
  end.

Definition iterations_started (t : list event) : nat :=
  List.length (filter is_admin_request t).

Definition is_request (e : event) : bool :=
  match e with HttpGet _ _ _ => true | _ => false end.

Definition requests (t : list event) : list event := filter is_request t.

Definition is_sleep (e : event) : bool :=
  match e with Sleep _ => true | _ => false end.

Definition sleeps (t : list event) : list event := filter is_sleep t.

Definition is_write (e : event) : bool :=
  match e with WriteCsv _ _ => true | _ => false end.

(** The files a trace shows to have been created, written in full or not. *)
Definition is_file (e : event) : bool :=
  match e with WriteCsv _ _ | WriteFailed _ _ => true | _ => false end.

Definition files (t : list event) : list event := filter is_file t.

(** [ceil(a / b)] for a positive [b] *)
Definition ceil_div (a b : Z) : Z := (- ((- a) / b))%Z.

(** [ceil((maxRadius - initialRadius) / increment) + 1] *)
Definition iteration_bound (cfg : config) : Z :=
  (ceil_div (max_radius cfg - initial_radius cfg) (radius_increment cfg) + 1)%Z.

(** The list of hits the geosearch client handed to the controller, when it
    handed one: the client's value in [V1], the [geosearch] entry of the body
    in [V3]. *)
Definition returned_results (v : variant) (wiki : pyval) : option (list pyval) :=
  match v with
  | V1 => match wiki with PList l => Some l | _ => None end
  | V3 =>
      match rbind (py_getitem wiki "query") (fun q => py_getitem q "geosearch") with
      | Ok (PList l) => Some l
      | _ => None
      end
  end.

(** Modelled from the spec: the "geometric centroid" of a way in [V1] is
    computed by the shapely package, which is not part of the repository.
    This is the area centroid of the closed ring through the points
    [(x, y)], by the shoelace formula. *)
Fixpoint shoelace (first : Q * Q) (pts : list (Q * Q)) : Q * Q * Q :=
  match pts with
  | [] => (0, 0, 0)%Q
  | p :: rest =>
      let q := match rest with [] => first | q :: _ => q end in
      let cross := (fst p * snd q - fst q * snd p)%Q in
      let '(a, cx, cy) := shoelace first rest in
      (a + cross, cx + (fst p + fst q) * cross, cy + (snd p + snd q) * cross)%Q
  end.

Definition geometric_centroid (pts : list (Q * Q)) : Q * Q :=
  match pts with
  | [] => (0, 0)%Q
  | first :: _ =>
      let '(a, cx, cy) := shoelace first pts in
      (Qred (cx / (3 * a)), Qred (cy / (3 * a)))
  end.

(** The way of the specification's example: vertices (lat 1, lon 1),
    (lat 1, lon 3), (lat 3, lon 2). *)
Definition triangle : pyval :=
  PList [PDict [("lat", PInt 1); ("lon", PInt 1)];
         PDict [("lat", PInt 1); ("lon", PInt 3)];
         PDict [("lat", PInt 3); ("lon", PInt 2)]].

Definition triangle_way (id tags : pyval) : pyval :=
  PDict [("type", PStr "way"); ("id", id); ("tags", tags); ("geometry", triangle)].

(** ** Parts of the functions above, named for the statements below *)

(** The file writes a trace shows. *)
Definition writes (t : list event) : list event := filter is_write t.

(** The record the geosearch client of [V1] makes of one hit:
    [{"title": item["title"], "lat": item["lat"], "lon": item["lon"]}]. *)
Definition project_hit (item : pyval) : result pyval :=
  rbind (py_getitem item "title") (fun t =>
  rbind (py_getitem item "lat") (fun la =>
  rbind (py_getitem item "lon") (fun lo =>
  Ok (PDict [("title", t); ("lat", la); ("lon", lo)])))).

(** Modelled from the spec: the great-circle distance between two points of
    a sphere of radius 6,371,000 m, the radius times the angle between the
    position vectors of the points (coordinates in degrees). *)
Definition central_angle (lat1 lon1 lat2 lon2 : R) : R :=
  acos (sin (radians lat1) * sin (radians lat2)
        + cos (radians lat1) * cos (radians lat2) * cos (radians lon2 - radians lon1)).

Definition great_circle_distance (lat1 lon1 lat2 lon2 : R) : R :=
  (6371000 * central_angle lat1 lon1 lat2 lon2)%R.

(** Exact cases every float arithmetic and [math] library has: 0 and 1 are
    floats, rounding and the sine are odd, and the sine of 0, the square
    roots of 0 and 1 and the angle of the point (1, 0) are exact. *)
Definition sane_floats (F : floats) : Prop :=
  fl F 0 = 0%R /\ fl F 1 = 1%R /\ (forall x, fl F (- x) = (- fl F x)%R)
  /\ fsin F 0 = 0%R /\ (forall x, fsin F (- x) = (- fsin F x)%R)
  /\ fsqrt F 0 = 0%R /\ fsqrt F 1 = 1%R /\ fatan2 F 0 1 = 0%R.

(** The quantity [a] of [haversine_distance], whose square root and that of
    [1 - a] the function takes. *)
Definition haversine_a (lat1 lon1 lat2 lon2 : R) : R :=
  (sin (radians (lat2 - lat1) / 2) ^ 2
   + cos (radians lat1) * cos (radians lat2) * sin (radians (lon2 - lon1) / 2) ^ 2)%R.

(** ** Sample libraries and worlds, for running the model *)

Definition sample_str (x : pyval) : string :=
  match x with
  | PStr s => s
  | PInt z => string_of_Z z
  | _ => "?"
  end.

Definition points_of (pts : list (pyval * pyval)) : result (list (Q * Q)) :=
  rmap (fun p => rbind (as_number (fst p)) (fun x =>
                 rbind (as_number (snd p)) (fun y => Ok (x, y)))) pts.

(** Floats without rounding: the reals. *)
Definition exact_floats : floats :=
  {| fl := fun x => x; fsin := sin; fcos := cos; fsqrt := sqrt; fatan2 := atan2 |}.

(** Libraries that answer every distance query with 203.71 m and compute
    centroids by the shoelace formula. *)
Definition sample_libs : libs :=
  {| fp := exact_floats;
     py_str := sample_str;
     quote := fun s => Ok s;
     haversine := fun _ _ => Ok (20371 # 100);
     polygon_centroid := fun pts => rbind (points_of pts) (fun qs => Ok (geometric_centroid qs)) |}.

Definition reply (status : Z) (body : pyval) : response :=
  {| status_code := status; json := Ok body |}.

Definition server_error : response :=
  {| status_code := 500; json := Raise JSONDecodeError |}.

Definition white_house (v : variant) : pyval :=
  PDict [("pageid", PInt 33057); ("title", PStr "White House");
         ("lat", PFloat (center_lat (default_config v)));
         ("lon", PFloat (center_lon (default_config v)))].

Definition fullurl_body : pyval :=
  PDict [("query", PDict [("pages", PDict [("33057",
           PDict [("pageid", PInt 33057);
                  ("fullurl", PStr "https://en.wikipedia.org/wiki/White_House")])])])].

Definition place (title : string) (lat lon : Q) : pyval :=
  PDict [("pageid", PInt 1); ("ns", PInt 0); ("title", PStr title);
         ("lat", PFloat lat); ("lon", PFloat lon); ("dist", PFloat 0); ("primary", PStr "")].

Definition two_places : list pyval :=
  [place "White House" (388977 # 10000) (- (770365 # 10000));
   place "Lafayette Square" (388995 # 10000) (- (770366 # 10000))].

Definition five_places : list pyval :=
  two_places ++
  [place "Blair House" (388990 # 10000) (- (770386 # 10000));
   place "Treasury Building" (388976 # 10000) (- (770344 # 10000));
   place "Renwick Gallery" (388988 # 10000) (- (770390 # 10000))].

Definition geosearch_body (hits : list pyval) : pyval :=
  PDict [("batchcomplete", PStr ""); ("query", PDict [("geosearch", PList hits)])].

Definition washington : pyval :=
  PDict [("place_id", PInt 1); ("display_name", PStr "Washington, District of Columbia, United States")].

Definition cafe : pyval :=
  PDict [("type", PStr "node"); ("id", PInt 42);
         ("lat", PFloat (388981 # 10000)); ("lon", PFloat (- (770370 # 10000)));
         ("tags", PDict [("amenity", PStr "cafe"); ("name", PStr "Corner Cafe")])].

Definition bench : pyval :=
  PDict [("type", PStr "node"); ("id", PInt 43);
         ("lat", PFloat (388982 # 10000)); ("lon", PFloat (- (770371 # 10000)));
         ("tags", PDict [("amenity", PStr "bench")])].

Definition overpass_body (elements : list pyval) : pyval :=
  PDict [("version", PFloat (6 # 10)); ("elements", PList elements)].

(** Two hits in the first pass and five from the second on; the geocoder
    fails once and then answers; Overpass is rate limited once per pass. *)
Definition sample_world : world :=
  {| geosearch_reply := fun k =>
       match k with
       | O => reply 200 (geosearch_body two_places)
       | S _ => reply 200 (geosearch_body five_places)
       end;
     nominatim_reply := fun k =>
       match k with O => server_error | S _ => reply 200 washington end;
     overpass_reply := fun _ attempt =>
       match attempt with
       | O => {| status_code := 429; json := Raise JSONDecodeError |}
       | S _ => reply 200 (overpass_body
                  [cafe; bench; triangle_way (PInt 44) (PDict [("name", PStr "Triangle Hall")])])
       end;
     wikiurl_reply := fun _ => reply 200 fullurl_body;
     recursion_limit := 900;
     strftime_now := "results 04 Nov 2026_12-00-00.csv" |}.

(** The geocoder answers 200 with an error record; everything else fails. *)
Definition geocode_error_world : world :=
  {| geosearch_reply := fun _ => server_error;
     nominatim_reply := fun _ => reply 200 (PDict [("error", PStr "Unable to geocode")]);
     overpass_reply := fun _ _ => server_error;
     wikiurl_reply := fun _ => server_error;
     recursion_limit := 900;
     strftime_now := "results 04 Nov 2026_12-00-00.csv" |}.

(** Overpass returns one named element that is neither a node nor a way. *)
Definition relation_world : world :=
  {| geosearch_reply := fun _ => server_error;
     nominatim_reply := fun _ => server_error;
     overpass_reply := fun _ _ =>
       reply 200 (overpass_body
         [PDict [("type", PStr "relation"); ("id", PInt 7);
                 ("tags", PDict [("name", PStr "President's Park")])]]);
     wikiurl_reply := fun _ => server_error;
     recursion_limit := 900;
     strftime_now := "results 04 Nov 2026_12-00-00.csv" |}.

(** Every server answers every request with status 500. *)
Definition outage_world : world :=
  {| geosearch_reply := fun _ => server_error;
     nominatim_reply := fun _ => server_error;
     overpass_reply := fun _ _ => server_error;
     wikiurl_reply := fun _ => server_error;
     recursion_limit := 900;
     strftime_now := "results 04 Nov 2026_12-00-00.csv" |}.

(** As [sample_world], but the reverse geocoder answers every request with
    status 200 and a body that cannot be decoded. *)
Definition garbled_geocoder_world : world :=
  {| geosearch_reply := geosearch_reply sample_world;
     nominatim_reply := fun _ => {| status_code := 200; json := Raise JSONDecodeError |};
     overpass_reply := overpass_reply sample_world;
     wikiurl_reply := wikiurl_reply sample_world;
     recursion_limit := recursion_limit sample_world;
     strftime_now := strftime_now sample_world |}.

(** The named element of [relation_world]. *)
Definition presidents_park : pyval :=
  PDict [("type", PStr "relation"); ("id", PInt 7);
         ("tags", PDict [("name", PStr "President's Park")])].

(** The three bytes of the lone surrogate U+D800. *)
Definition lone_surrogate : string :=
  String (ascii_of_nat 237) (String (ascii_of_nat 160) (String (ascii_of_nat 128) "")).

(** Overpass returns one node, whose name holds a lone surrogate; everything
    else fails. *)
Definition surrogate_world : world :=
  {| geosearch_reply := fun _ => server_error;
     nominatim_reply := fun _ => server_error;
     overpass_reply := fun _ _ =>
       reply 200 (overpass_body
         [PDict [("type", PStr "node"); ("id", PInt 45);
                 ("lat", PFloat (388981 # 10000)); ("lon", PFloat (- (770370 # 10000)));
                 ("tags", PDict [("name", PStr ("Caf" ++ lone_surrogate))])]]);
     wikiurl_reply := fun _ => server_error;
     recursion_limit := 900;
     strftime_now := "results 04 Nov 2026_12-00-00.csv" |}.

(** Overpass is rate limited for good. *)
Definition always_busy (attempt : nat) : response :=
  {| status_code := 429; json := Raise JSONDecodeError |}.


(** The state in which the loop of [V3] ends in [sample_world]. *)
Definition sample_exit : state :=
  Eval vm_compute in
    match snd (controller_loop sample_libs sample_world (default_config V3) V3 25 O
                 (initial_state (default_config V3))) with
    | Ok (Some (s, _)) => s
    | _ => initial_state (default_config V3)
    end.

(** Overpass answers 429 once and then succeeds. *)
Definition busy_once (attempt : nat) : response :=
  match attempt with
  | O => {| status_code := 429; json := Raise JSONDecodeError |}
  | S _ => reply 200 (overpass_body [cafe])
  end.

(** A URL lookup answered 200 for a title the wiki does not know. *)
Definition missing_page_body : pyval :=
  PDict [("batchcomplete", PStr "");
         ("query", PDict [("pages", PDict [("-1",
            PDict [("title", PStr ""); ("invalidreason", PStr "The requested page title is empty.");
                   ("invalid", PStr "")])])])].

(** ** Replies of the expected shape *)

(** A coordinate: a number of magnitude at most 1000 (a latitude or a
    longitude in degrees is well within), so that no float made of
    coordinates overflows. *)
Definition is_coordinate (x : pyval) : bool :=
  match as_number x with
  | Ok q => Qle_bool (- (1000 # 1)) q && Qle_bool q (1000 # 1)
  | Raise _ => false
  end.

(** A geosearch hit: a title string and [lat] and [lon] coordinates. *)
Definition well_formed_place (p : pyval) : bool :=
  match py_getitem p "title", py_getitem p "lat", py_getitem p "lon" with
  | Ok (PStr _), Ok lat, Ok lon => is_coordinate lat && is_coordinate lon
  | _, _, _ => false
  end.

Definition well_formed_geosearch (body : pyval) : bool :=
  match rbind (py_getitem body "query") (fun q => py_getitem q "geosearch") with
  | Ok (PList hits) => forallb well_formed_place hits
  | _ => false
  end.

(** Nothing, or a record with a [display_name]. *)
Definition well_formed_admin (body : pyval) : bool :=
  negb (truthy body)
  || match py_getitem body "display_name" with Ok _ => true | Raise _ => false end.

Definition well_formed_vertex (n : pyval) : bool :=
  match py_getitem n "lat", py_getitem n "lon" with
  | Ok lat, Ok lon => is_coordinate lat && is_coordinate lon
  | _, _ => false
  end.

(** An Overpass element: a record; when it carries tags they are a record
    and the element has an id and a type, a node its coordinate and a way
    its list of vertices. *)
Definition well_formed_element (e : pyval) : bool :=
  match e with
  | PDict kv =>
      match lookup "tags" kv with
      | None => true
      | Some (PDict _) =>
          match lookup "type" kv, lookup "id" kv with
          | Some type, Some _ =>
              if eq_str type "node" then well_formed_vertex e
              else if eq_str type "way" then
                match lookup "geometry" kv with
                | Some (PList nodes) => forallb well_formed_vertex nodes
                | _ => false
                end
              else true
          | _, _ => false
          end
      | Some _ => false
      end
  | _ => false
  end.

Definition well_formed_overpass (body : pyval) : bool :=
  match body with
  | PNone => true
  | PDict kv =>
      match lookup "elements" kv with
      | None => true
      | Some (PList elements) => forallb well_formed_element elements
      | Some _ => false
      end
  | _ => false
  end.

(** The answer to a URL lookup: the first page carries [fullurl]. *)
Definition well_formed_pages (body : pyval) : bool :=
  match rbind (py_getitem body "query") (fun q => py_getitem q "pages") with
  | Ok (PDict ((_, page) :: _)) =>
      match py_getitem page "fullurl" with Ok _ => true | Raise _ => false end
  | _ => false
  end.

(** A reply is as expected when, if its status is 200, its body decodes to
    a value of the given shape. *)
Definition expected_reply (shape : pyval -> bool) (r : response) : Prop :=
  status_code r = 200%Z -> exists body, json r = Ok body /\ shape body = true.

(** The servers answer in the expected shapes, and in every pass Overpass
    stops answering 429 before the recursion limit is reached. *)
Definition well_behaved (W : world) : Prop :=
  (forall k, expected_reply well_formed_geosearch (geosearch_reply W k))
  /\ (forall k, expected_reply well_formed_admin (nominatim_reply W k))
  /\ (forall k, exists attempts,
         (attempts < recursion_limit W)%nat
         /\ (forall j, (j < attempts)%nat -> status_code (overpass_reply W k j) = 429%Z)
         /\ status_code (overpass_reply W k attempts) <> 429%Z
         /\ expected_reply well_formed_overpass (overpass_reply W k attempts))
  /\ (forall i, expected_reply well_formed_pages (wikiurl_reply W i)).

(** The computations on a hit return: the distance of its coordinate from
    the centre (the [haversine] package in [V1], the float evaluation of
    [haversine_distance] in [V3], which raises [ValueError] when rounding
    takes [a] out of the domain of a square root) and, in [V1], the quoting
    of its title (which raises on a lone surrogate). *)
Definition place_computes (L : libs) (cfg : config) (v : variant) (p : pyval) : Prop :=
  (forall lat lon,
      py_getitem p "lat" = Ok lat -> py_getitem p "lon" = Ok lon ->
      exists d, snd (distance L cfg v lat lon) = Ok d)
  /\ (v = V1 ->
      forall t, py_getitem p "title" = Ok (PStr t) ->
                exists u, quote L (replace_spaces t) = Ok u).

(** The computations on an element return: its coordinate (for a way the
    centroid, by [shapely] in [V1]) and, when a row is due, the distance. *)
Definition element_computes (L : libs) (cfg : config) (v : variant) (e : pyval) : Prop :=
  exists lat lon,
    snd (coordinate L v e) = Ok (lat, lon)
    /\ (truthy lat && truthy lon = true -> exists d, snd (distance L cfg v lat lon) = Ok d).

Definition named_computes (L : libs) (cfg : config) (v : variant) (e : pyval) : Prop :=
  snd (has_name e) = Ok true -> element_computes L cfg v e.

(** The computations return on every hit and every named element that a
    reply of the servers holds. *)
Definition computations_return (L : libs) (W : world) (cfg : config) (v : variant) : Prop :=
  (forall k body hits hit,
      json (geosearch_reply W k) = Ok body ->
      rbind (py_getitem body "query") (fun q => py_getitem q "geosearch") = Ok (PList hits) ->
      In hit hits -> place_computes L cfg v hit)
  /\ (forall k j body elements e,
         json (overpass_reply W k j) = Ok body ->
         py_getitem body "elements" = Ok (PList elements) ->
         In e elements -> named_computes L cfg v e).

Definition well_formed_state (s : state) : Prop :=
  (exists hits, wiki_results s = PList hits /\ forallb well_formed_place hits = true)
  /\ well_formed_admin (osm_admin_data s) = true
  /\ forallb well_formed_element (osm_features_data s) = true.

Definition computable_state (L : libs) (cfg : config) (v : variant) (s : state) : Prop :=
  (forall hits, wiki_results s = PList hits -> Forall (place_computes L cfg v) hits)
  /\ Forall (named_computes L cfg v) (osm_features_data s).

(** * Properties *)

(** ** Reasoning in the monad *)

Lemma bind_pair {A B : Type} (t : list event) (r : result A) (k : A -> M B) :
  bind (t, r) k =
  match r with
  | Ok a => (t ++ fst (k a), snd (k a))
  | Raise e => (t, Raise e)
  end.
Proof. reflexivity. Qed.

Lemma bind_value_ok {A B : Type} (m : M A) (k : A -> M B) (b : B) :
  snd (bind m k) = Ok b -> exists a, snd m = Ok a /\ snd (k a) = Ok b.
Proof.
  unfold bind. destruct (snd m) as [a | e]; simpl; intro H.
  - exists a. split; [reflexivity | exact H].
  - discriminate H.
Qed.

Lemma bind_trace {A B : Type} (m : M A) (k : A -> M B) :
  fst (bind m k) =
  match snd m with
  | Ok a => fst m ++ fst (k a)
  | Raise _ => fst m
  end.
Proof. unfold bind. destruct (snd m); reflexivity. Qed.

Lemma bind_value {A B : Type} (m : M A) (k : A -> M B) :
  snd (bind m k) =
  match snd m with
  | Ok a => snd (k a)
  | Raise e => Raise e
  end.
Proof. unfold bind. destruct (snd m); reflexivity. Qed.

Lemma bind_lift {A B : Type} (r : result A) (k : A -> M B) :
  bind (lift r) k = match r with Ok a => k a | Raise e => ([], Raise e) end.
Proof. destruct r; unfold bind, lift; simpl; [destruct (k a) |]; reflexivity. Qed.

Lemma bind_ret {A B : Type} (a : A) (k : A -> M B) : bind (ret a) k = k a.
Proof. unfold bind, ret; simpl. destruct (k a); reflexivity. Qed.

Lemma bind_tell {B : Type} (e : event) (k : unit -> M B) :
  bind (tell e) k = (e :: fst (k tt), snd (k tt)).
Proof. reflexivity. Qed.

Lemma bind_print {B : Type} (line : string) (k : unit -> M B) :
  bind (print line) k = (Print line :: fst (k tt), snd (k tt)).
Proof. reflexivity. Qed.

Lemma bind_raise {A B : Type} (e : exn) (k : A -> M B) : bind (raise e) k = ([], Raise e).
Proof. reflexivity. Qed.

Lemma bind_future_result {A B : Type} (r : result A) (k : A -> M B) :
  bind (future_result r) k = match r with Ok a => k a | Raise e => ([], Raise e) end.
Proof. apply bind_lift. Qed.

Lemma bind_submit {A B : Type} (task : M A) (k : result A -> M B) :
  bind (submit task) k = (fst task ++ fst (k (snd task)), snd (k (snd task))).
Proof. reflexivity. Qed.

Ltac msimpl :=
  repeat (rewrite ?bind_lift, ?bind_ret, ?bind_tell, ?bind_print, ?bind_raise,
            ?bind_future_result, ?bind_submit; cbn [fst snd]).

Ltac branch :=
  match goal with
  | |- context [match ?r with Ok _ => _ | Raise _ => _ end] => destruct r eqn:?
  | |- context [if ?b then _ else _] => destruct b eqn:?
  end.

Lemma filter_length_app {A : Type} (f : A -> bool) (l1 l2 : list A) :
  List.length (filter f (l1 ++ l2)) =
  (List.length (filter f l1) + List.length (filter f l2))%nat.
Proof. rewrite filter_app, length_app. reflexivity. Qed.

(** ** The clients on a failed request (C8) and on rate limiting (C3) *)

Section Clients.

Variable L : libs.

Lemma nearby_features_unfold (depth : nat) (http : nat -> response)
  (lat lon : pyval) (radius : Z) :
  get_osm_nearby_features L (S depth) http lat lon radius =
  if (status_code (http O) =? 200)%Z then
    ([overpass_request L lat lon radius], json (http O))
  else if (status_code (http O) =? 429)%Z then
    (overpass_request L lat lon radius :: Print "Rate limit hit, sleeping for 1 minute"
       :: Sleep 60 :: fst (get_osm_nearby_features L depth (shift http) lat lon radius),
     snd (get_osm_nearby_features L depth (shift http) lat lon radius))
  else
    ([overpass_request L lat lon radius;
      Print ("Error fetching OSM features: " ++ string_of_Z (status_code (http O)))],
     Ok PNone).
Proof.
  cbn [get_osm_nearby_features].
  destruct (status_code (http O) =? 200)%Z.
  - unfold bind, tell, lift; simpl. destruct (json (http O)); reflexivity.
  - destruct (status_code (http O) =? 429)%Z.
    + unfold bind at 1, tell. cbn [snd fst].
      unfold bind at 1, print, tell. cbn [snd fst].
      unfold bind at 1, sleep, tell. cbn [snd fst].
      destruct (get_osm_nearby_features L depth (shift http) lat lon radius) as [t r].
      reflexivity.
    + reflexivity.
Qed.

Lemma geosearch_requests (v : variant) (http : response) (lat lon : pyval)
  (radius limit : Z) :
  List.length (requests (fst (get_wikipedia_geosearch L v http lat lon radius limit))) = 1%nat
  /\ sleeps (fst (get_wikipedia_geosearch L v http lat lon radius limit)) = [].
Proof.
  unfold get_wikipedia_geosearch.
  destruct (status_code http =? 200)%Z; [destruct v |]; msimpl;
    repeat (branch; msimpl); split; reflexivity.
Qed.

Lemma admin_requests (http : response) (lat lon : pyval) :
  requests (fst (get_osm_administrative_info http lat lon))
  = [HttpGet nominatim_endpoint
       (PDict [("format", PStr "json"); ("lat", lat); ("lon", lon);
               ("zoom", PInt 10); ("addressdetails", PInt 1)]) user_agent]
  /\ sleeps (fst (get_osm_administrative_info http lat lon)) = [].
Proof.
  unfold get_osm_administrative_info.
  destruct (status_code http =? 200)%Z; msimpl; repeat (branch; msimpl);
    split; reflexivity.
Qed.

Lemma wikipedia_url_requests (v : variant) (http : response) (title : pyval) :
  (List.length (requests (fst (get_wikipedia_url L v http title))) <= 1)%nat
  /\ sleeps (fst (get_wikipedia_url L v http title)) = [].
Proof.
  unfold get_wikipedia_url. destruct v.
  - destruct title as [| | | | t | |]; try (split; simpl; auto; fail).
    msimpl. destruct (quote L (replace_spaces t)); split; simpl; auto.
  - destruct (status_code http =? 200)%Z; msimpl; repeat (branch; msimpl);
      split; simpl; auto.
Qed.

(** C8.  A client that receives a status other than 200 (and, for the
    nearby-features client, other than 429) performs its one request, prints
    one line carrying the status code, and returns normally with an empty
    list ([V1] geosearch) or [None] (all the others): nothing is raised. *)
Theorem failed_request_is_logged_and_absent
  (v : variant) (replies : nat -> response) (depth : nat)
  (lat lon title : pyval) (radius limit : Z) :
  status_code (replies O) <> 200%Z ->
  status_code (replies O) <> 429%Z ->
  let http := replies O in
  let code := string_of_Z (status_code http) in
  (exists request,
     get_wikipedia_geosearch L v http lat lon radius limit
     = ([request; Print ("Error fetching Wikipedia geosearch data: " ++ code)],
        Ok (match v with V1 => PList [] | V3 => PNone end))
     /\ is_request request = true)
  /\ (exists request,
        get_osm_administrative_info http lat lon
        = ([request; Print ("Error fetching OSM data: " ++ code)], Ok PNone)
        /\ is_request request = true)
  /\ get_osm_nearby_features L (S depth) replies lat lon radius
     = ([overpass_request L lat lon radius;
         Print ("Error fetching OSM features: " ++ code)], Ok PNone)
  /\ (exists request,
        get_wikipedia_url L V3 http title
        = ([request; Print ("Error fetching URL for " ++ py_str L title ++ ": " ++ code)],
           Ok PNone)
        /\ is_request request = true).
Proof.
  intros H200 H429 http code. subst http code.
  apply Z.eqb_neq in H200. apply Z.eqb_neq in H429.
  split; [| split; [| split]].
  - eexists. unfold get_wikipedia_geosearch. rewrite H200. split; reflexivity.
  - eexists. unfold get_osm_administrative_info. rewrite H200. split; reflexivity.
  - rewrite nearby_features_unfold. rewrite H200, H429. reflexivity.
  - eexists. unfold get_wikipedia_url. rewrite H200. split; reflexivity.
Qed.

Lemma nearby_features_not_limited (depth : nat) (http : nat -> response)
  (lat lon : pyval) (radius : Z) :
  status_code (http O) <> 429%Z ->
  requests (fst (get_osm_nearby_features L (S depth) http lat lon radius))
  = [overpass_request L lat lon radius]
  /\ sleeps (fst (get_osm_nearby_features L (S depth) http lat lon radius)) = [].
Proof.
  intro Hother. apply Z.eqb_neq in Hother.
  rewrite nearby_features_unfold, Hother.
  destruct (status_code (http O) =? 200)%Z; split; reflexivity.
Qed.

(** [n] answers 429 in a row cost [n] pauses and [n + 1] identical requests. *)
Lemma nearby_features_limited (lat lon : pyval) (radius : Z) (depth : nat) :
  forall (n : nat) (http : nat -> response),
    (forall j, (j < n)%nat -> status_code (http j) = 429%Z) ->
    status_code (http n) <> 429%Z ->
    requests (fst (get_osm_nearby_features L (S n + depth) http lat lon radius))
    = repeat (overpass_request L lat lon radius) (S n)
    /\ sleeps (fst (get_osm_nearby_features L (S n + depth) http lat lon radius))
       = repeat (Sleep 60) n.
Proof.
  induction n as [| n IH]; intros http Hbusy Hlast.
  - apply nearby_features_not_limited. exact Hlast.
  - change (S (S n) + depth)%nat with (S (S n + depth)).
    rewrite nearby_features_unfold, (Hbusy O) by lia. cbn [Z.eqb Pos.eqb fst].
    destruct (IH (shift http)) as (Hr & Hs).
    + intros j Hj. apply (Hbusy (S j)). lia.
    + exact Hlast.
    + split.
      * change (requests (?a :: Print ?p :: Sleep ?k :: ?t)) with (a :: requests t).
        rewrite Hr. reflexivity.
      * change (sleeps (?a :: Print ?p :: Sleep ?k :: ?t)) with (Sleep k :: sleeps t).
        rewrite Hs. reflexivity.
Qed.

(** C3.  A 429 answer to the nearby-features client makes it print a line,
    sleep 60 seconds once and issue the very same request once more: the
    call continues as the same call on the remaining replies.  When the
    retry is not itself answered 429 the call has made exactly two requests
    and one pause; in general [n] answers 429 in a row cost [n] pauses of 60
    seconds and [n + 1] identical requests.  Nothing else is retried: any
    other answer to this client leaves it at one request and no pause, and
    the geosearch, reverse-geocoder and URL clients never issue a second
    request nor sleep, whatever they receive. *)
Theorem rate_limit_pause_and_retry
  (depth : nat) (http : nat -> response) (lat lon : pyval) (radius : Z) :
  status_code (http O) = 429%Z ->
  let again := get_osm_nearby_features L depth (shift http) lat lon radius in
  get_osm_nearby_features L (S depth) http lat lon radius
  = (overpass_request L lat lon radius :: Print "Rate limit hit, sleeping for 1 minute"
       :: Sleep 60 :: fst again, snd again)
  /\ (status_code (http 1%nat) <> 429%Z ->
      requests (fst (get_osm_nearby_features L (S (S depth)) http lat lon radius))
      = [overpass_request L lat lon radius; overpass_request L lat lon radius]
      /\ sleeps (fst (get_osm_nearby_features L (S (S depth)) http lat lon radius))
         = [Sleep 60])
  /\ (forall (n : nat) (other : nat -> response),
        (forall j, (j < n)%nat -> status_code (other j) = 429%Z) ->
        status_code (other n) <> 429%Z ->
        requests (fst (get_osm_nearby_features L (S n + depth) other lat lon radius))
        = repeat (overpass_request L lat lon radius) (S n)
        /\ sleeps (fst (get_osm_nearby_features L (S n + depth) other lat lon radius))
           = repeat (Sleep 60) n)
  /\ (forall (v : variant) (reply : response) (title : pyval) (limit : Z),
        List.length (requests (fst (get_wikipedia_geosearch L v reply lat lon radius limit)))
        = 1%nat
        /\ sleeps (fst (get_wikipedia_geosearch L v reply lat lon radius limit)) = []
        /\ List.length (requests (fst (get_osm_administrative_info reply lat lon))) = 1%nat
        /\ sleeps (fst (get_osm_administrative_info reply lat lon)) = []
        /\ (List.length (requests (fst (get_wikipedia_url L v reply title))) <= 1)%nat
        /\ sleeps (fst (get_wikipedia_url L v reply title)) = []).
Proof.
  intros H429 again.
  split; [| split; [| split]].
  - rewrite nearby_features_unfold, H429. reflexivity.
  - intros Hnext.
    apply (nearby_features_limited lat lon radius depth 1 http); [| exact Hnext].
    intros [| j] Hj; [exact H429 | lia].
  - apply nearby_features_limited.
  - intros v reply title limit.
    destruct (geosearch_requests v reply lat lon radius limit) as [G1 G2].
    destruct (admin_requests reply lat lon) as [A1 A2].
    destruct (wikipedia_url_requests v reply title) as [U1 U2].
    rewrite A1. repeat split; assumption || reflexivity.
Qed.

End Clients.

(** ** The controller loop (C1, C2, C4) *)

Section Controller.

Variable L : libs.
Variable W : world.
Variable cfg : config.

Lemma loop_cond_trace (s : state) : fst (loop_cond cfg s) = [].
Proof. unfold loop_cond. repeat (branch; msimpl); reflexivity. Qed.

Lemma loop_cond_true (s : state) :
  snd (loop_cond cfg s) = Ok true ->
  (current_radius s <= max_radius cfg)%Z
  /\ exists n, py_len (wiki_results s) = Ok n /\ (0 <= n < min_results cfg)%Z.
Proof.
  unfold loop_cond.
  destruct (current_radius s <=? max_radius cfg)%Z eqn:Hr; [| discriminate].
  msimpl. destruct (py_len (wiki_results s)) as [n | e] eqn:Hn; [| discriminate].
  cbn. intro H. injection H as H. apply Z.ltb_lt in H. apply Z.leb_le in Hr.
  split; [assumption |]. exists n. split; [reflexivity |].
  split; [| assumption].
  destruct (wiki_results s); try discriminate; injection Hn as <-; lia.
Qed.

Lemma loop_cond_enough (s : state) (n : Z) :
  py_len (wiki_results s) = Ok n -> (min_results cfg <= n)%Z ->
  loop_cond cfg s = ([], Ok false).
Proof.
  intros Hn Hmin. unfold loop_cond.
  destruct (current_radius s <=? max_radius cfg)%Z; [| reflexivity].
  msimpl. rewrite Hn. unfold ret. do 2 f_equal. apply Z.ltb_ge. assumption.
Qed.

Lemma geosearch_hits_trace (wiki : pyval) : fst (geosearch_hits wiki) = [].
Proof. unfold geosearch_hits. repeat (branch; msimpl); reflexivity. Qed.

Lemma merge_features_trace (data : list pyval) (osm_features : pyval) :
  fst (merge_features data osm_features) = [].
Proof. unfold merge_features. repeat (branch; msimpl); reflexivity. Qed.

(** What the end of a pass that returns normally has done to the state. *)
Lemma decide_ok (v : variant) (s : state) (wiki : pyval) (s' : state) (b : bool) :
  snd (decide cfg v s wiki) = Ok (s', b) ->
  osm_admin_data s' = osm_admin_data s
  /\ osm_features_data s' = osm_features_data s
  /\ ((b = true /\ current_radius s' = current_radius s)
      \/ (b = false /\ current_radius s' = (current_radius s + radius_increment cfg)%Z)
      \/ (b = false /\ current_radius s' = current_radius s
          /\ exists n, py_len (wiki_results s') = Ok n /\ (min_results cfg <= n)%Z)).
Proof.
  destruct (decide cfg v s wiki) as [t r] eqn:E. cbn [snd]. intros ->.
  revert E. unfold decide. destruct v.
  - repeat (branch; msimpl); intro H; inversion H; subst; clear H;
      cbn [osm_admin_data osm_features_data current_radius wiki_results
           set_wiki_results increase_radius]; auto 6.
  - destruct (geosearch_hits wiki) as [th [[hits |] | e]]; rewrite bind_pair;
      cbn [fst snd]; msimpl; repeat (branch; msimpl); intro H; inversion H; subst; clear H;
      cbn [osm_admin_data osm_features_data current_radius wiki_results
           set_wiki_results increase_radius]; auto 6.
    split; [reflexivity | split; [reflexivity |]].
    right. right. repeat split. exists a. split; [assumption | lia].
Qed.

Lemma decide_no_admin_request (v : variant) (s : state) (wiki : pyval) :
  filter is_admin_request (fst (decide cfg v s wiki)) = [].
Proof.
  unfold decide. destruct v.
  - repeat (branch; msimpl); reflexivity.
  - pose proof (geosearch_hits_trace wiki) as Ht.
    destruct (geosearch_hits wiki) as [th [[hits |] | e]]; cbn [fst] in Ht; subst th;
      rewrite bind_pair; cbn [fst snd app]; msimpl; repeat (branch; msimpl); reflexivity.
Qed.

(** With enough hits the end of the pass keeps them and leaves the radius alone:
    [V1] breaks, [V3] falls through to a loop test that now fails. *)
Lemma decide_enough (v : variant) (s : state) (wiki : pyval) (l : list pyval) :
  returned_results v wiki = Some l ->
  (0 < min_results cfg)%Z ->
  (min_results cfg <= Z.of_nat (List.length l))%Z ->
  snd (decide cfg v s wiki)
  = Ok (set_wiki_results s (PList l), match v with V1 => true | V3 => false end).
Proof.
  intros Hres Hpos Hmin.
  assert (Hl : truthy (PList l) = true).
  { destruct l; [cbn in Hmin; lia | reflexivity]. }
  unfold decide. destruct v; cbn [returned_results] in Hres.
  - destruct wiki; try discriminate. injection Hres as ->.
    rewrite Hl. msimpl. cbn [py_len].
    apply Z.leb_le in Hmin. rewrite Hmin. reflexivity.
  - unfold geosearch_hits.
    destruct wiki as [| | | | | | kv]; try discriminate.
    cbn [py_getitem rbind] in Hres.
    destruct (lookup "query" kv) as [q |] eqn:Hq; [| discriminate].
    assert (Hkv : truthy (PDict kv) = true) by (destruct kv; [discriminate | reflexivity]).
    rewrite Hkv. msimpl. cbn [py_in]. rewrite Hq. msimpl.
    cbn [py_getitem rbind]. rewrite Hq.
    cbn [rbind] in Hres |- *.
    destruct (py_getitem q "geosearch") as [hits | e]; [| discriminate].
    destruct hits; try discriminate. injection Hres as ->.
    msimpl. rewrite Hl. msimpl. cbn [py_len].
    apply Z.leb_le in Hmin. rewrite Hmin. reflexivity.
Qed.

(** The value of a pass, with the three futures named. *)
Lemma loop_body_value (v : variant) (k : nat) (s : state) :
  snd (loop_body L W cfg v k s)
  = match snd (geosearch_call L W cfg v k s) with
    | Raise e => Raise e
    | Ok wiki =>
        match (if truthy (osm_admin_data s) then Ok (osm_admin_data s)
               else snd (admin_call W cfg k)) with
        | Raise e => Raise e
        | Ok admin =>
            match snd (features_call L W cfg k s) with
            | Raise e => Raise e
            | Ok osm_features =>
                match snd (merge_features (osm_features_data s) osm_features) with
                | Raise e => Raise e
                | Ok features =>
                    snd (decide cfg v {| current_radius := current_radius s;
                                         wiki_results := wiki_results s;
                                         osm_admin_data := admin;
                                         osm_features_data := features |} wiki)
                end
            end
        end
    end.
Proof.
  unfold loop_body. msimpl.
  destruct (snd (geosearch_call L W cfg v k s)); [| reflexivity].
  destruct (truthy (osm_admin_data s)); msimpl.
  - destruct (snd (features_call L W cfg k s)); [| reflexivity].
    rewrite bind_value. reflexivity.
  - destruct (snd (admin_call W cfg k)); [| reflexivity].
    msimpl.
    destruct (snd (features_call L W cfg k s)); [| reflexivity].
    rewrite bind_value. reflexivity.
Qed.

Lemma loop_body_ok (v : variant) (k : nat) (s s' : state) (b : bool) :
  snd (loop_body L W cfg v k s) = Ok (s', b) ->
  (if truthy (osm_admin_data s) then osm_admin_data s' = osm_admin_data s
   else snd (admin_call W cfg k) = Ok (osm_admin_data s'))
  /\ ((b = true /\ current_radius s' = current_radius s)
      \/ (b = false /\ current_radius s' = (current_radius s + radius_increment cfg)%Z)
      \/ (b = false /\ current_radius s' = current_radius s
          /\ exists n, py_len (wiki_results s') = Ok n /\ (min_results cfg <= n)%Z)).
Proof.
  rewrite loop_body_value.
  destruct (snd (geosearch_call L W cfg v k s)) as [wiki | e]; [| discriminate].
  destruct (truthy (osm_admin_data s)) eqn:Hcached.
  - destruct (snd (features_call L W cfg k s)) as [f | e]; [| discriminate].
    destruct (snd (merge_features (osm_features_data s) f)) as [fs | e]; [| discriminate].
    intro H. apply decide_ok in H. cbn [osm_admin_data current_radius] in H.
    destruct H as (Ha & _ & Hp). split; assumption.
  - destruct (snd (admin_call W cfg k)) as [admin | e]; [| discriminate].
    destruct (snd (features_call L W cfg k s)) as [f | e]; [| discriminate].
    destruct (snd (merge_features (osm_features_data s) f)) as [fs | e]; [| discriminate].
    intro H. apply decide_ok in H. cbn [osm_admin_data current_radius] in H.
    destruct H as (Ha & _ & Hp). split; [congruence | assumption].
Qed.

Lemma iterations_started_app (t1 t2 : list event) :
  iterations_started (t1 ++ t2) = (iterations_started t1 + iterations_started t2)%nat.
Proof. apply filter_length_app. Qed.

Lemma geosearch_no_admin_request (v : variant) (http : response) (lat lon : pyval)
  (radius limit : Z) :
  iterations_started (fst (get_wikipedia_geosearch L v http lat lon radius limit)) = O.
Proof.
  unfold get_wikipedia_geosearch.
  destruct (status_code http =? 200)%Z; [destruct v |]; msimpl;
    repeat (branch; msimpl); reflexivity.
Qed.

Lemma admin_one_admin_request (http : response) (lat lon : pyval) :
  iterations_started (fst (get_osm_administrative_info http lat lon)) = 1%nat.
Proof.
  unfold get_osm_administrative_info.
  destruct (status_code http =? 200)%Z; msimpl; repeat (branch; msimpl); reflexivity.
Qed.

Lemma features_no_admin_request (depth : nat) :
  forall (http : nat -> response) (lat lon : pyval) (radius : Z),
    iterations_started (fst (get_osm_nearby_features L depth http lat lon radius)) = O.
Proof.
  induction depth as [| depth IH]; intros http lat lon radius; [reflexivity |].
  rewrite nearby_features_unfold.
  destruct (status_code (http O) =? 200)%Z; [reflexivity |].
  destruct (status_code (http O) =? 429)%Z; [| reflexivity].
  cbn [fst]. apply (IH (shift http)).
Qed.

(** Every pass, however it ends, shows as exactly one reverse-geocoder request. *)
Lemma loop_body_started (v : variant) (k : nat) (s : state) :
  iterations_started (fst (loop_body L W cfg v k s)) = 1%nat.
Proof.
  unfold loop_body. msimpl.
  rewrite !iterations_started_app.
  unfold geosearch_call, admin_call, features_call at 1.
  rewrite geosearch_no_admin_request, admin_one_admin_request, features_no_admin_request.
  cbn [Nat.add]. f_equal.
  destruct (snd (get_wikipedia_geosearch L v (geosearch_reply W k) (fst (center cfg))
                   (snd (center cfg)) (current_radius s) (max_results cfg)));
    [| reflexivity].
  assert (Htail : forall admin,
             iterations_started
               (fst match snd (features_call L W cfg k s) with
                    | Ok osm_features =>
                        features <- merge_features (osm_features_data s) osm_features ;;
                        decide cfg v {| current_radius := current_radius s;
                                        wiki_results := wiki_results s;
                                        osm_admin_data := admin;
                                        osm_features_data := features |} a
                    | Raise e => ([], Raise e)
                    end) = O).
  { intro admin.
    destruct (snd (features_call L W cfg k s)) as [f | e]; [| reflexivity].
    rewrite bind_trace, merge_features_trace.
    destruct (snd (merge_features (osm_features_data s) f)); [| reflexivity].
    cbn [app]. unfold iterations_started. rewrite decide_no_admin_request. reflexivity. }
  destruct (truthy (osm_admin_data s)); msimpl.
  - apply Htail.
  - unfold admin_call.
    destruct (snd (get_osm_administrative_info _ _ _)); [msimpl; apply Htail | reflexivity].
Qed.

Lemma controller_loop_unfold (v : variant) (fuel k : nat) (s : state) :
  controller_loop L W cfg v (S fuel) k s
  = match snd (loop_cond cfg s) with
    | Raise e => ([], Raise e)
    | Ok false => ([], Ok (Some (s, k)))
    | Ok true =>
        match snd (loop_body L W cfg v k s) with
        | Raise e => (fst (loop_body L W cfg v k s), Raise e)
        | Ok (s', true) => (fst (loop_body L W cfg v k s), Ok (Some (s', S k)))
        | Ok (s', false) =>
            (fst (loop_body L W cfg v k s) ++ fst (controller_loop L W cfg v fuel (S k) s'),
             snd (controller_loop L W cfg v fuel (S k) s'))
        end
    end.
Proof.
  cbn [controller_loop].
  pose proof (loop_cond_trace s) as Ht.
  destruct (loop_cond cfg s) as [tc [[|] | e]]; cbn [fst] in Ht; subst tc;
    rewrite bind_pair; cbn [fst snd app]; try reflexivity.
  destruct (loop_body L W cfg v k s) as [tb [[s' [|]] | e]];
    rewrite bind_pair; cbn [fst snd]; try reflexivity.
  unfold ret. cbn [fst snd]. rewrite app_nil_r. reflexivity.
Qed.

(** C1.  Suppose pass [k] is entered (the loop test holds in [s]) and the
    geosearch client hands back a list of at least [min_results] hits in
    that pass.  Then the loop consists of this one pass and nothing more:
    whatever fuel is left, it ends with [k + 1] passes made (or with the
    exception the pass raised), and a pass that returns leaves
    [current_radius] as it found it and retains exactly those hits. *)
Theorem loop_stops_when_enough_results
  (v : variant) (fuel k : nat) (s : state) (wiki : pyval) (l : list pyval) :
  snd (loop_cond cfg s) = Ok true ->
  snd (geosearch_call L W cfg v k s) = Ok wiki ->
  returned_results v wiki = Some l ->
  (min_results cfg <= Z.of_nat (List.length l))%Z ->
  controller_loop L W cfg v (S (S fuel)) k s
  = (r <- loop_body L W cfg v k s ;; ret (Some (fst r, S k)))
  /\ (forall (s' : state) (b : bool),
        snd (loop_body L W cfg v k s) = Ok (s', b) ->
        current_radius s' = current_radius s /\ wiki_results s' = PList l).
Proof.
  intros Hcond Hwiki Hres Hmin.
  destruct (loop_cond_true s Hcond) as (_ & n & _ & Hn).
  assert (Hpos : (0 < min_results cfg)%Z) by lia.
  assert (Hbody : forall s' b,
             snd (loop_body L W cfg v k s) = Ok (s', b) ->
             current_radius s' = current_radius s /\ wiki_results s' = PList l
             /\ b = match v with V1 => true | V3 => false end).
  { intros s' b. rewrite loop_body_value, Hwiki.
    destruct (if truthy (osm_admin_data s) then Ok (osm_admin_data s)
              else snd (admin_call W cfg k)) as [admin | e]; [| discriminate].
    destruct (snd (features_call L W cfg k s)) as [f | e]; [| discriminate].
    destruct (snd (merge_features (osm_features_data s) f)) as [fs | e]; [| discriminate].
    rewrite (decide_enough _ _ _ _ Hres Hpos Hmin).
    intro H. injection H as <- <-. auto. }
  split.
  - rewrite controller_loop_unfold, Hcond.
    destruct (loop_body L W cfg v k s) as [tb [[s' b] | e]] eqn:Eb;
      rewrite bind_pair; cbn [fst snd]; [| reflexivity].
    destruct (Hbody s' b eq_refl) as (Hr & Hw & Hb).
    unfold ret. cbn [fst snd]. rewrite app_nil_r.
    destruct v; subst b; [reflexivity |].
    rewrite controller_loop_unfold.
    rewrite (loop_cond_enough s' (Z.of_nat (List.length l))); [| rewrite Hw; reflexivity | assumption].
    cbn [fst snd]. rewrite app_nil_r. reflexivity.
  - intros s' b Hb. destruct (Hbody s' b Hb) as (Hr & Hw & _). split; assumption.
Qed.

Lemma remaining_nonneg (s : state) :
  (0 < radius_increment cfg)%Z -> (0 <= remaining cfg s)%Z.
Proof.
  intro Hinc. unfold remaining.
  destruct (current_radius s <=? max_radius cfg)%Z eqn:Hr; [| lia].
  apply Z.leb_le in Hr.
  assert (0 <= (max_radius cfg - current_radius s) / radius_increment cfg)%Z
    by (apply Z.div_pos; lia).
  lia.
Qed.

Lemma remaining_step (s s' : state) :
  (0 < radius_increment cfg)%Z ->
  (current_radius s <= max_radius cfg)%Z ->
  current_radius s' = (current_radius s + radius_increment cfg)%Z ->
  (remaining cfg s' + 1 <= remaining cfg s)%Z.
Proof.
  intros Hinc Hr Hs'. unfold remaining.
  replace (current_radius s <=? max_radius cfg)%Z with true
    by (symmetry; apply Z.leb_le; assumption).
  destruct (current_radius s' <=? max_radius cfg)%Z eqn:Hr'.
  - apply Z.leb_le in Hr'. rewrite Hs'.
    replace (max_radius cfg - current_radius s)%Z
      with ((max_radius cfg - (current_radius s + radius_increment cfg))
            + 1 * radius_increment cfg)%Z by ring.
    rewrite Z.div_add by lia. lia.
  - assert (0 <= (max_radius cfg - current_radius s) / radius_increment cfg)%Z
      by (apply Z.div_pos; lia).
    lia.
Qed.

Lemma controller_loop_bounded (v : variant) :
  (0 < radius_increment cfg)%Z ->
  forall (fuel k : nat) (s : state),
    (Z.of_nat (iterations_started (fst (controller_loop L W cfg v fuel k s)))
     <= remaining cfg s)%Z
    /\ match snd (controller_loop L W cfg v fuel k s) with
       | Ok (Some (_, n)) => (Z.of_nat n <= Z.of_nat k + remaining cfg s)%Z
       | Ok None => (Z.of_nat fuel <= remaining cfg s)%Z
       | Raise _ => True
       end.
Proof.
  intro Hinc. induction fuel as [| fuel IH]; intros k s.
  - cbn. pose proof (remaining_nonneg s Hinc). lia.
  - rewrite controller_loop_unfold.
    pose proof (remaining_nonneg s Hinc) as Hnn.
    destruct (snd (loop_cond cfg s)) as [[|] | e] eqn:Hcond; cbn [fst snd];
      try (cbn; split; [lia | try lia; exact I]).
    destruct (loop_cond_true s Hcond) as (Hr & _).
    assert (Hone : (1 <= remaining cfg s)%Z).
    { unfold remaining.
      replace (current_radius s <=? max_radius cfg)%Z with true
        by (symmetry; apply Z.leb_le; assumption).
      assert (0 <= (max_radius cfg - current_radius s) / radius_increment cfg)%Z
        by (apply Z.div_pos; lia).
      lia. }
    pose proof (loop_body_started v k s) as Hstarted.
    destruct (snd (loop_body L W cfg v k s)) as [[s' b] | e] eqn:Hbody; cbn [fst snd].
    2:{ rewrite Hstarted. split; [lia | exact I]. }
    destruct (loop_body_ok v k s s' b Hbody) as (_ & Hprogress).
    destruct b.
    { cbn [fst snd]. rewrite Hstarted. split; lia. }
    cbn [fst snd]. rewrite iterations_started_app, Hstarted.
    destruct Hprogress as [(Hb & _) | [(_ & Hs') | (_ & Hsame & n & Hn & Hmin)]];
      [discriminate | |].
    + pose proof (remaining_step s s' Hinc Hr Hs') as Hstep.
      destruct (IH (S k) s') as (IHt & IHv).
      split; [lia |].
      destruct (snd (controller_loop L W cfg v fuel (S k) s')) as [[[s'' m] |] | e];
        [lia | lia | exact I].
    + destruct fuel as [| fuel].
      * cbn. split; lia.
      * rewrite controller_loop_unfold, (loop_cond_enough s' n Hn Hmin).
        cbn [fst snd]. cbn. split; lia.
Qed.

Lemma ceil_div_spec (a b : Z) :
  (0 < b)%Z -> (a <= ceil_div a b * b /\ (ceil_div a b - 1) * b < a)%Z.
Proof.
  intro Hb. unfold ceil_div.
  pose proof (Z.mul_div_le (- a) b Hb).
  pose proof (Z.mul_succ_div_gt (- a) b Hb).
  nia.
Qed.

Lemma floor_le_ceil_div (a b : Z) : (0 < b)%Z -> (a / b <= ceil_div a b)%Z.
Proof.
  intro Hb. unfold ceil_div.
  pose proof (Z.mul_div_le a b Hb).
  pose proof (Z.mul_div_le (- a) b Hb).
  nia.
Qed.

Lemma remaining_initial :
  (0 < radius_increment cfg)%Z ->
  (remaining cfg (initial_state cfg) <= Z.max 0 (iteration_bound cfg))%Z.
Proof.
  intro Hinc. unfold remaining, iteration_bound. cbn [initial_state current_radius].
  destruct (initial_radius cfg <=? max_radius cfg)%Z; [| lia].
  pose proof (floor_le_ceil_div (max_radius cfg - initial_radius cfg) _ Hinc). lia.
Qed.

(** Fuel beyond what a finished loop needed changes nothing. *)
Lemma controller_loop_fuel (v : variant) :
  forall (fuel k : nat) (s : state),
    snd (controller_loop L W cfg v fuel k s) <> Ok None ->
    controller_loop L W cfg v (S fuel) k s = controller_loop L W cfg v fuel k s.
Proof.
  induction fuel as [| fuel IH]; intros k s Hdone.
  - cbn in Hdone. congruence.
  - rewrite (controller_loop_unfold v (S fuel)).
    rewrite (controller_loop_unfold v fuel) in Hdone |- *.
    destruct (snd (loop_cond cfg s)) as [[|] | e]; try reflexivity.
    destruct (snd (loop_body L W cfg v k s)) as [[s' [|]] | e]; try reflexivity.
    cbn [snd] in Hdone. rewrite (IH (S k) s' Hdone). reflexivity.
Qed.

(** C2.  With a positive increment the loop makes at most
    [ceil((max_radius - initial_radius) / radius_increment) + 1] passes (none
    when that number is not positive, which needs [initial_radius] above
    [max_radius]): no trace, whatever the fuel, shows more passes; with more
    fuel than the bound the loop has ended, by leaving or by an exception,
    and gives the same outcome for any larger fuel. *)
Theorem loop_terminates_within_bound (v : variant) :
  (0 < radius_increment cfg)%Z ->
  let bound := Z.max 0 (iteration_bound cfg) in
  (forall fuel : nat,
      (Z.of_nat (iterations_started
                   (fst (controller_loop L W cfg v fuel O (initial_state cfg))))
       <= bound)%Z)
  /\ (forall fuel : nat,
         (bound < Z.of_nat fuel)%Z ->
         match snd (controller_loop L W cfg v fuel O (initial_state cfg)) with
         | Ok (Some (_, n)) => (Z.of_nat n <= bound)%Z
         | Ok None => False
         | Raise _ => True
         end
         /\ controller_loop L W cfg v (S fuel) O (initial_state cfg)
            = controller_loop L W cfg v fuel O (initial_state cfg))
  /\ ((initial_radius cfg <= max_radius cfg)%Z -> bound = iteration_bound cfg).
Proof.
  intros Hinc bound. pose proof (remaining_initial Hinc) as Hrem. fold bound in Hrem.
  split; [| split].
  - intro fuel.
    destruct (controller_loop_bounded v Hinc fuel O (initial_state cfg)) as (Ht & _). lia.
  - intros fuel Hfuel.
    assert (Hend : match snd (controller_loop L W cfg v fuel O (initial_state cfg)) with
                   | Ok (Some (_, n)) => (Z.of_nat n <= bound)%Z
                   | Ok None => False
                   | Raise _ => True
                   end).
    { destruct (controller_loop_bounded v Hinc fuel O (initial_state cfg)) as (_ & Hv).
      destruct (snd (controller_loop L W cfg v fuel O (initial_state cfg)))
        as [[[s n] |] | e]; [lia | lia | exact I]. }
    split; [exact Hend |].
    apply controller_loop_fuel. intro Hnone. rewrite Hnone in Hend. exact Hend.
  - intro Hle. subst bound. unfold iteration_bound.
    pose proof (floor_le_ceil_div (max_radius cfg - initial_radius cfg) _ Hinc).
    assert (0 <= (max_radius cfg - initial_radius cfg) / radius_increment cfg)%Z
      by (apply Z.div_pos; lia).
    lia.
Qed.

(** The cache along the loop: a value present at the start survives to the
    exit; with an empty cache the exit holds the first non-empty reply. *)
Lemma admin_cache (v : variant) :
  forall (fuel k : nat) (s s' : state) (n : nat),
    snd (controller_loop L W cfg v fuel k s) = Ok (Some (s', n)) ->
    (truthy (osm_admin_data s) = true -> osm_admin_data s' = osm_admin_data s)
    /\ (truthy (osm_admin_data s) = false ->
        forall (j : nat) (a : pyval),
          (k <= j < n)%nat ->
          snd (admin_call W cfg j) = Ok a ->
          truthy a = true ->
          (forall (i : nat) (b : pyval),
              (k <= i < j)%nat -> snd (admin_call W cfg i) = Ok b -> truthy b = false) ->
          osm_admin_data s' = a).
Proof.
  induction fuel as [| fuel IH]; intros k s s' n Hrun.
  - discriminate Hrun.
  - rewrite controller_loop_unfold in Hrun.
    destruct (snd (loop_cond cfg s)) as [[|] | e]; cbn [snd] in Hrun; try discriminate.
    2:{ injection Hrun as <- <-. split; [reflexivity | intros _ j a Hj; lia]. }
    destruct (snd (loop_body L W cfg v k s)) as [[s1 b] | e] eqn:Hbody;
      cbn [snd] in Hrun; [| discriminate].
    destruct (loop_body_ok v k s s1 b Hbody) as (Hadmin & _).
    assert (Hrest : (b = true /\ s' = s1 /\ n = S k)
                    \/ (b = false
                        /\ snd (controller_loop L W cfg v fuel (S k) s1) = Ok (Some (s', n)))).
    { destruct b; cbn [snd] in Hrun;
        [left; injection Hrun as <- <-; auto | right; auto]. }
    clear Hrun. split.
    + intro Hcached. rewrite Hcached in Hadmin.
      destruct Hrest as [(_ & -> & _) | (_ & Hrun)]; [assumption |].
      destruct (IH _ _ _ _ Hrun) as (Hkeep & _).
      rewrite Hkeep; [assumption | rewrite Hadmin; assumption].
    + intros Hempty j a Hj Ha Htruthy Hfirst. rewrite Hempty in Hadmin.
      destruct (Nat.eq_dec j k) as [-> | Hjk].
      * rewrite Ha in Hadmin. injection Hadmin as Hadmin.
        destruct Hrest as [(_ & -> & _) | (_ & Hrun)]; [congruence |].
        destruct (IH _ _ _ _ Hrun) as (Hkeep & _).
        rewrite Hkeep; [congruence | rewrite <- Hadmin; assumption].
      * destruct Hrest as [(_ & _ & ->) | (_ & Hrun)]; [lia |].
        destruct (IH _ _ _ _ Hrun) as (_ & Hfill).
        apply (Hfill (Hfirst k _ ltac:(lia) Hadmin) j a); try assumption; [lia |].
        intros i b0 Hi. apply Hfirst. lia.
Qed.

(** C4.  A pass never replaces a non-empty [osm_admin_data]; hence at loop
    exit the cache holds the reply of the first pass in which the
    reverse-geocoder client returned a non-empty value. *)
Theorem admin_info_first_nonempty_wins (v : variant) :
  (forall (k : nat) (s s' : state) (b : bool),
      truthy (osm_admin_data s) = true ->
      snd (loop_body L W cfg v k s) = Ok (s', b) ->
      osm_admin_data s' = osm_admin_data s)
  /\ (forall (fuel : nat) (s' : state) (n j : nat) (a : pyval),
         snd (controller_loop L W cfg v fuel O (initial_state cfg)) = Ok (Some (s', n)) ->
         (j < n)%nat ->
         snd (admin_call W cfg j) = Ok a ->
         truthy a = true ->
         (forall (i : nat) (b : pyval),
             (i < j)%nat -> snd (admin_call W cfg i) = Ok b -> truthy b = false) ->
         osm_admin_data s' = a).
Proof.
  split.
  - intros k s s' b Hcached Hbody.
    destruct (loop_body_ok v k s s' b Hbody) as (Hadmin & _).
    rewrite Hcached in Hadmin. assumption.
  - intros fuel s' n j a Hrun Hj Ha Htruthy Hfirst.
    destruct (admin_cache v _ _ _ _ _ Hrun) as (_ & Hfill).
    apply (Hfill eq_refl j a); try assumption; [lia |].
    intros i b Hi. apply Hfirst. lia.
Qed.

End Controller.

(** ** Distances and centroids (C5, C9) *)

Lemma py_round_nearest (x : R) : (Rabs (x - IZR (py_round x)) <= 1 / 2)%R.
Proof.
  unfold py_round. pose proof (Zfloor_bound x) as [Hlo Hhi].
  destruct (Rlt_dec (x - IZR (Zfloor x)) (1 / 2)) as [Hlt | Hge].
  - apply Rabs_le. lra.
  - assert (Hup : (Rabs (x - IZR (Zfloor x + 1)) <= 1 / 2)%R)
      by (rewrite plus_IZR; apply Rabs_le; lra).
    destruct (Rlt_dec (1 / 2) (x - IZR (Zfloor x))); [exact Hup |].
    destruct (Z.even (Zfloor x)); [apply Rabs_le; lra | exact Hup].
Qed.

Lemma py_round_0 : py_round 0 = 0%Z.
Proof.
  unfold py_round. change 0%R with (IZR 0). rewrite ZfloorZ.
  destruct (Rlt_dec (IZR 0 - IZR 0) (1 / 2)) as [_ | Hn]; [reflexivity | exfalso; lra].
Qed.


Lemma atan2_0_1 : atan2 0 1 = 0%R.
Proof.
  unfold atan2. destruct (Rlt_dec 0 1) as [_ | Hn]; [| exfalso; lra].
  replace (0 / 1)%R with 0%R by lra. apply atan_0.
Qed.

Lemma haversine_angle_same (lat lon : R) : haversine_angle lat lon lat lon = 0%R.
Proof.
  unfold haversine_angle, radians.
  replace ((lat - lat) * (PI / 180) / 2)%R with 0%R by lra.
  replace ((lon - lon) * (PI / 180) / 2)%R with 0%R by lra.
  rewrite sin_0.
  replace (0 ^ 2 + cos (lat * (PI / 180)) * cos (lat * (PI / 180)) * 0 ^ 2)%R
    with 0%R by (simpl; lra).
  replace (1 - 0)%R with 1%R by lra.
  rewrite sqrt_0, sqrt_1, atan2_0_1. lra.
Qed.

Lemma haversine_distance_same (lat lon : R) : haversine_distance lat lon lat lon = 0%Z.
Proof.
  unfold haversine_distance. rewrite haversine_angle_same.
  replace (6371000 * 0)%R with 0%R by lra. apply py_round_0.
Qed.

Lemma sin2_bounds (x : R) : (0 <= sin x ^ 2 <= 1)%R.
Proof.
  pose proof (sin2_cos2 x) as H. unfold Rsqr in H.
  pose proof (pow2_ge_0 (sin x)). pose proof (pow2_ge_0 (cos x)).
  split; [assumption |]. simpl in *. lra.
Qed.

Lemma cos2_bounds (x : R) : (0 <= cos x ^ 2 <= 1)%R.
Proof.
  pose proof (sin2_cos2 x) as H. unfold Rsqr in H.
  pose proof (pow2_ge_0 (sin x)). pose proof (pow2_ge_0 (cos x)).
  split; [assumption |]. simpl in *. lra.
Qed.

(** With the longitudes half a turn apart the quantity [a] is a squared
    cosine: [sin((q - p))^2 + cos(2p) cos(2q) = cos(p + q)^2]. *)
Lemma haversine_a_extreme (p q : R) :
  (sin (q - p) ^ 2 + cos (2 * p) * cos (2 * q) = cos (p + q) ^ 2)%R.
Proof.
  rewrite sin_minus, cos_plus, !cos_2a. ring.
Qed.

(** In exact arithmetic the quantity [a] never leaves the domain of the two
    square roots. *)
Lemma haversine_a_range (lat1 lon1 lat2 lon2 : R) :
  (0 <= haversine_a lat1 lon1 lat2 lon2 <= 1)%R.
Proof.
  unfold haversine_a, radians.
  set (p := (lat1 * (PI / 180) / 2)%R). set (q := (lat2 * (PI / 180) / 2)%R).
  replace ((lat2 - lat1) * (PI / 180) / 2)%R with (q - p)%R by (unfold p, q; lra).
  replace (lat1 * (PI / 180))%R with (2 * p)%R by (unfold p; lra).
  replace (lat2 * (PI / 180))%R with (2 * q)%R by (unfold q; lra).
  pose proof (haversine_a_extreme p q) as Hext.
  pose proof (sin2_bounds (q - p)) as Hs1.
  pose proof (cos2_bounds (p + q)) as Hc.
  pose proof (sin2_bounds ((lon2 - lon1) * (PI / 180) / 2)) as Hs2.
  set (s1 := (sin (q - p) ^ 2)%R) in *.
  set (s2 := (sin ((lon2 - lon1) * (PI / 180) / 2) ^ 2)%R) in *.
  set (C := (cos (2 * p) * cos (2 * q))%R) in *.
  set (c := (cos (p + q) ^ 2)%R) in *.
  assert (HC : C = (c - s1)%R) by lra.
  rewrite HC. split; nra.
Qed.

Lemma atan2_quadrant (y x : R) :
  (0 <= y)%R -> (0 <= x)%R -> (0 <= atan2 y x <= PI / 2)%R.
Proof.
  intros Hy Hx. unfold atan2. pose proof PI_RGT_0 as Hpi.
  destruct (Rlt_dec 0 x) as [Hpos | Hzero].
  - pose proof (atan_bound (y / x)) as [_ Hhi].
    split; [| lra].
    assert (Hq : (0 <= y / x)%R)
      by (unfold Rdiv; apply Rmult_le_pos;
          [assumption | left; apply Rinv_0_lt_compat; assumption]).
    destruct Hq as [Hq | <-]; [| rewrite atan_0; lra].
    apply atan_increasing in Hq. rewrite atan_0 in Hq. lra.
  - destruct (Rlt_dec x 0) as [Hneg | _]; [lra |].
    destruct (Rlt_dec 0 y) as [_ | _]; [lra |].
    destruct (Rlt_dec y 0) as [Hneg | _]; lra.
Qed.

Lemma haversine_angle_unfold (lat1 lon1 lat2 lon2 : R) :
  haversine_angle lat1 lon1 lat2 lon2
  = (2 * atan2 (sqrt (haversine_a lat1 lon1 lat2 lon2))
               (sqrt (1 - haversine_a lat1 lon1 lat2 lon2)))%R.
Proof. reflexivity. Qed.

Lemma haversine_angle_range (lat1 lon1 lat2 lon2 : R) :
  (0 <= haversine_angle lat1 lon1 lat2 lon2 <= PI)%R.
Proof.
  rewrite haversine_angle_unfold.
  pose proof (atan2_quadrant _ _ (sqrt_pos (haversine_a lat1 lon1 lat2 lon2))
                (sqrt_pos (1 - haversine_a lat1 lon1 lat2 lon2))).
  lra.
Qed.

(** [atan2 y x] is the angle of the point [(x, y)] of the unit circle, here
    in the first quadrant. *)
Lemma sin_atan2 (y x : R) :
  (0 <= y)%R -> (0 <= x)%R -> (x * x + y * y = 1)%R -> sin (atan2 y x) = y.
Proof.
  intros Hy Hx Hunit. unfold atan2.
  destruct (Rlt_dec 0 x) as [Hpos | Hzero].
  - rewrite sin_atan.
    assert (Hroot : sqrt (1 + (y / x)²) = (1 / x)%R).
    { apply sqrt_lem_1.
      - unfold Rsqr. nra.
      - apply Rlt_le, Rdiv_lt_0_compat; lra.
      - unfold Rsqr. field_simplify; [| lra | lra].
        replace (x ^ 2 + y ^ 2)%R with 1%R by (simpl; lra). reflexivity. }
    rewrite Hroot. field. lra.
  - assert (Hx0 : x = 0%R) by lra. subst x.
    destruct (Rlt_dec 0 0) as [Habs | _]; [lra |].
    assert (Hy1 : y = 1%R) by nra. subst y.
    destruct (Rlt_dec 0 1) as [_ | Hn]; [apply sin_PI2 | lra].
Qed.

(** The central angle the formula computes has the cosine the spherical
    law of cosines gives. *)
Lemma cos_haversine_angle (lat1 lon1 lat2 lon2 : R) :
  cos (haversine_angle lat1 lon1 lat2 lon2)
  = (sin (radians lat1) * sin (radians lat2)
     + cos (radians lat1) * cos (radians lat2) * cos (radians lon2 - radians lon1))%R.
Proof.
  rewrite haversine_angle_unfold.
  pose proof (haversine_a_range lat1 lon1 lat2 lon2) as [Hlo Hhi].
  set (a := haversine_a lat1 lon1 lat2 lon2) in *.
  assert (Hsin : sin (atan2 (sqrt a) (sqrt (1 - a))) = sqrt a).
  { apply sin_atan2; [apply sqrt_pos | apply sqrt_pos |].
    rewrite !sqrt_sqrt by lra. lra. }
  rewrite cos_2a_sin, Hsin.
  replace (1 - 2 * sqrt a * sqrt a)%R with (1 - 2 * a)%R
    by (rewrite Rmult_assoc, sqrt_sqrt by lra; reflexivity).
  unfold a, haversine_a, radians.
  set (p := (lat1 * (PI / 180))%R). set (q := (lat2 * (PI / 180))%R).
  set (l := (lon1 * (PI / 180))%R). set (m := (lon2 * (PI / 180))%R).
  replace ((lat2 - lat1) * (PI / 180) / 2)%R with ((q - p) / 2)%R by (unfold p, q; lra).
  replace ((lon2 - lon1) * (PI / 180) / 2)%R with ((m - l) / 2)%R by (unfold l, m; lra).
  pose proof (cos_2a_sin ((q - p) / 2)) as H1.
  pose proof (cos_2a_sin ((m - l) / 2)) as H2.
  replace (2 * ((q - p) / 2))%R with (q - p)%R in H1 by lra.
  replace (2 * ((m - l) / 2))%R with (m - l)%R in H2 by lra.
  rewrite cos_minus in H1.
  set (sp := sin ((q - p) / 2)) in *. set (sl := sin ((m - l) / 2)) in *.
  set (cml := cos (m - l)) in *.
  simpl. nra.
Qed.

(** The haversine formula gives the great-circle distance: its central
    angle is the angle between the two position vectors. *)
Lemma haversine_is_central_angle (lat1 lon1 lat2 lon2 : R) :
  haversine_angle lat1 lon1 lat2 lon2 = central_angle lat1 lon1 lat2 lon2.
Proof.
  unfold central_angle. rewrite <- cos_haversine_angle.
  symmetry. apply acos_cos. apply haversine_angle_range.
Qed.

Lemma exact_floats_are_sane : sane_floats exact_floats.
Proof.
  unfold sane_floats. cbn.
  repeat split; auto using sin_0, sin_neg, sqrt_0, sqrt_1, atan2_0_1.
Qed.

Lemma haversine_a_float_exact (lat1 lon1 lat2 lon2 : R) :
  haversine_a_float exact_floats lat1 lon1 lat2 lon2 = haversine_a lat1 lon1 lat2 lon2.
Proof. reflexivity. Qed.

(** Without rounding the function returns for all numbers it can convert,
    and returns what the formula gives. *)
Lemma haversine_distance_float_exact (lat1 lon1 : R) (lat2 lon2 : pyval) (la lo : R) :
  to_float exact_floats lat2 = Ok la ->
  to_float exact_floats lon2 = Ok lo ->
  haversine_distance_float exact_floats lat1 lon1 lat2 lon2
  = Ok (haversine_distance lat1 lon1 la lo).
Proof.
  intros Hla Hlo. unfold haversine_distance_float. rewrite Hla, Hlo. cbn [rbind].
  rewrite haversine_a_float_exact.
  pose proof (haversine_a_range lat1 lon1 la lo) as [Hlo0 Hhi0].
  unfold math_sqrt. cbn [fl exact_floats fsqrt fatan2].
  destruct (Rlt_dec (haversine_a lat1 lon1 la lo) 0) as [Hneg | _]; [lra |].
  destruct (Rlt_dec (1 - haversine_a lat1 lon1 la lo) 0) as [Hneg | _]; [lra |].
  reflexivity.
Qed.

(** At the centre itself the evaluation gives 0 whatever the rounding. *)
Lemma haversine_distance_float_same (F : floats) (lat lon : Q) :
  sane_floats F ->
  haversine_distance_float F (Q2R lat) (Q2R lon) (PFloat lat) (PFloat lon) = Ok 0%Z.
Proof.
  intros (Hfl0 & Hfl1 & _ & Hsin0 & _ & Hsqrt0 & Hsqrt1 & Hatan).
  unfold haversine_distance_float. cbn [to_float rbind].
  assert (Ha : haversine_a_float F (Q2R lat) (Q2R lon) (Q2R lat) (Q2R lon) = 0%R).
  { unfold haversine_a_float, math_radians.
    replace (Q2R lat - Q2R lat)%R with 0%R by lra.
    replace (Q2R lon - Q2R lon)%R with 0%R by lra.
    rewrite Hfl0, !Rmult_0_l, Hfl0.
    replace (0 / 2)%R with 0%R by lra. rewrite Hfl0, Hsin0.
    replace (0 ^ 2)%R with 0%R by (simpl; lra). rewrite Hfl0, Rmult_0_r, Hfl0.
    replace (0 + 0)%R with 0%R by lra. exact Hfl0. }
  rewrite Ha. unfold math_sqrt.
  destruct (Rlt_dec 0 0) as [Habs | _]; [lra |]. cbn [rbind].
  replace (1 - 0)%R with 1%R by lra. rewrite Hfl1.
  destruct (Rlt_dec 1 0) as [Habs | _]; [lra |]. cbn [rbind].
  rewrite Hsqrt0, Hsqrt1, Hatan, Rmult_0_r, Hfl0, Rmult_0_r, Hfl0, py_round_0.
  reflexivity.
Qed.

Section Geometry.

Variable L : libs.
Variable cfg : config.

Lemma wiki_row_cells (W : world) (v : variant) (i : nat) (place : pyval) (r : row) :
  snd (wiki_row L W cfg v i place) = Ok r ->
  exists title lat lon d url,
    py_getitem place "lat" = Ok lat
    /\ py_getitem place "lon" = Ok lon
    /\ snd (distance L cfg v lat lon) = Ok d
    /\ r = [PStr "Wikipedia"; title; lat; lon; d; url].
Proof.
  unfold wiki_row. msimpl.
  destruct (py_getitem place "lat") as [lat | e]; [| discriminate]. msimpl.
  destruct (py_getitem place "lon") as [lon | e]; [| discriminate]. msimpl.
  rewrite bind_value.
  destruct (snd (distance L cfg v lat lon)) as [d | e] eqn:Hd; [| discriminate].
  msimpl.
  destruct (py_getitem place "title") as [title | e]; [| discriminate]. msimpl.
  rewrite bind_value.
  destruct (snd (get_wikipedia_url L v (wikiurl_reply W i) title)) as [url | e];
    [| discriminate].
  cbn. intro H. injection H as <-.
  exists title, lat, lon, d, url. auto.
Qed.

(** C5 (as amended).  The distance cell of a Wikipedia row is computed from
    the [lat] and [lon] of the hit.  In [V3] it is the integer the float
    evaluation of [haversine_distance] returns for the centre and the hit.
    Evaluated without rounding, that integer is the great-circle distance
    between the two points on a sphere of radius 6371000 m (the radius times
    the angle between their position vectors), rounded to the nearest
    integer and hence within half a metre of it; and whatever the rounding,
    it is 0 for a hit at the centre.  In [V1] the cell is the float returned
    by the [haversine] package, as returned. *)
Theorem wiki_row_distance (W : world) (v : variant) (i : nat) (place : pyval) (r : row) :
  snd (wiki_row L W cfg v i place) = Ok r ->
  exists lat lon,
    py_getitem place "lat" = Ok lat
    /\ py_getitem place "lon" = Ok lon
    /\ match v with
       | V3 =>
           exists (la lo : R) (d : Z),
             to_float (fp L) lat = Ok la /\ to_float (fp L) lon = Ok lo
             /\ haversine_distance_float (fp L) (Q2R (center_lat cfg)) (Q2R (center_lon cfg))
                  lat lon = Ok d
             /\ nth 4 r PNone = PInt d
             /\ (fp L = exact_floats ->
                 let x := great_circle_distance (Q2R (center_lat cfg)) (Q2R (center_lon cfg))
                            la lo in
                 d = py_round x /\ (Rabs (x - IZR d) <= 1 / 2)%R)
             /\ (sane_floats (fp L) ->
                 lat = PFloat (center_lat cfg) -> lon = PFloat (center_lon cfg) -> d = 0%Z)
       | V1 =>
           exists d, haversine L (center cfg) (lat, lon) = Ok d /\ nth 4 r PNone = PFloat d
       end.
Proof.
  intro Hrow.
  destruct (wiki_row_cells W v i place r Hrow) as (title & lat & lon & d & url & Hlat & Hlon & Hd & ->).
  exists lat, lon. split; [assumption | split; [assumption |]].
  destruct v; cbn [distance] in Hd.
  - revert Hd. msimpl.
    destruct (haversine L (center cfg) (lat, lon)) as [q | e]; [| discriminate].
    cbn. intro H. injection H as <-. exists q. auto.
  - cbn [lift snd] in Hd.
    destruct (haversine_distance_float (fp L) (Q2R (center_lat cfg)) (Q2R (center_lon cfg))
                lat lon) as [m | e] eqn:Hm; [| discriminate].
    cbn [rbind] in Hd. injection Hd as <-.
    pose proof Hm as Hargs. unfold haversine_distance_float in Hargs.
    destruct (to_float (fp L) lat) as [la | e] eqn:Hla; [| discriminate].
    destruct (to_float (fp L) lon) as [lo | e] eqn:Hlo; [| discriminate].
    clear Hargs. exists la, lo, m.
    split; [reflexivity | split; [reflexivity | split; [reflexivity | split; [reflexivity |]]]].
    split.
    + intros Hexact x. rewrite Hexact in Hm, Hla, Hlo.
      rewrite (haversine_distance_float_exact _ _ _ _ la lo Hla Hlo) in Hm.
      injection Hm as <-. subst x.
      unfold great_circle_distance. rewrite <- haversine_is_central_angle.
      split; [reflexivity | apply py_round_nearest].
    + intros Hsane -> ->.
      rewrite (haversine_distance_float_same _ _ _ Hsane) in Hm. congruence.
Qed.

(** C9.  For the way with vertices (lat 1, lon 1), (lat 1, lon 3),
    (lat 3, lon 2), provided the [Polygon] of [V1] has its centroid at the
    geometric centroid of that ring, both variants resolve the way to
    latitude 5/3 and longitude 2, the mean of its vertices, and it is this
    coordinate from which the distance of its row is computed. *)
Theorem triangle_centroid_agrees (v : variant) (id tags name : pyval) :
  polygon_centroid L [(PInt 1, PInt 1); (PInt 3, PInt 1); (PInt 2, PInt 3)]
  = Ok (geometric_centroid [(1, 1); (3, 1); (2, 3)]%Q) ->
  py_get_default tags "name" (PStr "Unnamed") = Ok name ->
  calculate_centroid L v triangle = ([], Ok (PFloat (5 # 3), PFloat 2))
  /\ coordinate L v (triangle_way id tags) = ([], Ok (PFloat (5 # 3), PFloat 2))
  /\ feature_row L cfg v (triangle_way id tags)
     = (d <- distance L cfg v (PFloat (5 # 3)) (PFloat 2) ;;
        ret (Some [PStr "OSM"; name; PFloat (5 # 3); PFloat 2; d;
                   PStr ("https://www.openstreetmap.org/" ++ py_str L (PStr "way")
                         ++ "/" ++ py_str L id)])).
Proof.
  intros Hlib Hname.
  assert (Hc : calculate_centroid L v triangle = ([], Ok (PFloat (5 # 3), PFloat 2))).
  { destruct v; unfold calculate_centroid, triangle; cbn [truthy negb py_iter].
    - msimpl. cbn [rmap py_getitem lookup String.eqb Ascii.eqb Bool.eqb rbind].
      rewrite Hlib. reflexivity.
    - reflexivity. }
  assert (Hco : coordinate L v (triangle_way id tags) = ([], Ok (PFloat (5 # 3), PFloat 2))).
  { unfold coordinate, triangle_way. msimpl.
    cbn [py_getitem lookup String.eqb Ascii.eqb Bool.eqb eq_str is_str].
    msimpl. cbn [py_getitem lookup String.eqb Ascii.eqb Bool.eqb].
    msimpl. exact Hc. }
  split; [exact Hc | split; [exact Hco |]].
  unfold feature_row. rewrite Hco.
  unfold triangle_way at 1. cbn [py_getitem lookup String.eqb Ascii.eqb Bool.eqb rbind].
  rewrite Hname. msimpl. rewrite bind_pair. cbn [fst snd app].
  change (truthy (PFloat (5 # 3)) && truthy (PFloat 2)) with true. cbv iota.
  unfold triangle_way. cbn [py_getitem lookup String.eqb Ascii.eqb Bool.eqb].
  destruct (distance L cfg v (PFloat (5 # 3)) (PFloat 2)) as [t [d | e]];
    rewrite !bind_pair; cbn [fst snd]; [| reflexivity].
  msimpl. reflexivity.
Qed.

End Geometry.

(** ** The report builder (C6, C7, C10) *)

Tactic Notation "minv" hyp(H) "as" ident(x) ident(Hx) :=
  apply bind_value_ok in H; destruct H as (x & Hx & H).

Lemma mfilter_spec {A : Type} (f : A -> M bool) (l kept : list A) :
  snd (mfilter f l) = Ok kept ->
  (forall x, In x l -> exists b, snd (f x) = Ok b)
  /\ (forall x, In x kept <-> In x l /\ snd (f x) = Ok true)
  /\ (List.length kept <= List.length l)%nat.
Proof.
  revert kept. induction l as [| x xs IH]; intros kept H.
  - injection H as <-.
    split; [intros x [] | split; [intro x; cbn; tauto | cbn; lia]].
  - cbn [mfilter] in H. minv H as keep Hkeep. minv H as ys Hys.
    injection H as <-. destruct (IH ys Hys) as (Hall & Hin & Hlen).
    split; [| split].
    + intros y [<- | Hy]; [exists keep; assumption | apply Hall; assumption].
    + intro y. destruct keep; cbn [In]; rewrite ?Hin; split.
      * intros [<- | (Hy & Hf)]; auto.
      * intros ([<- | Hy] & Hf); auto.
      * intros (Hy & Hf); auto.
      * intros ([<- | Hy] & Hf); [congruence | auto].
    + destruct keep; cbn [List.length]; lia.
Qed.

Lemma mmap_spec {A B : Type} (f : A -> M B) (l : list A) (ys : list B) :
  snd (mmap f l) = Ok ys -> Forall2 (fun x y => snd (f x) = Ok y) l ys.
Proof.
  revert ys. induction l as [| x xs IH]; intros ys H.
  - injection H as <-. constructor.
  - cbn [mmap] in H. minv H as y Hy. minv H as rest Hrest. injection H as <-.
    constructor; [assumption | apply IH; assumption].
Qed.

Lemma forall2_in_l {A B : Type} (P : A -> B -> Prop) (l : list A) (ys : list B) (x : A) :
  Forall2 P l ys -> In x l -> exists y, In y ys /\ P x y.
Proof.
  induction 1 as [| a b l' ys' Hab _ IH]; intro Hx; [destruct Hx |].
  destruct Hx as [<- | Hx].
  - exists b. split; [left; reflexivity | assumption].
  - destruct (IH Hx) as (y & Hy & Hxy). exists y. split; [right |]; assumption.
Qed.

Lemma forall2_in_r {A B : Type} (P : A -> B -> Prop) (l : list A) (ys : list B) (y : B) :
  Forall2 P l ys -> In y ys -> exists x, In x l /\ P x y.
Proof.
  induction 1 as [| a b l' ys' Hab _ IH]; intro Hy; [destruct Hy |].
  destruct Hy as [<- | Hy].
  - exists a. split; [left; reflexivity | assumption].
  - destruct (IH Hy) as (x & Hx & Hxy). exists x. split; [right |]; assumption.
Qed.

Lemma in_somes {A : Type} (l : list (option A)) (x : A) :
  In x (somes l) <-> In (Some x) l.
Proof.
  induction l as [| [y |] rest IH]; cbn [somes In]; [tauto | |].
  - rewrite IH. split; intros [H | H]; auto; [left; congruence | left; congruence].
  - rewrite IH. split; [auto | intros [H | H]; [discriminate | assumption]].
Qed.



(** The rows are written in full exactly when each of them can be
    encoded; otherwise the file keeps the rows before the first that cannot. *)
Lemma writerows_spec (rows : list row) :
  if forallb encodable rows
  then writerows rows = (rows, Ok tt)
  else snd (writerows rows) = Raise UnicodeEncodeError
       /\ exists r tail, rows = fst (writerows rows) ++ r :: tail
                         /\ encodable r = false
                         /\ forallb encodable (fst (writerows rows)) = true.
Proof.
  induction rows as [| r rest IH]; [reflexivity |].
  cbn [forallb writerows]. destruct (encodable r) eqn:Hr; cbn [andb].
  - destruct (forallb encodable rest).
    + rewrite IH. reflexivity.
    + destruct IH as (Hv & bad & tail & Hsplit & Hbad & Hgood). cbn [fst snd].
      split; [exact Hv |]. exists bad, tail.
      split; [cbn [app]; f_equal; exact Hsplit | split; [exact Hbad |]].
      cbn [forallb]. rewrite Hr, Hgood. reflexivity.
  - cbn [fst snd]. split; [reflexivity |]. exists r, rest.
    split; [reflexivity | split; [exact Hr | reflexivity]].
Qed.

Lemma write_csv_ok (filename : string) (rows : list row) :
  forallb encodable rows = true ->
  write_csv filename rows = ([WriteCsv filename rows], Ok tt).
Proof.
  intro H. pose proof (writerows_spec rows) as Hw. rewrite H in Hw.
  unfold write_csv. rewrite Hw. reflexivity.
Qed.

Lemma write_csv_fails (filename : string) (rows : list row) :
  forallb encodable rows = false ->
  write_csv filename rows
  = ([WriteFailed filename (fst (writerows rows))], Raise UnicodeEncodeError)
  /\ exists r tail, rows = fst (writerows rows) ++ r :: tail /\ encodable r = false.
Proof.
  intro H. pose proof (writerows_spec rows) as Hw. rewrite H in Hw.
  destruct Hw as (Hv & r & tail & Hsplit & Hbad & _).
  unfold write_csv. rewrite Hv. split; [reflexivity |]. exists r, tail. auto.
Qed.

Lemma write_csv_value (filename : string) (rows : list row) :
  snd (write_csv filename rows)
  = if forallb encodable rows then Ok tt else Raise UnicodeEncodeError.
Proof.
  destruct (forallb encodable rows) eqn:H.
  - rewrite (write_csv_ok _ _ H). reflexivity.
  - destruct (write_csv_fails filename _ H) as (-> & _). reflexivity.
Qed.

Section Report.

Variable L : libs.
Variable W : world.
Variable cfg : config.

Lemma wiki_rows_from_spec (v : variant) (places : list pyval) :
  forall (i : nat) (rows : list row),
    snd (wiki_rows_from L W cfg v i places) = Ok rows ->
    List.length rows = List.length places /\ Forall (first_field "Wikipedia") rows.
Proof.
  induction places as [| place rest IH]; intros i rows H.
  - injection H as <-. split; [reflexivity | constructor].
  - cbn [wiki_rows_from] in H. minv H as r Hr. minv H as rs Hrs. injection H as <-.
    destruct (IH _ _ Hrs) as (Hlen & Hall).
    destruct (wiki_row_cells L cfg W v i place r Hr) as (t & la & lo & d & u & _ & _ & _ & ->).
    split; [cbn; lia | constructor; [reflexivity | assumption]].
Qed.

Lemma slice_to_nonempty {A : Type} (n : Z) (l : list A) :
  (1 <= n)%Z -> l <> [] -> slice_to n l <> [].
Proof.
  intros Hn Hl. unfold slice_to.
  replace (0 <=? n)%Z with true by (symmetry; apply Z.leb_le; lia).
  destruct l as [| x xs]; [congruence |].
  destruct (Z.to_nat n) eqn:E; [lia | discriminate].
Qed.

Lemma py_len_truthy (x : pyval) (n : Z) :
  py_len x = Ok n -> (1 <=? n)%Z = truthy x.
Proof.
  destruct x as [| | | | str | l | kv]; try discriminate; intro H; injection H as <-.
  - destruct str; [reflexivity |].
    cbn [String.length truthy String.eqb negb]. apply Z.leb_le. lia.
  - destruct l; [reflexivity |]. cbn [List.length truthy]. apply Z.leb_le. lia.
  - destruct kv; [reflexivity |]. cbn [List.length truthy]. apply Z.leb_le. lia.
Qed.

Lemma wiki_rows_spec (v : variant) (s : state) (rows : list row) :
  snd (wiki_rows L W cfg v s) = Ok rows ->
  ((1 <= max_results cfg)%Z -> rows <> [])
  /\ Forall (first_field "Wikipedia") rows
  /\ (truthy (wiki_results s) = false -> rows = [wiki_placeholder]).
Proof.
  intros H. unfold wiki_rows in H. minv H as nonempty Hne.
  assert (Hshape : nonempty = truthy (wiki_results s)).
  { destruct v.
    - injection Hne as <-. reflexivity.
    - minv Hne as n Hn. injection Hne as <-. apply py_len_truthy. exact Hn. }
  subst nonempty.
  destruct (truthy (wiki_results s)) eqn:Htruthy.
  - minv H as head Hhead. minv H as places Hplaces. cbn [lift snd] in Hhead, Hplaces.
    destruct (wiki_rows_from_spec v places O rows H) as (Hlen & Hall).
    split; [intro Hmax | split; [assumption | discriminate]].
    assert (Hplaces_ne : places <> []).
    { destruct (wiki_results s) as [| | | | str | l |]; try discriminate.
      - destruct str as [| c str]; [discriminate |].
        injection Hhead as <-. cbn [py_slice_to] in Hplaces.
        replace (0 <=? max_results cfg)%Z with true in Hplaces
          by (symmetry; apply Z.leb_le; lia).
        destruct (Z.to_nat (max_results cfg)) eqn:E; [lia |].
        cbn in Hplaces. injection Hplaces as <-. discriminate.
      - injection Hhead as <-. injection Hplaces as <-.
        apply slice_to_nonempty; [assumption |].
        destruct l; [discriminate | discriminate]. }
    intros ->. destruct places; [congruence | discriminate].
  - injection H as <-. split; [discriminate | split; [| reflexivity]].
    constructor; [reflexivity | constructor].
Qed.

Lemma admin_row_spec (s : state) (r : row) :
  snd (admin_row L cfg s) = Ok r ->
  first_field "OSM" r /\ (truthy (osm_admin_data s) = false -> r = admin_placeholder).
Proof.
  unfold admin_row. destruct (truthy (osm_admin_data s)).
  - msimpl. destruct (py_getitem (osm_admin_data s) "display_name"); [| discriminate].
    msimpl. cbn. intro H. injection H as <-. split; [reflexivity | discriminate].
  - cbn. intro H. injection H as <-. split; reflexivity.
Qed.

(** A row is appended for an element exactly when both coordinates handed
    back for it are truthy. *)
Lemma feature_row_spec (v : variant) (element : pyval) (o : option row) :
  snd (feature_row L cfg v element) = Ok o ->
  exists name lat lon,
    rbind (py_getitem element "tags") (fun tags => py_get_default tags "name" (PStr "Unnamed"))
    = Ok name
    /\ snd (coordinate L v element) = Ok (lat, lon)
    /\ match o with
       | Some r =>
           truthy lat && truthy lon = true
           /\ exists d type id,
                snd (distance L cfg v lat lon) = Ok d
                /\ py_getitem element "type" = Ok type
                /\ py_getitem element "id" = Ok id
                /\ r = [PStr "OSM"; name; lat; lon; d;
                        PStr ("https://www.openstreetmap.org/" ++ py_str L type ++ "/"
                              ++ py_str L id)]
       | None => truthy lat && truthy lon = false
       end.
Proof.
  unfold feature_row. intro H. minv H as name Hname. minv H as position Hpos.
  destruct position as [lat lon]. cbn [fst snd] in H.
  exists name, lat, lon. split; [exact Hname | split; [exact Hpos |]].
  destruct (truthy lat && truthy lon).
  - minv H as d Hd. minv H as type Htype. minv H as id Hid. injection H as <-.
    split; [reflexivity |]. exists d, type, id. auto.
  - injection H as <-. reflexivity.
Qed.

Lemma feature_rows_spec (v : variant) (s : state) (filtered : list pyval) (rows : list row) :
  snd (feature_rows L cfg v s filtered) = Ok rows ->
  (filtered = [] -> rows = [features_placeholder])
  /\ (filtered <> [] ->
      forall r, In r rows <->
                exists element, In element filtered
                                /\ snd (feature_row L cfg v element) = Ok (Some r))
  /\ Forall (first_field "OSM") rows.
Proof.
  unfold feature_rows. destruct filtered as [| e rest].
  - msimpl. cbn. intro H. injection H as <-.
    split; [reflexivity | split; [congruence |]].
    constructor; [reflexivity | constructor].
  - intro H. minv H as emitted Hemitted. revert H. msimpl. cbn [snd]. intro H.
    injection H as <-.
    apply mmap_spec in Hemitted.
    assert (Hin : forall r, In r (somes emitted) <->
                            exists element, In element (e :: rest)
                                            /\ snd (feature_row L cfg v element) = Ok (Some r)).
    { intro r. rewrite in_somes. split.
      - intro Hr. destruct (forall2_in_r _ _ _ _ Hemitted Hr) as (x & Hx & Hfx).
        exists x. auto.
      - intros (x & Hx & Hfx).
        destruct (forall2_in_l _ _ _ _ Hemitted Hx) as (y & Hy & Hfy).
        congruence. }
    split; [discriminate | split; [intros _; exact Hin |]].
    apply Forall_forall. intros r Hr. apply Hin in Hr. destruct Hr as (x & _ & Hfx).
    destruct (feature_row_spec v x (Some r) Hfx)
      as (name & lat & lon & _ & _ & _ & d & type & id & _ & _ & _ & ->).
    reflexivity.
Qed.







(** What the report does once its four groups are built: it writes the
    file in full and returns the rows, or the write raises. *)
Lemma report_outcome (v : variant) (s : state) (wiki : list row) (admin : row)
  (filtered : list pyval) (features : list row) (n : Z) :
  snd (wiki_rows L W cfg v s) = Ok wiki ->
  snd (admin_row L cfg s) = Ok admin ->
  snd (mfilter has_name (osm_features_data s)) = Ok filtered ->
  snd (feature_rows L cfg v s filtered) = Ok features ->
  py_len (wiki_results s) = Ok n ->
  if forallb encodable (header :: wiki ++ [admin] ++ features)
  then snd (report L W cfg v s) = Ok (header :: wiki ++ [admin] ++ features)
       /\ In (WriteCsv (strftime_now W) (header :: wiki ++ [admin] ++ features))
             (fst (report L W cfg v s))
  else snd (report L W cfg v s) = Raise UnicodeEncodeError
       /\ In (WriteFailed (strftime_now W)
                (fst (writerows (header :: wiki ++ [admin] ++ features))))
             (fst (report L W cfg v s)).
Proof.
  unfold report.
  destruct (wiki_rows L W cfg v s) as [t1 r1]. cbn [snd]. intros ->.
  rewrite bind_pair. cbn [fst snd].
  destruct (admin_row L cfg s) as [t2 r2]. cbn [snd]. intros ->.
  rewrite bind_pair. cbn [fst snd].
  destruct (mfilter has_name (osm_features_data s)) as [t3 r3]. cbn [snd]. intros ->.
  rewrite bind_pair. cbn [fst snd].
  destruct (feature_rows L cfg v s filtered) as [t4 r4]. cbn [snd]. intros -> Hlen.
  rewrite bind_pair. cbv zeta. cbn [fst snd].
  destruct (forallb encodable (header :: wiki ++ [admin] ++ features)) eqn:Henc.
  - rewrite (write_csv_ok _ _ Henc), bind_pair. msimpl. rewrite Hlen. msimpl.
    cbn [fst snd ret]. split; [reflexivity |].
    rewrite !in_app_iff. do 4 right. left. left. reflexivity.
  - destruct (write_csv_fails (strftime_now W) _ Henc) as (-> & _).
    rewrite bind_pair. cbn [fst snd]. split; [reflexivity |].
    rewrite !in_app_iff. do 4 right. left. reflexivity.
Qed.


(** C6 (the element the code drops).  A named node lying on the equator has
    its own coordinate, latitude 0.0, yet no row is appended for it in either
    variant, and a run whose only named feature it is reports no feature row
    and no placeholder. *)
Theorem zero_latitude_node_is_dropped (v : variant) (s : state) (lon : Q) (id : pyval) :
  let node := PDict [("type", PStr "node"); ("id", id);
                     ("lat", PFloat 0); ("lon", PFloat lon);
                     ("tags", PDict [("name", PStr "Equator Marker")])] in
  has_name node = ([], Ok true)
  /\ coordinate L v node = ([], Ok (PFloat 0, PFloat lon))
  /\ feature_row L cfg v node = ([], Ok None)
  /\ snd (feature_rows L cfg v s [node]) = Ok [].
Proof.
  intro node.
  assert (Hrow : feature_row L cfg v node = ([], Ok None)) by reflexivity.
  split; [reflexivity | split; [reflexivity | split; [exact Hrow |]]].
  unfold feature_rows. cbn [mmap]. rewrite Hrow. reflexivity.
Qed.

End Report.

(** ** Runs on well-shaped replies complete (C7) *)

Section Completion.

Variable L : libs.
Variable W : world.
Variable cfg : config.
Hypothesis Hworld : well_behaved W.

Lemma geosearch_call_ok (v : variant) (k : nat) (s : state) :
  exists wiki,
    snd (geosearch_call L W cfg v k s) = Ok wiki
    /\ match v with
       | V1 => exists hits, wiki = PList hits /\ forallb well_formed_place hits = true
       | V3 => wiki = PNone \/ well_formed_geosearch wiki = true
       end.
Proof.
  destruct Hworld as (Hgeo & _). specialize (Hgeo k).
  unfold geosearch_call, get_wikipedia_geosearch. msimpl.
  destruct (status_code (geosearch_reply W k) =? 200)%Z eqn:Hstatus.
  - apply Z.eqb_eq in Hstatus. destruct (Hgeo Hstatus) as (body & Hbody & Hshape).
    rewrite Hbody. unfold well_formed_geosearch in Hshape.
    destruct v; msimpl.
    + destruct (rbind (py_getitem body "query") (fun q => py_getitem q "geosearch"))
        as [[| | | | | hits |] | e]; try discriminate.
      msimpl. cbn [py_iter]. msimpl.
      assert (Hproj : exists places,
                 rmap (fun item =>
                         rbind (py_getitem item "title") (fun t =>
                         rbind (py_getitem item "lat") (fun la =>
                         rbind (py_getitem item "lon") (fun lo =>
                         Ok (PDict [("title", t); ("lat", la); ("lon", lo)]))))) hits
                 = Ok places /\ forallb well_formed_place places = true).
      { clear Hbody Hgeo. induction hits as [| hit rest IH].
        - exists []. split; reflexivity.
        - cbn [forallb] in Hshape. apply andb_true_iff in Hshape as (Hhit & Hrest).
          destruct (IH Hrest) as (places & Hplaces & Hwf).
          cbn [rmap]. rewrite Hplaces. unfold well_formed_place in Hhit.
          destruct (py_getitem hit "title") as [[| | | | title | |] | e]; try discriminate.
          destruct (py_getitem hit "lat") as [la | e]; [| discriminate].
          destruct (py_getitem hit "lon") as [lo | e]; [| discriminate].
          cbn [rbind]. eexists. split; [reflexivity |].
          cbn [forallb]. rewrite Hwf, andb_true_r.
          unfold well_formed_place. cbn. exact Hhit. }
      destruct Hproj as (places & -> & Hwf). msimpl.
      exists (PList places). split; [reflexivity |]. exists places. auto.
    + exists body. split; [reflexivity |]. right.
      unfold well_formed_geosearch. exact Hshape.
  - destruct v; cbn.
    + exists (PList []). split; [reflexivity |]. exists []. auto.
    + exists PNone. auto.
Qed.

Lemma admin_call_ok (k : nat) :
  exists admin, snd (admin_call W cfg k) = Ok admin /\ well_formed_admin admin = true.
Proof.
  destruct Hworld as (_ & Hadmin & _). specialize (Hadmin k).
  unfold admin_call, get_osm_administrative_info. msimpl.
  destruct (status_code (nominatim_reply W k) =? 200)%Z eqn:Hstatus.
  - apply Z.eqb_eq in Hstatus. destruct (Hadmin Hstatus) as (body & Hbody & Hshape).
    rewrite Hbody. exists body. auto.
  - exists PNone. split; reflexivity.
Qed.

Lemma nearby_features_ok (lat lon : pyval) (radius : Z) :
  forall (attempts depth : nat) (http : nat -> response),
    (attempts < depth)%nat ->
    (forall j, (j < attempts)%nat -> status_code (http j) = 429%Z) ->
    status_code (http attempts) <> 429%Z ->
    expected_reply well_formed_overpass (http attempts) ->
    exists features,
      snd (get_osm_nearby_features L depth http lat lon radius) = Ok features
      /\ well_formed_overpass features = true.
Proof.
  induction attempts as [| attempts IH]; intros depth http Hdepth Hbusy Hlast Hshape;
    (destruct depth as [| depth]; [lia |]); rewrite nearby_features_unfold.
  - apply Z.eqb_neq in Hlast. rewrite Hlast.
    destruct (status_code (http O) =? 200)%Z eqn:Hstatus.
    + apply Z.eqb_eq in Hstatus. destruct (Hshape Hstatus) as (body & Hbody & Hwf).
      exists body. split; [exact Hbody | exact Hwf].
    + exists PNone. split; reflexivity.
  - rewrite (Hbusy O) by lia. cbn [Z.eqb Pos.eqb snd].
    apply (IH depth (shift http)); [lia | | exact Hlast | exact Hshape].
    intros j Hj. apply (Hbusy (S j)). lia.
Qed.

Lemma features_call_ok (k : nat) (s : state) :
  exists features,
    snd (features_call L W cfg k s) = Ok features /\ well_formed_overpass features = true.
Proof.
  destruct Hworld as (_ & _ & Hover & _).
  destruct (Hover k) as (attempts & Hdepth & Hbusy & Hlast & Hshape).
  unfold features_call. eapply nearby_features_ok; eassumption.
Qed.

Lemma merge_features_ok (data : list pyval) (osm_features : pyval) :
  forallb well_formed_element data = true ->
  well_formed_overpass osm_features = true ->
  exists merged,
    snd (merge_features data osm_features) = Ok merged
    /\ forallb well_formed_element merged = true.
Proof.
  intros Hdata Hshape. unfold merge_features.
  destruct osm_features as [| | | | | | kv]; try discriminate.
  - exists data. auto.
  - destruct (truthy (PDict kv)); [| exists data; auto].
    msimpl. cbn [py_in py_getitem]. cbn [well_formed_overpass] in Hshape.
    destruct (lookup "elements" kv) as [[| | | | | elements |] |]; try discriminate.
    + msimpl. cbn [py_iter]. msimpl. exists (data ++ elements).
      split; [reflexivity |]. rewrite forallb_app, Hdata, Hshape. reflexivity.
    + msimpl. exists data. auto.
Qed.

Lemma getitem_dict (kv : list (string * pyval)) (key : string) :
  py_getitem (PDict kv) key
  = match lookup key kv with Some x => Ok x | None => Raise KeyError end.
Proof. reflexivity. Qed.

Lemma geosearch_hits_ok (wiki : pyval) :
  wiki = PNone \/ well_formed_geosearch wiki = true ->
  geosearch_hits wiki = ([], Ok None)
  \/ exists hits, geosearch_hits wiki = ([], Ok (Some (PList hits)))
                  /\ forallb well_formed_place hits = true.
Proof.
  intros [-> | Hshape]; [left; reflexivity |].
  unfold well_formed_geosearch in Hshape. unfold geosearch_hits.
  destruct wiki as [| | | | | | kv]; try discriminate.
  rewrite getitem_dict in Hshape |- *.
  destruct (lookup "query" kv) as [q |] eqn:Hq; [| discriminate].
  assert (Hkv : truthy (PDict kv) = true) by (destruct kv; [discriminate | reflexivity]).
  rewrite Hkv. msimpl. cbn [py_in]. rewrite Hq. msimpl. cbn [rbind] in Hshape |- *.
  destruct (py_getitem q "geosearch") as [[| | | | | hits |] | e]; try discriminate.
  msimpl. destruct hits as [| hit rest]; [left; reflexivity |].
  right. exists (hit :: rest). auto.
Qed.

Lemma decide_well_formed (v : variant) (s : state) (wiki : pyval) :
  well_formed_state s ->
  match v with
  | V1 => exists hits, wiki = PList hits /\ forallb well_formed_place hits = true
  | V3 => wiki = PNone \/ well_formed_geosearch wiki = true
  end ->
  exists s' b, snd (decide cfg v s wiki) = Ok (s', b) /\ well_formed_state s'.
Proof.
  intros (Hw & Ha & Hf) Hwiki. unfold decide. destruct v.
  - destruct Hwiki as (hits & -> & Hhits).
    assert (Hs2 : well_formed_state (set_wiki_results s (PList hits))).
    { split; [exists hits; auto | split; assumption]. }
    assert (Hs3 : well_formed_state (increase_radius cfg (set_wiki_results s (PList hits)))).
    { split; [exists hits; auto | split; assumption]. }
    destruct (truthy (PList hits)); msimpl; cbn [py_len]; msimpl.
    + destruct (min_results cfg <=? Z.of_nat (List.length hits))%Z;
        do 2 eexists; (split; [reflexivity | assumption]).
    + do 2 eexists; (split; [reflexivity | assumption]).
  - destruct (geosearch_hits_ok wiki Hwiki) as [-> | (hits & -> & Hhits)];
      rewrite bind_pair; cbn [fst snd]; msimpl.
    + exists (increase_radius cfg s), false. split; [reflexivity |].
      split; [exact Hw | split; assumption].
    + cbn [py_len]. msimpl.
      assert (Hs2 : well_formed_state (set_wiki_results s (PList hits))).
      { split; [exists hits; auto | split; assumption]. }
      assert (Hs3 : well_formed_state (increase_radius cfg (set_wiki_results s (PList hits)))).
      { split; [exists hits; auto | split; assumption]. }
      destruct (min_results cfg <=? Z.of_nat (List.length hits))%Z; msimpl;
        do 2 eexists; (split; [reflexivity | assumption]).
Qed.

Lemma loop_body_well_formed (v : variant) (k : nat) (s : state) :
  well_formed_state s ->
  exists s' b, snd (loop_body L W cfg v k s) = Ok (s', b) /\ well_formed_state s'.
Proof.
  intros (Hw & Ha & Hf). rewrite loop_body_value.
  destruct (geosearch_call_ok v k s) as (wiki & -> & Hwiki).
  destruct (admin_call_ok k) as (admin & Hadmin & Hadmin_wf).
  assert (Hcache : exists a, (if truthy (osm_admin_data s) then Ok (osm_admin_data s)
                              else snd (admin_call W cfg k)) = Ok a
                             /\ well_formed_admin a = true).
  { destruct (truthy (osm_admin_data s)); eauto. }
  destruct Hcache as (a & -> & Ha').
  destruct (features_call_ok k s) as (features & -> & Hfeatures).
  destruct (merge_features_ok _ _ Hf Hfeatures) as (merged & -> & Hmerged).
  apply decide_well_formed; [| exact Hwiki].
  split; [exact Hw | split; assumption].
Qed.

Lemma loop_cond_well_formed (s : state) :
  well_formed_state s -> exists b, snd (loop_cond cfg s) = Ok b.
Proof.
  intros ((hits & Hhits & _) & _). unfold loop_cond.
  destruct (current_radius s <=? max_radius cfg)%Z; [| eexists; reflexivity].
  rewrite Hhits. msimpl. cbn [py_len]. msimpl. eexists. reflexivity.
Qed.

Lemma controller_loop_well_formed (v : variant) :
  forall (fuel k : nat) (s : state),
    well_formed_state s ->
    match snd (controller_loop L W cfg v fuel k s) with
    | Ok (Some (s', _)) => well_formed_state s'
    | Ok None => True
    | Raise _ => False
    end.
Proof.
  induction fuel as [| fuel IH]; intros k s Hs; [exact I |].
  rewrite controller_loop_unfold.
  destruct (loop_cond_well_formed s Hs) as (b & ->).
  destruct b; [| exact Hs].
  destruct (loop_body_well_formed v k s Hs) as (s' & b & -> & Hs').
  destruct b; cbn [snd]; [exact Hs' | apply IH; exact Hs'].
Qed.

Lemma rmap_inv {A B : Type} (f : A -> result B) (l : list A) (ys : list B) :
  rmap f l = Ok ys -> Forall2 (fun x y => f x = Ok y) l ys.
Proof.
  revert ys. induction l as [| x xs IH]; intros ys H.
  - injection H as <-. constructor.
  - cbn [rmap] in H. destruct (f x) as [y |] eqn:Hy; [| discriminate].
    destruct (rmap f xs) as [ys' |]; [| discriminate].
    cbn [rbind] in H. injection H as <-. constructor; [exact Hy | apply IH; reflexivity].
Qed.

Lemma forall_firstn {A : Type} (P : A -> Prop) (n : nat) (l : list A) :
  Forall P l -> Forall P (firstn n l).
Proof.
  revert l. induction n as [| n IH]; intros [| x xs] H; try constructor;
    inversion H; subst; [assumption | apply IH; assumption].
Qed.

Lemma projected_place_computes (v : variant) (hit p : pyval) :
  project_hit hit = Ok p -> place_computes L cfg v hit -> place_computes L cfg v p.
Proof.
  unfold project_hit. intros Hp (Hd & Hq).
  destruct (py_getitem hit "title") as [t |] eqn:Ht; [| discriminate].
  destruct (py_getitem hit "lat") as [la |] eqn:Hla; [| discriminate].
  destruct (py_getitem hit "lon") as [lo |] eqn:Hlo; [| discriminate].
  cbn [rbind] in Hp. injection Hp as <-. split.
  - intros lat lon Hlat Hlon. cbn in Hlat, Hlon.
    injection Hlat as <-. injection Hlon as <-. apply Hd; reflexivity.
  - intros Hv t' Ht'. cbn in Ht'. injection Ht' as ->. apply (Hq Hv). reflexivity.
Qed.

(** The hits a geosearch call hands to the controller are hits of the
    reply, or their projections, and so their computations return. *)
Lemma geosearch_call_computes (v : variant) (k : nat) (s : state) (wiki : pyval) :
  computations_return L W cfg v ->
  snd (geosearch_call L W cfg v k s) = Ok wiki ->
  match v with
  | V1 => exists places, wiki = PList places /\ Forall (place_computes L cfg v) places
  | V3 => forall hits,
            rbind (py_getitem wiki "query") (fun q => py_getitem q "geosearch")
            = Ok (PList hits) ->
            Forall (place_computes L cfg v) hits
  end.
Proof.
  intro Hcomp.
  destruct Hworld as (Hgeo & _). specialize (Hgeo k). destruct Hcomp as (Hplaces & _).
  unfold geosearch_call, get_wikipedia_geosearch. msimpl.
  destruct (status_code (geosearch_reply W k) =? 200)%Z eqn:Hstatus.
  - apply Z.eqb_eq in Hstatus. destruct (Hgeo Hstatus) as (body & Hbody & Hshape).
    rewrite Hbody. unfold well_formed_geosearch in Hshape.
    destruct v; msimpl.
    + destruct (rbind (py_getitem body "query") (fun q => py_getitem q "geosearch"))
        as [[| | | | | hits |] | e] eqn:Hhits; try discriminate.
      msimpl. cbn [py_iter]. msimpl. fold project_hit.
      destruct (rmap project_hit hits) as [places |] eqn:Hproj; [| discriminate].
      msimpl. cbn. intro H. injection H as <-. exists places. split; [reflexivity |].
      apply rmap_inv in Hproj. apply Forall_forall. intros p Hp.
      destruct (forall2_in_r _ _ _ _ Hproj Hp) as (hit & Hin & Hhit).
      apply (projected_place_computes V1 hit p Hhit).
      apply (Hplaces k body hits hit Hbody Hhits Hin).
    + cbn. intro H. injection H as <-. intros hits Hhits.
      apply Forall_forall. intros hit Hin.
      apply (Hplaces k body hits hit Hbody Hhits Hin).
  - destruct v; cbn; intro H; injection H as <-.
    + exists []. split; [reflexivity | constructor].
    + intros hits Hhits. discriminate Hhits.
Qed.

Lemma nearby_features_from_reply (lat lon : pyval) (radius : Z) :
  forall (depth : nat) (http : nat -> response) (f : pyval),
    snd (get_osm_nearby_features L depth http lat lon radius) = Ok f ->
    f = PNone \/ exists j, json (http j) = Ok f.
Proof.
  induction depth as [| depth IH]; intros http f H; [discriminate H |].
  rewrite nearby_features_unfold in H.
  destruct (status_code (http O) =? 200)%Z.
  - right. exists O. exact H.
  - destruct (status_code (http O) =? 429)%Z.
    + cbn [snd] in H. destruct (IH (shift http) f H) as [-> | (j & Hj)]; [left; reflexivity |].
      right. exists (S j). exact Hj.
    + left. injection H as <-. reflexivity.
Qed.

Lemma has_name_not_a_record (s : string) : snd (has_name (PStr s)) <> Ok true.
Proof.
  unfold has_name. msimpl. cbn [py_in]. msimpl.
  destruct (is_substring "tags" s); cbn; discriminate.
Qed.

Lemma merge_features_computes (v : variant) (k : nat) (data : list pyval) (f : pyval)
  (merged : list pyval) :
  computations_return L W cfg v ->
  Forall (named_computes L cfg v) data ->
  f = PNone \/ (exists j, json (overpass_reply W k j) = Ok f) ->
  snd (merge_features data f) = Ok merged ->
  Forall (named_computes L cfg v) merged.
Proof.
  intros (_ & Helements) Hdata Hf. unfold merge_features.
  destruct (truthy f) eqn:Htruthy; [| intro H; injection H as <-; exact Hdata].
  destruct Hf as [-> | (j & Hj)]; [discriminate Htruthy |].
  msimpl. destruct (py_in "elements" f) as [[|] |]; msimpl; try discriminate;
    [| intro H; injection H as <-; exact Hdata].
  destruct (py_getitem f "elements") as [elements |] eqn:Hels; msimpl; [| discriminate].
  destruct (py_iter elements) as [items |] eqn:Hitems; msimpl; [| discriminate].
  cbn. intro H. injection H as <-. apply Forall_app. split; [exact Hdata |].
  apply Forall_forall. intros e He.
  destruct elements as [| | | | str | l | kv]; try discriminate; injection Hitems as <-.
  - intro Hnamed. exfalso. revert He Hnamed. clear.
    induction str as [| c rest IH]; [intros [] |].
    intros [<- | Hin]; [apply has_name_not_a_record | apply IH; exact Hin].
  - intro Hnamed. apply (Helements k j f l e Hj Hels He Hnamed).
  - intro Hnamed. exfalso. apply in_map_iff in He as (p & <- & _).
    apply (has_name_not_a_record _ Hnamed).
Qed.

Lemma decide_results (v : variant) (s : state) (wiki : pyval) (s' : state) (b : bool) :
  snd (decide cfg v s wiki) = Ok (s', b) ->
  osm_features_data s' = osm_features_data s
  /\ (wiki_results s' = wiki_results s
      \/ (v = V1 /\ wiki_results s' = wiki)
      \/ (v = V3 /\ rbind (py_getitem wiki "query") (fun q => py_getitem q "geosearch")
                    = Ok (wiki_results s'))).
Proof.
  intro H. pose proof (decide_ok cfg v s wiki s' b H) as (_ & Hdata & _).
  split; [exact Hdata |]. clear Hdata.
  destruct (decide cfg v s wiki) as [t r] eqn:E. cbn [snd] in H. subst r.
  revert E. unfold decide. destruct v.
  - repeat (branch; msimpl); intro H; inversion H; subst; right; left; auto.
  - unfold geosearch_hits. destruct (truthy wiki); msimpl.
    2:{ intro H. inversion H; subst. left. reflexivity. }
    destruct (py_in "query" wiki) as [[|] |]; msimpl; try discriminate.
    2:{ intro H. inversion H; subst. left. reflexivity. }
    destruct (rbind (py_getitem wiki "query") (fun q => py_getitem q "geosearch"))
      as [hits |]; msimpl; [| discriminate].
    destruct (truthy hits); msimpl.
    2:{ intro H. inversion H; subst. left. reflexivity. }
    destruct (py_len hits) as [n |]; msimpl; [| discriminate].
    destruct (min_results cfg <=? n)%Z; msimpl; intro H; inversion H; subst;
      right; right; auto.
Qed.

Lemma loop_body_computes (v : variant) (k : nat) (s s' : state) (b : bool) :
  computations_return L W cfg v ->
  computable_state L cfg v s ->
  snd (loop_body L W cfg v k s) = Ok (s', b) ->
  computable_state L cfg v s'.
Proof.
  intros Hcomp (Hhits & Hdata). rewrite loop_body_value.
  destruct (snd (geosearch_call L W cfg v k s)) as [wiki | e] eqn:Hwiki; [| discriminate].
  destruct (if truthy (osm_admin_data s) then Ok (osm_admin_data s)
            else snd (admin_call W cfg k)) as [admin | e]; [| discriminate].
  destruct (snd (features_call L W cfg k s)) as [f | e] eqn:Hf; [| discriminate].
  destruct (snd (merge_features (osm_features_data s) f)) as [merged | e] eqn:Hm;
    [| discriminate].
  intro H. apply decide_results in H. cbn [osm_features_data wiki_results] in H.
  destruct H as (Hdata' & Hresults).
  pose proof (geosearch_call_computes v k s wiki Hcomp Hwiki) as Hcalled.
  split.
  - intros hits Hs'.
    destruct Hresults as [Hsame | [(-> & Hv1) | (-> & Hv3)]].
    + apply Hhits. congruence.
    + destruct Hcalled as (places & -> & Hplaces). congruence.
    + apply Hcalled. congruence.
  - rewrite Hdata'. apply (merge_features_computes v k (osm_features_data s) f merged Hcomp);
      [exact Hdata | | exact Hm].
    apply (nearby_features_from_reply _ _ _ _ _ _ Hf).
Qed.

Lemma controller_loop_computes (v : variant) :
  computations_return L W cfg v ->
  forall (fuel k : nat) (s s' : state) (n : nat),
    computable_state L cfg v s ->
    snd (controller_loop L W cfg v fuel k s) = Ok (Some (s', n)) ->
    computable_state L cfg v s'.
Proof.
  intro Hcomp.
  induction fuel as [| fuel IH]; intros k s s' n Hs Hrun; [discriminate Hrun |].
  rewrite controller_loop_unfold in Hrun.
  destruct (snd (loop_cond cfg s)) as [[|] | e]; cbn [snd] in Hrun; try discriminate.
  2:{ injection Hrun as <- <-. exact Hs. }
  destruct (snd (loop_body L W cfg v k s)) as [[s1 b] | e] eqn:Hbody;
    cbn [snd] in Hrun; [| discriminate].
  pose proof (loop_body_computes v k s s1 b Hcomp Hs Hbody) as Hs1.
  destruct b; cbn [snd] in Hrun; [injection Hrun as <- <-; exact Hs1 |].
  apply (IH _ _ _ _ Hs1 Hrun).
Qed.

Lemma wikipedia_url_ok (v : variant) (i : nat) (title : string) :
  (v = V1 -> exists u, quote L (replace_spaces title) = Ok u) ->
  exists url, snd (get_wikipedia_url L v (wikiurl_reply W i) (PStr title)) = Ok url.
Proof.
  intro Hquote. destruct Hworld as (_ & _ & _ & Hurl). specialize (Hurl i).
  unfold get_wikipedia_url. destruct v.
  - destruct (Hquote eq_refl) as (u & ->). eexists. reflexivity.
  - msimpl. destruct (status_code (wikiurl_reply W i) =? 200)%Z eqn:Hstatus;
      [| eexists; reflexivity].
    apply Z.eqb_eq in Hstatus. destruct (Hurl Hstatus) as (body & -> & Hshape).
    unfold well_formed_pages in Hshape. msimpl.
    destruct (rbind (py_getitem body "query") (fun q => py_getitem q "pages"))
      as [[| | | | | | [| [key page] rest]] | e]; try discriminate.
    msimpl. destruct (py_getitem page "fullurl") as [url | e]; [| discriminate].
    exists url. reflexivity.
Qed.

Lemma wiki_row_ok (v : variant) (i : nat) (place : pyval) :
  well_formed_place place = true ->
  place_computes L cfg v place ->
  exists r, snd (wiki_row L W cfg v i place) = Ok r.
Proof.
  unfold well_formed_place, wiki_row. intros Hplace (Hd & Hq).
  destruct (py_getitem place "title") as [[| | | | title | |] | e]; try discriminate.
  destruct (py_getitem place "lat") as [lat | e]; [| discriminate].
  destruct (py_getitem place "lon") as [lon | e]; [| discriminate].
  destruct (Hd lat lon eq_refl eq_refl) as (d & Hdist).
  destruct (wikipedia_url_ok v i title) as (url & Hurl).
  { intro Hv. apply (Hq Hv). reflexivity. }
  msimpl. rewrite bind_value, Hdist. msimpl. rewrite bind_value, Hurl.
  eexists. reflexivity.
Qed.

Lemma wiki_rows_from_ok (v : variant) (places : list pyval) :
  forallb well_formed_place places = true ->
  Forall (place_computes L cfg v) places ->
  forall i, exists rows, snd (wiki_rows_from L W cfg v i places) = Ok rows.
Proof.
  induction places as [| place rest IH]; intros Hplaces Hall i; [eexists; reflexivity |].
  cbn [forallb] in Hplaces. apply andb_true_iff in Hplaces as (Hplace & Hrest).
  inversion Hall as [| ? ? Hc Hcs]; subst.
  destruct (wiki_row_ok v i place Hplace Hc) as (r & Hr).
  destruct (IH Hrest Hcs (S i)) as (rows & Hrows).
  cbn [wiki_rows_from]. rewrite bind_value, Hr, bind_value, Hrows. eexists. reflexivity.
Qed.

Lemma forallb_firstn {A : Type} (f : A -> bool) (n : nat) (l : list A) :
  forallb f l = true -> forallb f (firstn n l) = true.
Proof.
  revert l. induction n as [| n IH]; intros [| x xs] H; try reflexivity.
  cbn [forallb firstn] in H |- *. apply andb_true_iff in H as (Hx & Hxs).
  rewrite Hx, (IH xs Hxs). reflexivity.
Qed.

Lemma wiki_rows_ok (v : variant) (s : state) :
  well_formed_state s -> computable_state L cfg v s ->
  exists rows, snd (wiki_rows L W cfg v s) = Ok rows.
Proof.
  intros ((hits & Hhits & Hwf) & _) (Hc & _). specialize (Hc hits Hhits).
  unfold wiki_rows. rewrite Hhits.
  assert (Htest : exists b,
             match v with
             | V1 => ret (truthy (PList hits))
             | V3 => n <- lift (py_len (PList hits)) ;; ret (1 <=? n)%Z
             end = ([], Ok b)).
  { destruct v; eexists; reflexivity. }
  destruct Htest as (b & ->). rewrite bind_pair. cbn [fst snd app].
  destruct b; [| eexists; reflexivity].
  cbn [py_slice_to]. msimpl. cbn [py_iter]. msimpl.
  apply wiki_rows_from_ok; unfold slice_to;
    destruct (0 <=? max_results cfg)%Z;
    (apply forallb_firstn; exact Hwf) || (apply forall_firstn; exact Hc).
Qed.

Lemma admin_row_ok (s : state) :
  well_formed_state s -> exists r, snd (admin_row L cfg s) = Ok r.
Proof.
  intros (_ & Hadmin & _). unfold admin_row, well_formed_admin in *.
  destruct (truthy (osm_admin_data s)); [| eexists; reflexivity].
  cbn [negb orb] in Hadmin. msimpl.
  destruct (py_getitem (osm_admin_data s) "display_name"); [| discriminate].
  eexists. reflexivity.
Qed.

Lemma has_name_ok (element : pyval) :
  well_formed_element element = true ->
  exists b, has_name element = ([], Ok b).
Proof.
  unfold well_formed_element, has_name. intro He.
  destruct element as [| | | | | | kv]; try discriminate.
  msimpl. cbn [py_in]. rewrite getitem_dict.
  destruct (lookup "tags" kv) as [[| | | | | | tags] |]; try discriminate;
    msimpl; cbn [rbind py_get]; [| eexists; reflexivity].
  destruct (lookup "name" tags); eexists; reflexivity.
Qed.

Lemma filtered_ok (v : variant) (data : list pyval) :
  forallb well_formed_element data = true ->
  Forall (named_computes L cfg v) data ->
  exists filtered,
    mfilter has_name data = ([], Ok filtered)
    /\ Forall (fun e => well_formed_element e = true /\ snd (has_name e) = Ok true
                        /\ element_computes L cfg v e) filtered.
Proof.
  induction data as [| e rest IH]; intros Hdata Hall.
  - exists []. split; [reflexivity | constructor].
  - cbn [forallb] in Hdata. apply andb_true_iff in Hdata as (He & Hrest).
    inversion Hall as [| ? ? Hc Hcs]; subst.
    destruct (IH Hrest Hcs) as (filtered & Hf & Hfall).
    destruct (has_name_ok e He) as (b & Hb).
    cbn [mfilter]. rewrite Hb, bind_pair. cbn [fst snd app].
    rewrite Hf, bind_pair. cbn [fst snd app].
    destruct b; eexists; (split; [reflexivity |]); [| assumption].
    constructor; [| assumption]. split; [exact He |].
    assert (Hnamed : snd (has_name e) = Ok true) by (rewrite Hb; reflexivity).
    split; [exact Hnamed | apply Hc; exact Hnamed].
Qed.

Lemma feature_row_ok (v : variant) (element : pyval) :
  well_formed_element element = true ->
  snd (has_name element) = Ok true ->
  element_computes L cfg v element ->
  exists o, snd (feature_row L cfg v element) = Ok o.
Proof.
  unfold well_formed_element. intros He Hnamed (lat & lon & Hcoord & Hdist).
  unfold feature_row. rewrite bind_value.
  destruct element as [| | | | | | kv]; try discriminate.
  rewrite getitem_dict.
  destruct (lookup "tags" kv) as [[| | | | | | tags] |] eqn:Htags; try discriminate.
  2:{ exfalso. revert Hnamed. unfold has_name. msimpl. cbn [py_in]. rewrite Htags.
      msimpl. discriminate. }
  destruct (lookup "type" kv) as [type |] eqn:Htype; [| discriminate].
  destruct (lookup "id" kv) as [id |] eqn:Hid; [| discriminate].
  cbn [rbind py_get_default lift snd]. rewrite bind_value, Hcoord. cbn [fst snd].
  destruct (truthy lat && truthy lon); [| eexists; reflexivity].
  destruct (Hdist eq_refl) as (d & Hd).
  rewrite bind_value, Hd. msimpl. rewrite !getitem_dict, Htype, Hid. msimpl.
  eexists. reflexivity.
Qed.

Lemma feature_rows_ok (v : variant) (s : state) (filtered : list pyval) :
  Forall (fun e => well_formed_element e = true /\ snd (has_name e) = Ok true
                     /\ element_computes L cfg v e) filtered ->
  exists rows, snd (feature_rows L cfg v s filtered) = Ok rows.
Proof.
  intro Hall. unfold feature_rows.
  assert (Hmap : exists emitted, snd (mmap (feature_row L cfg v) filtered) = Ok emitted).
  { induction Hall as [| e rest (He & Hn & Hc) _ IH]; [eexists; reflexivity |].
    destruct (feature_row_ok v e He Hn Hc) as (o & Ho). destruct IH as (emitted & Hem).
    cbn [mmap]. rewrite bind_value, Ho, bind_value, Hem. eexists. reflexivity. }
  destruct filtered; [eexists; reflexivity |].
  destruct Hmap as (emitted & Hem). rewrite bind_value, Hem. eexists. reflexivity.
Qed.

(** C7 (as amended).  Whatever statuses the servers return, a run gets
    through the loop and builds every row, the placeholder rows standing in
    for missing data, as long as each 200 reply has a body of the expected
    shape, Overpass stops answering 429 before the recursion limit in every
    pass, the increment is positive, and the computations on the hits and
    named elements received return (the distance, the centroid of a way and,
    in [V1], the quoting of a title).  It then writes its CSV and completes
    when every row can be encoded; when a text cell holds a lone surrogate
    the write raises [UnicodeEncodeError] and leaves the file with the rows
    before that one. *)
Theorem run_completes (v : variant) :
  (0 < radius_increment cfg)%Z ->
  computations_return L W cfg v ->
  exists (fuel : nat) (s : state) (n : nat) (wiki : list row) (admin : row)
         (filtered : list pyval) (features : list row),
    snd (controller_loop L W cfg v fuel O (initial_state cfg)) = Ok (Some (s, n))
    /\ snd (wiki_rows L W cfg v s) = Ok wiki
    /\ snd (admin_row L cfg s) = Ok admin
    /\ snd (mfilter has_name (osm_features_data s)) = Ok filtered
    /\ snd (feature_rows L cfg v s filtered) = Ok features
    /\ (truthy (wiki_results s) = false -> wiki = [wiki_placeholder])
    /\ (truthy (osm_admin_data s) = false -> admin = admin_placeholder)
    /\ (filtered = [] -> features = [features_placeholder])
    /\ (forallb encodable (header :: wiki ++ [admin] ++ features) = true ->
        snd (main L W cfg v fuel) = Ok (Some (header :: wiki ++ [admin] ++ features))
        /\ In (WriteCsv (strftime_now W) (header :: wiki ++ [admin] ++ features))
              (fst (main L W cfg v fuel)))
    /\ (forallb encodable (header :: wiki ++ [admin] ++ features) = false ->
        snd (main L W cfg v fuel) = Raise UnicodeEncodeError
        /\ exists written r tail,
             In (WriteFailed (strftime_now W) written) (fst (main L W cfg v fuel))
             /\ header :: wiki ++ [admin] ++ features = written ++ r :: tail
             /\ encodable r = false).
Proof.
  intros Hinc Hcomp.
  set (fuel := S (Z.to_nat (remaining cfg (initial_state cfg)))).
  assert (Hinit : well_formed_state (initial_state cfg)).
  { split; [exists []; split; reflexivity | split; reflexivity]. }
  assert (Hinit' : computable_state L cfg v (initial_state cfg)).
  { split; [| constructor]. intros hits H. injection H as <-. constructor. }
  pose proof (controller_loop_well_formed v fuel O _ Hinit) as Hwf.
  destruct (controller_loop_bounded L W cfg v Hinc fuel O (initial_state cfg)) as (_ & Hend).
  pose proof (remaining_nonneg cfg (initial_state cfg) Hinc) as Hnn.
  destruct (snd (controller_loop L W cfg v fuel O (initial_state cfg)))
    as [[[s n] |] | e] eqn:Hloop; [| subst fuel; lia | contradiction].
  pose proof (controller_loop_computes v Hcomp fuel O _ s n Hinit' Hloop) as Hcs.
  destruct (wiki_rows_ok v s Hwf Hcs) as (wiki & Hwiki).
  destruct (admin_row_ok s Hwf) as (admin & Hadmin).
  destruct Hwf as ((hits & Hhits & Hplaces) & Hadmin_wf & Hdata).
  destruct Hcs as (_ & Hnamed).
  destruct (filtered_ok v _ Hdata Hnamed) as (filtered & Hfiltered & Hall).
  destruct (feature_rows_ok v s filtered Hall) as (features & Hfeatures).
  destruct (wiki_rows_spec L W cfg v s wiki Hwiki) as (_ & _ & Hwph).
  destruct (admin_row_spec L cfg s admin Hadmin) as (_ & Haph).
  destruct (feature_rows_spec L cfg v s filtered features Hfeatures) as (Hfph & _).
  assert (Hfiltered' : snd (mfilter has_name (osm_features_data s)) = Ok filtered)
    by (rewrite Hfiltered; reflexivity).
  assert (Hlen : py_len (wiki_results s) = Ok (Z.of_nat (List.length hits)))
    by (rewrite Hhits; reflexivity).
  pose proof (report_outcome L W cfg v s wiki admin filtered features _
                Hwiki Hadmin Hfiltered' Hfeatures Hlen) as Hreport.
  exists fuel, s, n, wiki, admin, filtered, features.
  do 8 (split; [assumption |]).
  assert (Htrace : forall e, In e (fst (report L W cfg v s)) ->
                             In e (fst (main L W cfg v fuel))).
  { intros e He. unfold main. rewrite bind_trace, Hloop, bind_trace.
    rewrite in_app_iff. right.
    destruct (snd (report L W cfg v s)); [rewrite in_app_iff; left |]; exact He. }
  assert (Hvalue : snd (main L W cfg v fuel)
                   = match snd (report L W cfg v s) with
                     | Ok rows => Ok (Some rows)
                     | Raise e => Raise e
                     end).
  { unfold main. rewrite bind_value, Hloop, bind_value.
    destruct (snd (report L W cfg v s)); reflexivity. }
  split; intro Henc; rewrite Henc in Hreport.
  - destruct Hreport as (Hv & Hw). rewrite Hvalue, Hv. split; [reflexivity |].
    apply Htrace. exact Hw.
  - destruct Hreport as (Hv & Hw). rewrite Hvalue, Hv. split; [reflexivity |].
    destruct (write_csv_fails (strftime_now W) _ Henc) as (_ & r & tail & Hsplit & Hbad).
    exists (fst (writerows (header :: wiki ++ [admin] ++ features))), r, tail.
    split; [apply Htrace; exact Hw | split; [exact Hsplit | exact Hbad]].
Qed.

End Completion.

(** ** Further properties of the clients *)

Lemma rmap_ok {A B : Type} (f : A -> result B) (l : list A) :
  Forall (fun x => exists y, f x = Ok y) l ->
  exists ys, rmap f l = Ok ys /\ Forall2 (fun x y => f x = Ok y) l ys.
Proof.
  induction 1 as [| x rest (y & Hy) _ (ys & Hys & Hall)].
  - exists []. split; [reflexivity | constructor].
  - exists (y :: ys). cbn [rmap]. rewrite Hy, Hys. split; [reflexivity |].
    constructor; assumption.
Qed.

Lemma rmap_raise {A B : Type} (f : A -> result B) (l : list A) :
  Exists (fun x => exists e, f x = Raise e) l -> exists e, rmap f l = Raise e.
Proof.
  induction 1 as [x rest (e & He) | x rest _ (e & He)]; cbn [rmap].
  - rewrite He. exists e. reflexivity.
  - destruct (f x); [rewrite He |]; eexists; reflexivity.
Qed.

Section ClientsMore.

Variable L : libs.

(** X8.  The geosearch client of [V1] answers a 200 reply all or nothing:
    when every hit has a title, a latitude and a longitude it returns one
    record per hit, in order, made of exactly these three fields; when some
    hit lacks one of them the call raises and no hit is returned. *)
Theorem v1_geosearch_all_or_nothing
  (http : response) (lat lon : pyval) (radius limit : Z) (body : pyval)
  (hits : list pyval) :
  status_code http = 200%Z ->
  json http = Ok body ->
  rbind (py_getitem body "query") (fun q => py_getitem q "geosearch") = Ok (PList hits) ->
  (Forall (fun h => exists p, project_hit h = Ok p) hits ->
   exists places,
     snd (get_wikipedia_geosearch L V1 http lat lon radius limit) = Ok (PList places)
     /\ Forall2 (fun h p =>
                   exists t la lo,
                     py_getitem h "title" = Ok t /\ py_getitem h "lat" = Ok la
                     /\ py_getitem h "lon" = Ok lo
                     /\ p = PDict [("title", t); ("lat", la); ("lon", lo)]) hits places)
  /\ (Exists (fun h => exists e, project_hit h = Raise e) hits ->
      exists e, snd (get_wikipedia_geosearch L V1 http lat lon radius limit) = Raise e).
Proof.
  intros Hstatus Hjson Hhits.
  assert (Hvalue : snd (get_wikipedia_geosearch L V1 http lat lon radius limit)
                   = rbind (rmap project_hit hits) (fun places => Ok (PList places))).
  { unfold get_wikipedia_geosearch. rewrite Hstatus. cbn [Z.eqb Pos.eqb].
    msimpl. rewrite Hjson. msimpl. rewrite Hhits. msimpl. cbn [py_iter]. msimpl.
    fold project_hit. destruct (rmap project_hit hits); reflexivity. }
  rewrite Hvalue. split.
  - intro Hall. destruct (rmap_ok project_hit hits Hall) as (places & -> & Hrel).
    exists places. split; [reflexivity |].
    eapply Forall2_impl; [| exact Hrel]. intros h p Hp. unfold project_hit in Hp.
    destruct (py_getitem h "title") as [t |]; [| discriminate].
    destruct (py_getitem h "lat") as [la |]; [| discriminate].
    destruct (py_getitem h "lon") as [lo |]; [| discriminate].
    injection Hp as <-. exists t, la, lo. auto.
  - intro Hsome. destruct (rmap_raise project_hit hits Hsome) as (e & ->).
    exists e. reflexivity.
Qed.

(** X9.  Under rate limiting that does not end, the nearby-features client
    never returns: each of the [depth] calls the interpreter allows sends its
    request and sleeps 60 seconds, and the call ends in [RecursionError]. *)
Theorem sustained_rate_limit (lat lon : pyval) (radius : Z) :
  forall (depth : nat) (http : nat -> response),
    (forall j, (j < depth)%nat -> status_code (http j) = 429%Z) ->
    snd (get_osm_nearby_features L depth http lat lon radius) = Raise RecursionError
    /\ requests (fst (get_osm_nearby_features L depth http lat lon radius))
       = repeat (overpass_request L lat lon radius) depth
    /\ sleeps (fst (get_osm_nearby_features L depth http lat lon radius))
       = repeat (Sleep 60) depth.
Proof.
  induction depth as [| depth IH]; intros http Hbusy.
  - repeat split.
  - rewrite nearby_features_unfold, (Hbusy O) by lia. cbn [Z.eqb Pos.eqb fst snd].
    destruct (IH (shift http)) as (Hv & Hr & Hs).
    { intros j Hj. apply (Hbusy (S j)). lia. }
    split; [exact Hv | split].
    + change (requests (?a :: Print ?p :: Sleep ?k :: ?t)) with (a :: requests t).
      rewrite Hr. reflexivity.
    + change (sleeps (?a :: Print ?p :: Sleep ?k :: ?t)) with (Sleep k :: sleeps t).
      rewrite Hs. reflexivity.
Qed.

Lemma replace_spaces_get (t : string) :
  forall i, String.get i (replace_spaces t)
            = match String.get i t with
              | Some c => Some (if Ascii.eqb c " "%char then "_"%char else c)
              | None => None
              end.
Proof.
  induction t as [| c rest IH]; intro i; [reflexivity |].
  destruct i as [| i]; cbn [replace_spaces String.get]; [reflexivity | apply IH].
Qed.

(** X10.  In [V1] the address of an article is built without any request.
    For a string title every space becomes an underscore and nothing else
    changes, and the result is handed to [urllib.parse.quote]: when that
    returns, the address is the wiki prefix followed by what it returned; when
    it raises (as it does with [UnicodeEncodeError] on a lone surrogate), the
    call raises the same exception.  A title that is not a string raises
    [AttributeError]. *)
Theorem v1_url_is_built_locally (http : response) (t : string) :
  get_wikipedia_url L V1 http (PStr t)
  = ([], match quote L (replace_spaces t) with
         | Ok quoted => Ok (PStr ("https://en.wikipedia.org/wiki/" ++ quoted))
         | Raise e => Raise e
         end)
  /\ String.length (replace_spaces t) = String.length t
  /\ (forall i, String.get i (replace_spaces t) <> Some " "%char)
  /\ (forall i c, String.get i t = Some c -> c <> " "%char ->
                  String.get i (replace_spaces t) = Some c)
  /\ (forall i, String.get i t = Some " "%char ->
                String.get i (replace_spaces t) = Some "_"%char)
  /\ (forall title, (forall s, title <> PStr s) ->
                    get_wikipedia_url L V1 http title = ([], Raise AttributeError)).
Proof.
  split; [cbn [get_wikipedia_url]; msimpl; destruct (quote L (replace_spaces t)); reflexivity |].
  split; [| split; [| split; [| split]]].
  - induction t as [| c rest IH]; [reflexivity |]. cbn. rewrite IH. reflexivity.
  - intro i. rewrite replace_spaces_get. destruct (String.get i t) as [c |]; [| discriminate].
    destruct (Ascii.eqb c " "%char) eqn:Hc; [discriminate |].
    intro H. injection H as ->. discriminate Hc.
  - intros i c Hget Hc. rewrite replace_spaces_get, Hget.
    apply Ascii.eqb_neq in Hc. rewrite Hc. reflexivity.
  - intros i Hget. rewrite replace_spaces_get, Hget. reflexivity.
  - intros title Hnot. destruct title; try reflexivity. destruct (Hnot s eq_refl).
Qed.

End ClientsMore.

(** ** Further properties of the controller *)

Section ControllerMore.

Variable L : libs.
Variable W : world.
Variable cfg : config.

Lemma falsy_len (x : pyval) (m : Z) : truthy x = false -> py_len x = Ok m -> m = 0%Z.
Proof.
  intros Hx Hm. pose proof (py_len_truthy x m Hm) as H. rewrite Hx in H.
  apply Z.leb_gt in H.
  destruct x; try discriminate; injection Hm as <-; lia.
Qed.

(** How a pass that returns ends: it stops with at least [min_results] hits
    retained and the radius untouched, or it widens the radius and what it
    retains is still short of [min_results]. *)
Lemma decide_cases (v : variant) (s : state) (wiki : pyval) (s' : state) (b : bool) :
  snd (decide cfg v s wiki) = Ok (s', b) ->
  (current_radius s' = current_radius s
   /\ exists m, py_len (wiki_results s') = Ok m /\ (min_results cfg <= m)%Z)
  \/ (b = false
      /\ current_radius s' = (current_radius s + radius_increment cfg)%Z
      /\ ((0 < min_results cfg)%Z ->
          (forall m0, py_len (wiki_results s) = Ok m0 -> (m0 < min_results cfg)%Z) ->
          forall m, py_len (wiki_results s') = Ok m -> (m < min_results cfg)%Z)).
Proof.
  destruct (decide cfg v s wiki) as [t r] eqn:E. cbn [snd]. intros ->.
  revert E. unfold decide. destruct v.
  - destruct (truthy wiki) eqn:Hwiki; msimpl.
    + destruct (py_len wiki) as [n |] eqn:Hn; [| discriminate]. msimpl.
      destruct (min_results cfg <=? n)%Z eqn:Hmin; intro H; inversion H; subst; clear H.
      * left. split; [reflexivity |]. exists n. split; [exact Hn |].
        apply Z.leb_le. exact Hmin.
      * right. split; [reflexivity | split; [reflexivity |]].
        intros _ _ m Hm. cbn in Hm. rewrite Hn in Hm. injection Hm as <-.
        apply Z.leb_gt. exact Hmin.
    + intro H. inversion H; subst; clear H.
      right. split; [reflexivity | split; [reflexivity |]].
      intros Hpos _ m Hm. cbn in Hm. rewrite (falsy_len wiki m Hwiki Hm). exact Hpos.
  - destruct (geosearch_hits wiki) as [th [[hits |] | e]]; rewrite bind_pair;
      cbn [fst snd]; msimpl; [| | discriminate].
    + destruct (py_len hits) as [n |] eqn:Hn; [| discriminate]. msimpl.
      destruct (min_results cfg <=? n)%Z eqn:Hmin; msimpl;
        intro H; inversion H; subst; clear H.
      * left. split; [reflexivity |]. exists n. split; [exact Hn |].
        apply Z.leb_le. exact Hmin.
      * right. split; [reflexivity | split; [reflexivity |]].
        intros _ _ m Hm. cbn in Hm. rewrite Hn in Hm. injection Hm as <-.
        apply Z.leb_gt. exact Hmin.
    + intro H. inversion H; subst; clear H.
      right. split; [reflexivity | split; [reflexivity |]].
      intros _ Hold m Hm. apply Hold. exact Hm.
Qed.

Lemma loop_body_cases (v : variant) (k : nat) (s s' : state) (b : bool) :
  snd (loop_cond cfg s) = Ok true ->
  snd (loop_body L W cfg v k s) = Ok (s', b) ->
  (current_radius s' = current_radius s
   /\ exists m, py_len (wiki_results s') = Ok m /\ (min_results cfg <= m)%Z)
  \/ (b = false
      /\ current_radius s' = (current_radius s + radius_increment cfg)%Z
      /\ forall m, py_len (wiki_results s') = Ok m -> (m < min_results cfg)%Z).
Proof.
  intros Hcond. destruct (loop_cond_true cfg s Hcond) as (_ & n & Hn & Hlo & Hhi).
  rewrite loop_body_value.
  destruct (snd (geosearch_call L W cfg v k s)) as [wiki | e]; [| discriminate].
  destruct (if truthy (osm_admin_data s) then Ok (osm_admin_data s)
            else snd (admin_call W cfg k)) as [admin | e]; [| discriminate].
  destruct (snd (features_call L W cfg k s)) as [f | e]; [| discriminate].
  destruct (snd (merge_features (osm_features_data s) f)) as [fs | e]; [| discriminate].
  intro H. apply decide_cases in H. cbn [current_radius wiki_results] in H.
  destruct H as [Hstop | (Hb & Hr & Hshort)]; [left; exact Hstop |].
  right. split; [exact Hb | split; [exact Hr |]].
  apply Hshort; [lia |]. intros m0 Hm0. rewrite Hn in Hm0. injection Hm0 as <-. exact Hhi.
Qed.

Lemma controller_loop_passes (v : variant) :
  forall (fuel k : nat) (s s' : state) (n : nat),
    snd (controller_loop L W cfg v fuel k s) = Ok (Some (s', n)) -> (k <= n)%nat.
Proof.
  induction fuel as [| fuel IH]; intros k s s' n Hrun; [discriminate Hrun |].
  rewrite controller_loop_unfold in Hrun.
  destruct (snd (loop_cond cfg s)) as [[|] | e]; cbn [snd] in Hrun; try discriminate.
  - destruct (snd (loop_body L W cfg v k s)) as [[s1 [|]] | e]; cbn [snd] in Hrun;
      try discriminate.
    + injection Hrun as _ <-. lia.
    + apply IH in Hrun. lia.
  - injection Hrun as _ <-. lia.
Qed.

Lemma loop_exit_from (v : variant) :
  forall (fuel k : nat) (s s' : state) (n : nat),
    snd (controller_loop L W cfg v fuel k s) = Ok (Some (s', n)) ->
    current_radius s = (initial_radius cfg + Z.of_nat k * radius_increment cfg)%Z ->
    (n = k /\ s' = s)
    \/ ((k < n)%nat
        /\ current_radius s'
           = (initial_radius cfg + (Z.of_nat n - 1) * radius_increment cfg)%Z
        /\ (current_radius s' <= max_radius cfg)%Z
        /\ exists m, py_len (wiki_results s') = Ok m /\ (min_results cfg <= m)%Z)
    \/ ((k < n)%nat
        /\ current_radius s'
           = (initial_radius cfg + Z.of_nat n * radius_increment cfg)%Z
        /\ (max_radius cfg < current_radius s')%Z
        /\ (current_radius s' - radius_increment cfg <= max_radius cfg)%Z).
Proof.
  induction fuel as [| fuel IH]; intros k s s' n Hrun Hradius; [discriminate Hrun |].
  rewrite controller_loop_unfold in Hrun.
  destruct (snd (loop_cond cfg s)) as [[|] | e] eqn:Hcond; cbn [snd] in Hrun;
    try discriminate.
  2:{ injection Hrun as <- <-. left. auto. }
  destruct (loop_cond_true cfg s Hcond) as (Hle & _).
  destruct (snd (loop_body L W cfg v k s)) as [[s1 b] | e] eqn:Hbody;
    cbn [snd] in Hrun; [| discriminate].
  destruct (loop_body_cases v k s s1 b Hcond Hbody)
    as [(Hsame & m & Hm & Hmin) | (Hb & Hwider & Hshort)].
  - (* enough hits: the loop ends with this pass *)
    assert (Hend : s' = s1 /\ n = S k).
    { destruct b; cbn [snd] in Hrun; [injection Hrun as <- <-; auto |].
      destruct fuel as [| fuel]; [discriminate Hrun |].
      rewrite controller_loop_unfold, (loop_cond_enough cfg s1 m Hm Hmin) in Hrun.
      injection Hrun as <- <-. auto. }
    destruct Hend as (-> & ->). right. left.
    split; [lia |]. rewrite Hsame, Hradius.
    split; [rewrite Nat2Z.inj_succ; ring |].
    split; [rewrite <- Hradius; exact Hle |]. exists m. auto.
  - subst b. cbn [snd] in Hrun.
    assert (Hradius1 : current_radius s1
                       = (initial_radius cfg + Z.of_nat (S k) * radius_increment cfg)%Z).
    { rewrite Hwider, Hradius, Nat2Z.inj_succ. ring. }
    destruct (IH (S k) s1 s' n Hrun Hradius1)
      as [(-> & ->) | [(Hk & Hr & Hmax & Hm) | (Hk & Hr & Hmax & Hprev)]].
    + (* the next test fails at once: the radius has passed the maximum *)
      right. right. split; [lia |]. split; [exact Hradius1 |].
      destruct fuel as [| fuel]; [discriminate Hrun |].
      rewrite controller_loop_unfold in Hrun. unfold loop_cond in Hrun.
      destruct (current_radius s1 <=? max_radius cfg)%Z eqn:Hin.
      * exfalso. revert Hrun. msimpl.
        destruct (py_len (wiki_results s1)) as [m |] eqn:Hm; [| discriminate].
        msimpl. cbn [ret snd]. specialize (Hshort m eq_refl).
        apply Z.ltb_lt in Hshort. rewrite Hshort.
        destruct (snd (loop_body L W cfg v (S k) s1)) as [[s2 [|]] | e];
          cbn [snd]; intro H; try discriminate.
        -- injection H as _ H. lia.
        -- apply controller_loop_passes in H. lia.
      * apply Z.leb_gt in Hin. split; [exact Hin |]. rewrite Hwider. lia.
    + right. left. repeat split; try assumption; lia.
    + right. right. repeat split; try assumption; lia.
Qed.

(** X1.  The three ways the loop can end.  Either no pass was made (the
    initial radius is past the maximum, or [min_results] is not positive);
    or the last of [n] passes retained at least [min_results] hits and the
    radius is the one that pass used, [initial_radius + (n - 1) * increment];
    or the radii are exhausted: every pass widened the radius, which is now
    [initial_radius + n * increment], past the maximum for the first time, so
    that with a positive increment [n] is exactly
    [(max_radius - initial_radius) / increment + 1]. *)
Theorem loop_exit_cases (v : variant) (fuel : nat) (s' : state) (n : nat) :
  snd (controller_loop L W cfg v fuel O (initial_state cfg)) = Ok (Some (s', n)) ->
  (n = O /\ s' = initial_state cfg
   /\ ((max_radius cfg < initial_radius cfg)%Z \/ (min_results cfg <= 0)%Z))
  \/ ((1 <= n)%nat
      /\ current_radius s'
         = (initial_radius cfg + (Z.of_nat n - 1) * radius_increment cfg)%Z
      /\ (current_radius s' <= max_radius cfg)%Z
      /\ exists m, py_len (wiki_results s') = Ok m /\ (min_results cfg <= m)%Z)
  \/ ((1 <= n)%nat
      /\ current_radius s' = (initial_radius cfg + Z.of_nat n * radius_increment cfg)%Z
      /\ (max_radius cfg < current_radius s')%Z
      /\ ((0 < radius_increment cfg)%Z ->
          Z.of_nat n
          = ((max_radius cfg - initial_radius cfg) / radius_increment cfg + 1)%Z)).
Proof.
  intro Hrun.
  destruct (loop_exit_from v fuel O (initial_state cfg) s' n Hrun)
    as [(-> & ->) | [(Hk & Hr & Hmax & Hm) | (Hk & Hr & Hmax & Hprev)]].
  - cbn [initial_state current_radius]. lia.
  - left. split; [reflexivity | split; [reflexivity |]].
    destruct fuel as [| fuel]; [discriminate Hrun |].
    rewrite controller_loop_unfold in Hrun.
    destruct (snd (loop_cond cfg (initial_state cfg))) as [[|] | e] eqn:Hcond;
      cbn [snd] in Hrun; try discriminate.
    + exfalso.
      destruct (snd (loop_body L W cfg v O (initial_state cfg))) as [[s1 [|]] | e];
        cbn [snd] in Hrun; try discriminate.
      apply controller_loop_passes in Hrun. lia.
    + unfold loop_cond in Hcond. cbn [initial_state current_radius wiki_results] in Hcond.
      destruct (initial_radius cfg <=? max_radius cfg)%Z eqn:Hin.
      * right. revert Hcond. msimpl. cbn. intro H. injection H as H.
        apply Z.ltb_ge in H. exact H.
      * left. apply Z.leb_gt in Hin. exact Hin.
  - right. left. split; [lia | split; [exact Hr | split; [exact Hmax | exact Hm]]].
  - right. right. split; [lia | split; [exact Hr | split; [exact Hmax |]]].
    intro Hinc.
    assert (Hq : (Z.of_nat n - 1
                  = (max_radius cfg - initial_radius cfg) / radius_increment cfg)%Z).
    { apply Z.div_unique with
        (r := (max_radius cfg - initial_radius cfg
               - radius_increment cfg * (Z.of_nat n - 1))%Z); [left; lia | ring]. }
    lia.
Qed.

(** X2.  A pass in which the geosearch request fails, or returns an empty
    list of hits, widens the radius; [V1] then holds the empty list, while
    [V3] still holds whatever an earlier pass retained. *)
Theorem pass_without_hits (v : variant) (k : nat) (s s' : state) (b : bool) (wiki : pyval) :
  snd (geosearch_call L W cfg v k s) = Ok wiki ->
  status_code (geosearch_reply W k) <> 200%Z \/ returned_results v wiki = Some [] ->
  snd (loop_body L W cfg v k s) = Ok (s', b) ->
  b = false
  /\ current_radius s' = (current_radius s + radius_increment cfg)%Z
  /\ wiki_results s' = match v with V1 => PList [] | V3 => wiki_results s end.
Proof.
  intros Hwiki Hnone. rewrite loop_body_value, Hwiki.
  assert (Hshape : match v with
                   | V1 => wiki = PList []
                   | V3 => geosearch_hits wiki = ([], Ok None)
                   end).
  { destruct Hnone as [Hfail | Hempty].
    - apply Z.eqb_neq in Hfail. revert Hwiki.
      unfold geosearch_call, get_wikipedia_geosearch. rewrite Hfail.
      destruct v; cbn; intro H; injection H as <-; reflexivity.
    - destruct v; cbn [returned_results] in Hempty.
      + destruct wiki; try discriminate. injection Hempty as ->. reflexivity.
      + unfold geosearch_hits.
        destruct wiki as [| | | | | | kv]; try discriminate.
        rewrite getitem_dict in Hempty |- *.
        destruct (lookup "query" kv) as [q |] eqn:Hq; [| discriminate].
        assert (Hkv : truthy (PDict kv) = true)
          by (destruct kv; [discriminate | reflexivity]).
        rewrite Hkv. msimpl. cbn [py_in]. rewrite Hq. msimpl.
        cbn [rbind] in Hempty |- *.
        destruct (py_getitem q "geosearch") as [[| | | | | [| h hits] |] | e];
          try discriminate.
        reflexivity. }
  destruct (if truthy (osm_admin_data s) then Ok (osm_admin_data s)
            else snd (admin_call W cfg k)) as [admin | e]; [| discriminate].
  destruct (snd (features_call L W cfg k s)) as [f | e]; [| discriminate].
  destruct (snd (merge_features (osm_features_data s) f)) as [fs | e]; [| discriminate].
  unfold decide. destruct v.
  - subst wiki. cbn. intro H. injection H as <- <-. auto.
  - rewrite Hshape. cbn. intro H. injection H as <- <-. auto.
Qed.

Lemma merge_features_grows (data : list pyval) (body : pyval) (merged : list pyval) :
  snd (merge_features data body) = Ok merged -> exists items, merged = data ++ items.
Proof.
  unfold merge_features.
  destruct (truthy body); [| intro H; injection H as <-; exists []; symmetry; apply app_nil_r].
  msimpl. destruct (py_in "elements" body) as [[|] | e]; msimpl; try discriminate.
  - destruct (py_getitem body "elements") as [elements | e]; msimpl; [| discriminate].
    destruct (py_iter elements) as [items | e]; msimpl; [| discriminate].
    cbn. intro H. injection H as <-. exists items. reflexivity.
  - cbn. intro H. injection H as <-. exists []. symmetry. apply app_nil_r.
Qed.

Lemma loop_body_features (v : variant) (k : nat) (s s' : state) (b : bool) :
  snd (loop_body L W cfg v k s) = Ok (s', b) ->
  exists body,
    snd (features_call L W cfg k s) = Ok body
    /\ snd (merge_features (osm_features_data s) body) = Ok (osm_features_data s').
Proof.
  rewrite loop_body_value.
  destruct (snd (geosearch_call L W cfg v k s)) as [wiki | e]; [| discriminate].
  destruct (if truthy (osm_admin_data s) then Ok (osm_admin_data s)
            else snd (admin_call W cfg k)) as [admin | e]; [| discriminate].
  destruct (snd (features_call L W cfg k s)) as [f | e]; [| discriminate].
  destruct (snd (merge_features (osm_features_data s) f)) as [fs | e] eqn:Hm;
    [| discriminate].
  intro H. apply decide_ok in H. destruct H as (_ & Hdata & _).
  cbn [osm_features_data] in Hdata. exists f. rewrite Hm, Hdata. auto.
Qed.

Lemma features_from (v : variant) (elements : list pyval) :
  (forall k, status_code (overpass_reply W k O) = 200%Z
             /\ exists kv, json (overpass_reply W k O) = Ok (PDict kv)
                           /\ lookup "elements" kv = Some (PList elements)) ->
  (1 <= recursion_limit W)%nat ->
  forall (fuel k : nat) (s s' : state) (n : nat),
    snd (controller_loop L W cfg v fuel k s) = Ok (Some (s', n)) ->
    osm_features_data s' = osm_features_data s ++ List.concat (repeat elements (n - k)).
Proof.
  intros Hover Hdepth.
  induction fuel as [| fuel IH]; intros k s s' n Hrun; [discriminate Hrun |].
  pose proof (controller_loop_passes v _ _ _ _ _ Hrun) as Hkn.
  rewrite controller_loop_unfold in Hrun.
  destruct (snd (loop_cond cfg s)) as [[|] | e]; cbn [snd] in Hrun; try discriminate.
  2:{ injection Hrun as <- <-. rewrite Nat.sub_diag. cbn. symmetry. apply app_nil_r. }
  destruct (snd (loop_body L W cfg v k s)) as [[s1 b] | e] eqn:Hbody;
    cbn [snd] in Hrun; [| discriminate].
  destruct (loop_body_features v k s s1 b Hbody) as (body & Hcall & Hmerge).
  assert (Hs1 : osm_features_data s1 = osm_features_data s ++ elements).
  { destruct (Hover k) as (Hstatus & kv & Hjson & Hlookup).
    unfold features_call in Hcall. destruct (recursion_limit W) as [| depth]; [lia |].
    rewrite nearby_features_unfold, Hstatus in Hcall. cbn [Z.eqb Pos.eqb snd] in Hcall.
    rewrite Hjson in Hcall. injection Hcall as <-.
    revert Hmerge. unfold merge_features.
    assert (Hkv : truthy (PDict kv) = true)
      by (destruct kv; [discriminate | reflexivity]).
    rewrite Hkv. msimpl. cbn [py_in]. rewrite Hlookup. msimpl.
    rewrite getitem_dict, Hlookup. msimpl. cbn [py_iter]. msimpl. cbn.
    intro H. injection H as <-. reflexivity. }
  destruct b; cbn [snd] in Hrun.
  - injection Hrun as <- <-. rewrite Hs1.
    replace (S k - k)%nat with 1%nat by lia. cbn. rewrite app_nil_r. reflexivity.
  - pose proof (controller_loop_passes v _ _ _ _ _ Hrun) as Hkn1.
    rewrite (IH _ _ _ _ Hrun), Hs1, <- app_assoc.
    replace (n - k)%nat with (S (n - S k)) by lia. reflexivity.
Qed.

Lemma features_kept (v : variant) :
  forall (fuel k : nat) (s s' : state) (n : nat),
    snd (controller_loop L W cfg v fuel k s) = Ok (Some (s', n)) ->
    exists items, osm_features_data s' = osm_features_data s ++ items.
Proof.
  induction fuel as [| fuel IH]; intros k s s' n Hrun; [discriminate Hrun |].
  rewrite controller_loop_unfold in Hrun.
  destruct (snd (loop_cond cfg s)) as [[|] | e]; cbn [snd] in Hrun; try discriminate.
  2:{ injection Hrun as <- <-. exists []. symmetry. apply app_nil_r. }
  destruct (snd (loop_body L W cfg v k s)) as [[s1 b] | e] eqn:Hbody;
    cbn [snd] in Hrun; [| discriminate].
  destruct (loop_body_features v k s s1 b Hbody) as (body & _ & Hmerge).
  apply merge_features_grows in Hmerge as (items & Hitems).
  destruct b; cbn [snd] in Hrun.
  - injection Hrun as <- <-. exists items. exact Hitems.
  - destruct (IH _ _ _ _ Hrun) as (more & Hmore).
    exists (items ++ more). rewrite Hmore, Hitems, app_assoc. reflexivity.
Qed.

(** X3.  Elements are only ever appended, whatever the servers answer: a
    pass that returns leaves the elements the state held in place and puts
    the new ones after them, and so does the loop from any state, whenever
    it ends.  Nothing is deduplicated: if Overpass answers every pass with
    the same list of elements, the loop ends with that list appended once
    per pass made. *)
Theorem features_accumulate (v : variant) :
  (forall (k : nat) (s1 s2 : state) (b : bool),
      snd (loop_body L W cfg v k s1) = Ok (s2, b) ->
      exists items, osm_features_data s2 = osm_features_data s1 ++ items)
  /\ (forall (fuel k : nat) (s s' : state) (n : nat),
         snd (controller_loop L W cfg v fuel k s) = Ok (Some (s', n)) ->
         exists items, osm_features_data s' = osm_features_data s ++ items)
  /\ (forall elements : list pyval,
         (forall k, status_code (overpass_reply W k O) = 200%Z
                    /\ exists kv, json (overpass_reply W k O) = Ok (PDict kv)
                                  /\ lookup "elements" kv = Some (PList elements)) ->
         (1 <= recursion_limit W)%nat ->
         forall (fuel k : nat) (s s' : state) (n : nat),
           snd (controller_loop L W cfg v fuel k s) = Ok (Some (s', n)) ->
           osm_features_data s'
           = osm_features_data s ++ List.concat (repeat elements (n - k))).
Proof.
  split; [| split].
  - intros k s1 s2 b Hbody.
    destruct (loop_body_features v k s1 s2 b Hbody) as (body & _ & Hmerge).
    apply merge_features_grows in Hmerge. exact Hmerge.
  - apply features_kept.
  - intros elements Hover Hdepth. apply (features_from v elements Hover Hdepth).
Qed.

(** X4.  Once the cache holds administrative info the reverse-geocoder's
    reply no longer matters: the pass has the same outcome in any world
    that differs only in that reply, even one whose body cannot be decoded.
    With an empty cache such a reply aborts the pass when the geosearch call
    returned. *)
Theorem cached_admin_ignores_reply (W' : world) (v : variant) (k : nat) (s : state) :
  geosearch_reply W' k = geosearch_reply W k ->
  overpass_reply W' k = overpass_reply W k ->
  recursion_limit W' = recursion_limit W ->
  (truthy (osm_admin_data s) = true ->
   snd (loop_body L W' cfg v k s) = snd (loop_body L W cfg v k s))
  /\ (truthy (osm_admin_data s) = false ->
      forall (wiki : pyval) (e : exn),
        snd (geosearch_call L W cfg v k s) = Ok wiki ->
        status_code (nominatim_reply W k) = 200%Z ->
        json (nominatim_reply W k) = Raise e ->
        snd (loop_body L W cfg v k s) = Raise e).
Proof.
  intros Hgeo Hover Hdepth. split.
  - intro Hcached. rewrite !loop_body_value, Hcached.
    unfold geosearch_call, features_call. rewrite Hgeo, Hover, Hdepth. reflexivity.
  - intros Hempty wiki e Hwiki Hstatus Hjson.
    rewrite loop_body_value, Hwiki, Hempty.
    unfold admin_call, get_osm_administrative_info. rewrite Hstatus. cbn [Z.eqb Pos.eqb].
    msimpl. rewrite Hjson. reflexivity.
Qed.

End ControllerMore.

(** ** Further properties of distances and centroids *)


Section GeometryMore.

Variable L : libs.


(** X12.  The distance of [V3] does not depend on the direction: from the
    first point to the second it is what it is from the second to the
    first. *)
Theorem haversine_distance_symmetric (lat1 lon1 lat2 lon2 : R) :
  haversine_distance lat1 lon1 lat2 lon2 = haversine_distance lat2 lon2 lat1 lon1.
Proof.
  unfold haversine_distance, haversine_angle, radians. cbv zeta.
  replace ((lat1 - lat2) * (PI / 180) / 2)%R with (- ((lat2 - lat1) * (PI / 180) / 2))%R by lra.
  replace ((lon1 - lon2) * (PI / 180) / 2)%R with (- ((lon2 - lon1) * (PI / 180) / 2))%R by lra.
  rewrite !sin_neg.
  replace ((- sin ((lat2 - lat1) * (PI / 180) / 2)) ^ 2)%R
    with (sin ((lat2 - lat1) * (PI / 180) / 2) ^ 2)%R by ring.
  replace ((- sin ((lon2 - lon1) * (PI / 180) / 2)) ^ 2)%R
    with (sin ((lon2 - lon1) * (PI / 180) / 2) ^ 2)%R by ring.
  rewrite (Rmult_comm (cos (lat2 * (PI / 180))) (cos (lat1 * (PI / 180)))).
  reflexivity.
Qed.

End GeometryMore.

(** ** Further properties of the report builder *)

Section ReportMore.

Variable L : libs.
Variable W : world.
Variable cfg : config.

Lemma wiki_row_fields (v : variant) (i : nat) (place : pyval) (r : row) :
  snd (wiki_row L W cfg v i place) = Ok r ->
  exists title lat lon d url,
    py_getitem place "title" = Ok title
    /\ py_getitem place "lat" = Ok lat
    /\ py_getitem place "lon" = Ok lon
    /\ snd (distance L cfg v lat lon) = Ok d
    /\ snd (get_wikipedia_url L v (wikiurl_reply W i) title) = Ok url
    /\ r = [PStr "Wikipedia"; title; lat; lon; d; url].
Proof.
  unfold wiki_row. intro H.
  minv H as lat Hlat. minv H as lon Hlon. minv H as d Hd.
  minv H as title Htitle. minv H as url Hurl. injection H as <-.
  exists title, lat, lon, d, url. auto 7.
Qed.

Lemma wiki_rows_from_fields (v : variant) (places : list pyval) :
  forall (i : nat) (rows : list row),
    snd (wiki_rows_from L W cfg v i places) = Ok rows ->
    Forall2 (fun place r =>
               exists title lat lon d url,
                 py_getitem place "title" = Ok title
                 /\ py_getitem place "lat" = Ok lat
                 /\ py_getitem place "lon" = Ok lon
                 /\ r = [PStr "Wikipedia"; title; lat; lon; d; url]) places rows.
Proof.
  induction places as [| place rest IH]; intros i rows H.
  - injection H as <-. constructor.
  - cbn [wiki_rows_from] in H. minv H as r Hr. minv H as rs Hrs. injection H as <-.
    constructor; [| apply (IH _ _ Hrs)].
    destruct (wiki_row_fields v i place r Hr)
      as (title & lat & lon & d & url & Ht & Hla & Hlo & _ & _ & ->).
    exists title, lat, lon, d, url. auto.
Qed.

(** X5.  When hits were retained, the Wikipedia group has one row per hit, in
    the order of the hits, for the first [max_results] of them and no more;
    each row carries the title, latitude and longitude of its hit. *)
Theorem wiki_rows_follow_hits (v : variant) (s : state) (hits : list pyval)
  (rows : list row) :
  wiki_results s = PList hits ->
  hits <> [] ->
  (0 <= max_results cfg)%Z ->
  snd (wiki_rows L W cfg v s) = Ok rows ->
  Forall2 (fun place r =>
             exists title lat lon d url,
               py_getitem place "title" = Ok title
               /\ py_getitem place "lat" = Ok lat
               /\ py_getitem place "lon" = Ok lon
               /\ r = [PStr "Wikipedia"; title; lat; lon; d; url])
          (firstn (Z.to_nat (max_results cfg)) hits) rows
  /\ (Z.of_nat (List.length rows) <= max_results cfg)%Z
  /\ (List.length rows <= List.length hits)%nat.
Proof.
  intros Hhits Hne Hmax H. unfold wiki_rows in H. rewrite Hhits in H.
  minv H as nonempty Htest.
  assert (Hnonempty : nonempty = true).
  { destruct v.
    - injection Htest as <-. destruct hits; [congruence | reflexivity].
    - minv Htest as m Hm. injection Htest as <-. cbn in Hm. injection Hm as <-.
      destruct hits; [congruence |]. cbn [List.length]. apply Z.leb_le. lia. }
  subst nonempty. minv H as head Hhead. minv H as places Hplaces.
  cbn in Hhead. injection Hhead as <-. cbn in Hplaces. injection Hplaces as <-.
  unfold slice_to in H.
  replace (0 <=? max_results cfg)%Z with true in H by (symmetry; apply Z.leb_le; lia).
  pose proof (wiki_rows_from_fields v _ _ _ H) as Hrows.
  split; [exact Hrows |].
  apply Forall2_length in Hrows. rewrite length_firstn in Hrows.
  unfold row in *. lia.
Qed.

(** X6.  Every row of the nearby-features group stems from an element whose
    tags carry a truthy name, and shows that name (the "Unnamed" default is
    never reached) together with coordinates that are both truthy; the group
    never has more rows than there are named elements. *)
Theorem feature_rows_are_named (v : variant) (s : state) (filtered : list pyval)
  (rows : list row) :
  snd (mfilter has_name (osm_features_data s)) = Ok filtered ->
  filtered <> [] ->
  snd (feature_rows L cfg v s filtered) = Ok rows ->
  (List.length rows <= List.length filtered)%nat
  /\ (List.length filtered <= List.length (osm_features_data s))%nat
  /\ forall r, In r rows ->
       exists element tags name lat lon d url,
         In element (osm_features_data s)
         /\ py_getitem element "tags" = Ok tags
         /\ py_get tags "name" = Ok name
         /\ truthy name = true
         /\ truthy lat = true /\ truthy lon = true
         /\ r = [PStr "OSM"; name; lat; lon; d; url].
Proof.
  intros Hfiltered Hne Hrows.
  destruct (mfilter_spec has_name _ _ Hfiltered) as (_ & Hnamed & Hlen).
  unfold feature_rows in Hrows. destruct filtered as [| e rest]; [congruence |].
  minv Hrows as emitted Hemitted. revert Hrows. msimpl. cbn [snd]. intro Hrows.
  injection Hrows as <-. apply mmap_spec in Hemitted.
  split; [| split; [exact Hlen |]].
  - apply Forall2_length in Hemitted. rewrite Hemitted.
    clear. induction emitted as [| [r |] rest IH]; cbn [somes List.length]; lia.
  - intros r Hr. apply in_somes in Hr.
    destruct (forall2_in_r _ _ _ _ Hemitted Hr) as (element & Hin & Hrow).
    apply Hnamed in Hin. destruct Hin as (Hdata & Hname).
    destruct (feature_row_spec L cfg v element (Some r) Hrow)
      as (name & lat & lon & Hdefault & _ & Htruthy & d & type & id & _ & _ & _ & ->).
    apply andb_true_iff in Htruthy as (Hlat & Hlon).
    unfold has_name in Hname. minv Hname as present Hpresent.
    destruct present; [| discriminate].
    minv Hname as tagname Htag. injection Hname as Htruthy.
    cbn [lift snd] in Htag.
    destruct (py_getitem element "tags") as [tags | e'] eqn:Htags; [| discriminate].
    cbn [rbind] in Htag, Hdefault.
    assert (name = tagname).
    { destruct tags; try discriminate. cbn in Htag, Hdefault.
      destruct (lookup "name" kv); [congruence |].
      injection Htag as <-. discriminate. }
    subst tagname.
    exists element, tags, name, lat, lon, d.
    eexists. repeat (split; [eassumption || reflexivity |]). reflexivity.
Qed.

End ReportMore.

(** ** The CSV file is created once, at the very end *)

Lemma writes_app (t1 t2 : list event) : writes (t1 ++ t2) = writes t1 ++ writes t2.
Proof. apply filter_app. Qed.

Lemma writes_bind {A B : Type} (m : M A) (k : A -> M B) :
  writes (fst m) = [] ->
  writes (fst (bind m k))
  = match snd m with Ok a => writes (fst (k a)) | Raise _ => [] end.
Proof.
  intro Hm. rewrite bind_trace. destruct (snd m); [| exact Hm].
  rewrite writes_app, Hm. reflexivity.
Qed.

Lemma files_nil_writes (t : list event) : files t = [] -> writes t = [].
Proof.
  induction t as [| e t IH]; [reflexivity |].
  unfold files, writes. cbn [filter]. destruct e; cbn [is_file is_write]; try discriminate;
    exact IH.
Qed.

Lemma files_app (t1 t2 : list event) : files (t1 ++ t2) = files t1 ++ files t2.
Proof. apply filter_app. Qed.

Lemma no_file_bind {A B : Type} (m : M A) (k : A -> M B) :
  files (fst m) = [] -> (forall a, files (fst (k a)) = []) ->
  files (fst (bind m k)) = [].
Proof.
  intros Hm Hk. rewrite bind_trace. destruct (snd m); [| exact Hm].
  rewrite files_app, Hm, Hk. reflexivity.
Qed.

Lemma files_bind {A B : Type} (m : M A) (k : A -> M B) :
  files (fst m) = [] ->
  files (fst (bind m k))
  = match snd m with Ok a => files (fst (k a)) | Raise _ => [] end.
Proof.
  intro Hm. rewrite bind_trace. destruct (snd m); [| exact Hm].
  rewrite files_app, Hm. reflexivity.
Qed.

Ltac quiet :=
  repeat match goal with
         | |- files (fst (bind _ _)) = [] => apply no_file_bind; [| intro]
         | |- files (fst (if ?b then _ else _)) = [] => destruct b
         | |- files (fst (match ?x with _ => _ end)) = [] => destruct x
         | |- _ => reflexivity
         end.

Lemma no_file_mmap {A B : Type} (f : A -> M B) (l : list A) :
  (forall x, files (fst (f x)) = []) -> files (fst (mmap f l)) = [].
Proof.
  intro Hf. induction l as [| x xs IH]; [reflexivity |].
  cbn [mmap]. apply no_file_bind; [apply Hf | intro].
  apply no_file_bind; [exact IH | intro; reflexivity].
Qed.

Lemma no_file_mfilter {A : Type} (f : A -> M bool) (l : list A) :
  (forall x, files (fst (f x)) = []) -> files (fst (mfilter f l)) = [].
Proof.
  intro Hf. induction l as [| x xs IH]; [reflexivity |].
  cbn [mfilter]. apply no_file_bind; [apply Hf | intro].
  apply no_file_bind; [exact IH | intro; reflexivity].
Qed.

Section WrittenOnce.

Variable L : libs.
Variable W : world.
Variable cfg : config.

Lemma no_file_geosearch (v : variant) (http : response) (lat lon : pyval)
  (radius limit : Z) :
  files (fst (get_wikipedia_geosearch L v http lat lon radius limit)) = [].
Proof. unfold get_wikipedia_geosearch. quiet. Qed.

Lemma no_file_admin (http : response) (lat lon : pyval) :
  files (fst (get_osm_administrative_info http lat lon)) = [].
Proof. unfold get_osm_administrative_info. quiet. Qed.

Lemma no_file_features (depth : nat) :
  forall (http : nat -> response) (lat lon : pyval) (radius : Z),
    files (fst (get_osm_nearby_features L depth http lat lon radius)) = [].
Proof.
  induction depth as [| depth IH]; intros http lat lon radius; [reflexivity |].
  rewrite nearby_features_unfold.
  destruct (status_code (http O) =? 200)%Z; [reflexivity |].
  destruct (status_code (http O) =? 429)%Z; [| reflexivity].
  cbn [fst]. apply (IH (shift http)).
Qed.

Lemma no_file_url (v : variant) (http : response) (title : pyval) :
  files (fst (get_wikipedia_url L v http title)) = [].
Proof. unfold get_wikipedia_url. quiet. Qed.

Lemma no_file_decide (v : variant) (s : state) (wiki : pyval) :
  files (fst (decide cfg v s wiki)) = [].
Proof. unfold decide, geosearch_hits. quiet. Qed.

Lemma no_file_loop_body (v : variant) (k : nat) (s : state) :
  files (fst (loop_body L W cfg v k s)) = [].
Proof.
  unfold loop_body. rewrite bind_submit. cbn [fst]. rewrite files_app.
  unfold geosearch_call at 1. rewrite no_file_geosearch. cbn [app].
  rewrite bind_submit. cbn [fst]. rewrite files_app.
  unfold admin_call at 1. rewrite no_file_admin. cbn [app].
  rewrite bind_submit. cbn [fst]. rewrite files_app.
  unfold features_call at 1. rewrite no_file_features. cbn [app].
  unfold future_result, merge_features. quiet. apply no_file_decide.
Qed.

Lemma no_file_loop (v : variant) :
  forall (fuel k : nat) (s : state),
    files (fst (controller_loop L W cfg v fuel k s)) = [].
Proof.
  induction fuel as [| fuel IH]; intros k s; [reflexivity |].
  rewrite controller_loop_unfold.
  destruct (snd (loop_cond cfg s)) as [[|] | e]; try reflexivity.
  destruct (snd (loop_body L W cfg v k s)) as [[s' [|]] | e]; cbn [fst];
    try apply no_file_loop_body.
  rewrite files_app, no_file_loop_body, IH. reflexivity.
Qed.

Lemma no_file_distance (v : variant) (lat lon : pyval) :
  files (fst (distance L cfg v lat lon)) = [].
Proof. unfold distance. quiet. Qed.

Lemma no_file_wiki_rows (v : variant) (s : state) :
  files (fst (wiki_rows L W cfg v s)) = [].
Proof.
  assert (Hfrom : forall places i, files (fst (wiki_rows_from L W cfg v i places)) = []).
  { induction places as [| place rest IH]; intro i; [reflexivity |].
    cbn [wiki_rows_from]. apply no_file_bind; [| intro].
    - unfold wiki_row. quiet; [apply no_file_distance | apply no_file_url].
    - apply no_file_bind; [apply IH | intro; reflexivity]. }
  unfold wiki_rows. apply no_file_bind; [destruct v; quiet | intro nonempty].
  destruct nonempty; [| reflexivity]. quiet. apply Hfrom.
Qed.

Lemma no_file_admin_row (s : state) : files (fst (admin_row L cfg s)) = [].
Proof. unfold admin_row. quiet. Qed.

Lemma no_file_has_name (element : pyval) : files (fst (has_name element)) = [].
Proof. unfold has_name. quiet. Qed.

Lemma no_file_feature_rows (v : variant) (s : state) (filtered : list pyval) :
  files (fst (feature_rows L cfg v s filtered)) = [].
Proof.
  unfold feature_rows. destruct filtered as [| e rest]; [reflexivity |].
  apply no_file_bind; [| intro; reflexivity].
  apply no_file_mmap. intro x. unfold feature_row.
  apply no_file_bind; [reflexivity | intro name].
  apply no_file_bind; [| intro position].
  - unfold coordinate, calculate_centroid. quiet.
  - destruct (truthy (fst position) && truthy (snd position)); [| reflexivity].
    apply no_file_bind; [apply no_file_distance | intro]. quiet.
Qed.

(** The files the report leaves: the one it returns the rows of, or none,
    or the one whose writing stopped at a row that cannot be encoded. *)
Lemma report_files (v : variant) (s : state) :
  (v = V1 -> exists hits, wiki_results s = PList hits) ->
  match snd (report L W cfg v s) with
  | Ok rows => files (fst (report L W cfg v s)) = [WriteCsv (strftime_now W) rows]
  | Raise e =>
      files (fst (report L W cfg v s)) = []
      \/ (e = UnicodeEncodeError
          /\ exists wiki admin filtered features written r rest,
               snd (wiki_rows L W cfg v s) = Ok wiki
               /\ snd (admin_row L cfg s) = Ok admin
               /\ snd (mfilter has_name (osm_features_data s)) = Ok filtered
               /\ snd (feature_rows L cfg v s filtered) = Ok features
               /\ files (fst (report L W cfg v s)) = [WriteFailed (strftime_now W) written]
               /\ header :: wiki ++ [admin] ++ features = written ++ r :: rest
               /\ forallb encodable written = true
               /\ encodable r = false)
  end.
Proof.
  intro Hsized.
  destruct (snd (wiki_rows L W cfg v s)) as [wiki | e] eqn:Hwiki.
  2:{ unfold report. rewrite (files_bind _ _ (no_file_wiki_rows v s)), bind_value, Hwiki.
      left. reflexivity. }
  destruct (snd (admin_row L cfg s)) as [admin | e] eqn:Hadmin.
  2:{ unfold report. rewrite (files_bind _ _ (no_file_wiki_rows v s)), bind_value, Hwiki.
      rewrite (files_bind _ _ (no_file_admin_row s)), bind_value, Hadmin.
      left. reflexivity. }
  destruct (snd (mfilter has_name (osm_features_data s))) as [filtered | e] eqn:Hfiltered.
  2:{ unfold report. rewrite (files_bind _ _ (no_file_wiki_rows v s)), bind_value, Hwiki.
      rewrite (files_bind _ _ (no_file_admin_row s)), bind_value, Hadmin.
      rewrite (files_bind _ _ (no_file_mfilter _ _ no_file_has_name)), bind_value, Hfiltered.
      left. reflexivity. }
  destruct (snd (feature_rows L cfg v s filtered)) as [features | e] eqn:Hfeatures.
  2:{ unfold report. rewrite (files_bind _ _ (no_file_wiki_rows v s)), bind_value, Hwiki.
      rewrite (files_bind _ _ (no_file_admin_row s)), bind_value, Hadmin.
      rewrite (files_bind _ _ (no_file_mfilter _ _ no_file_has_name)), bind_value, Hfiltered.
      rewrite (files_bind _ _ (no_file_feature_rows v s filtered)), bind_value, Hfeatures.
      left. reflexivity. }
  assert (Hlen : exists m, py_len (wiki_results s) = Ok m).
  { destruct v.
    - destruct (Hsized eq_refl) as (hits & ->). eexists. reflexivity.
    - unfold wiki_rows in Hwiki. apply bind_value_ok in Hwiki as (b & Hb & _).
      apply bind_value_ok in Hb as (m & Hm & _). exists m. exact Hm. }
  destruct Hlen as (m & Hm).
  unfold report. rewrite (files_bind _ _ (no_file_wiki_rows v s)), bind_value, Hwiki.
  rewrite (files_bind _ _ (no_file_admin_row s)), bind_value, Hadmin.
  rewrite (files_bind _ _ (no_file_mfilter _ _ no_file_has_name)), bind_value, Hfiltered.
  rewrite (files_bind _ _ (no_file_feature_rows v s filtered)), bind_value, Hfeatures.
  cbv zeta.
  destruct (forallb encodable (header :: wiki ++ [admin] ++ features)) eqn:Henc.
  - rewrite (write_csv_ok _ _ Henc), bind_pair. msimpl. rewrite Hm. msimpl. reflexivity.
  - destruct (write_csv_fails (strftime_now W) _ Henc) as (Hwrite & r & rest & Hsplit & Hbad).
    pose proof (writerows_spec (header :: wiki ++ [admin] ++ features)) as Hspec.
    rewrite Henc in Hspec. destruct Hspec as (_ & _ & _ & _ & _ & Hgood).
    rewrite Hwrite, bind_pair. cbn [fst snd]. right. split; [reflexivity |].
    exists wiki, admin, filtered, features,
      (fst (writerows (header :: wiki ++ [admin] ++ features))), r, rest.
    repeat (split; [reflexivity || assumption |]). exact Hbad.
Qed.

Lemma v1_results_are_a_list :
  forall (fuel k : nat) (s s' : state) (n : nat),
    (exists hits, wiki_results s = PList hits) ->
    snd (controller_loop L W cfg V1 fuel k s) = Ok (Some (s', n)) ->
    exists hits, wiki_results s' = PList hits.
Proof.
  induction fuel as [| fuel IH]; intros k s s' n Hs Hrun; [discriminate Hrun |].
  rewrite controller_loop_unfold in Hrun.
  destruct (snd (loop_cond cfg s)) as [[|] | e]; cbn [snd] in Hrun; try discriminate.
  2:{ injection Hrun as <- <-. exact Hs. }
  destruct (snd (loop_body L W cfg V1 k s)) as [[s1 b] | e] eqn:Hbody;
    cbn [snd] in Hrun; [| discriminate].
  assert (Hs1 : exists hits, wiki_results s1 = PList hits).
  { revert Hbody. rewrite loop_body_value.
    destruct (snd (geosearch_call L W cfg V1 k s)) as [wiki | e] eqn:Hwiki; [| discriminate].
    assert (Hlist : exists hits, wiki = PList hits).
    { revert Hwiki. unfold geosearch_call, get_wikipedia_geosearch. msimpl.
      destruct (status_code (geosearch_reply W k) =? 200)%Z.
      - msimpl. repeat (branch; msimpl); try discriminate.
        cbn. intro H. injection H as <-. eexists. reflexivity.
      - cbn. intro H. injection H as <-. eexists. reflexivity. }
    destruct Hlist as (hits & ->).
    destruct (if truthy (osm_admin_data s) then Ok (osm_admin_data s)
              else snd (admin_call W cfg k)) as [admin | e]; [| discriminate].
    destruct (snd (features_call L W cfg k s)) as [f | e]; [| discriminate].
    destruct (snd (merge_features (osm_features_data s) f)) as [fs | e]; [| discriminate].
    unfold decide. repeat (branch; msimpl); intro H; inversion H; subst;
      exists hits; reflexivity. }
  destruct b; cbn [snd] in Hrun; [injection Hrun as <- <-; exact Hs1 |].
  apply (IH _ _ _ _ Hs1 Hrun).
Qed.

(** X7.  A run creates the CSV file at most once, and only after the loop
    has ended and every row has been built.  A run that completes has written
    one file, holding the rows it returns; a run stopped while the loop was
    still going has created none.  A run that ends in an exception has
    created none either, except when the exception is the
    [UnicodeEncodeError] of a row that cannot be encoded: then the file
    exists and holds the header and the rows before that one. *)
Theorem csv_written_once (v : variant) (fuel : nat) :
  match snd (main L W cfg v fuel) with
  | Ok (Some rows) => files (fst (main L W cfg v fuel)) = [WriteCsv (strftime_now W) rows]
  | Ok None => files (fst (main L W cfg v fuel)) = []
  | Raise e =>
      files (fst (main L W cfg v fuel)) = []
      \/ (e = UnicodeEncodeError
          /\ exists s n wiki admin filtered features written r rest,
               snd (controller_loop L W cfg v fuel O (initial_state cfg)) = Ok (Some (s, n))
               /\ snd (wiki_rows L W cfg v s) = Ok wiki
               /\ snd (admin_row L cfg s) = Ok admin
               /\ snd (mfilter has_name (osm_features_data s)) = Ok filtered
               /\ snd (feature_rows L cfg v s filtered) = Ok features
               /\ files (fst (main L W cfg v fuel))
                  = [WriteFailed (strftime_now W) (header :: written)]
               /\ wiki ++ [admin] ++ features = written ++ r :: rest
               /\ forallb encodable written = true
               /\ encodable r = false)
  end.
Proof.
  unfold main. rewrite (files_bind _ _ (no_file_loop v fuel O _)), bind_value.
  destruct (snd (controller_loop L W cfg v fuel O (initial_state cfg)))
    as [[[s n] |] | e] eqn:Hloop; [| reflexivity | left; reflexivity].
  rewrite bind_trace, bind_value.
  assert (Hsized : v = V1 -> exists hits, wiki_results s = PList hits).
  { intros ->. apply (v1_results_are_a_list fuel O (initial_state cfg) s n); [| exact Hloop].
    exists []. reflexivity. }
  pose proof (report_files v s Hsized) as Hreport.
  destruct (snd (report L W cfg v s)) as [rows | e].
  - cbn [fst ret snd]. rewrite app_nil_r. exact Hreport.
  - destruct Hreport as [Hnone | (-> & wiki & admin & filtered & features & written & r & rest
                                     & Hw & Ha & Hf & Hfs & Hfile & Hsplit & Hgood & Hbad)];
      [left; exact Hnone | right].
    split; [reflexivity |].
    destruct written as [| first written].
    { cbn [app] in Hsplit. injection Hsplit as <- _. discriminate Hbad. }
    cbn [app] in Hsplit. injection Hsplit as <- Hsplit.
    cbn [forallb] in Hgood. apply andb_prop in Hgood as [_ Hgood].
    exists s, n, wiki, admin, filtered, features, written, r, rest.
    repeat (split; [reflexivity || assumption |]). exact Hbad.
Qed.

End WrittenOnce.

(** ** The requests of the report *)

Lemma requests_app (t1 t2 : list event) : requests (t1 ++ t2) = requests t1 ++ requests t2.
Proof. apply filter_app. Qed.

Lemma no_request_bind {A B : Type} (m : M A) (k : A -> M B) :
  requests (fst m) = [] -> (forall a, requests (fst (k a)) = []) ->
  requests (fst (bind m k)) = [].
Proof.
  intros Hm Hk. rewrite bind_trace. destruct (snd m); [| exact Hm].
  rewrite requests_app, Hm, Hk. reflexivity.
Qed.

Lemma requests_bind {A B : Type} (m : M A) (k : A -> M B) :
  requests (fst (bind m k))
  = requests (fst m) ++ match snd m with Ok a => requests (fst (k a)) | Raise _ => [] end.
Proof.
  rewrite bind_trace. destruct (snd m); [apply requests_app | symmetry; apply app_nil_r].
Qed.

Ltac offline :=
  repeat match goal with
         | |- requests (fst (bind _ _)) = [] => apply no_request_bind; [| intro]
         | |- requests (fst (if ?b then _ else _)) = [] => destruct b
         | |- requests (fst (match ?x with _ => _ end)) = [] => destruct x
         | |- _ => reflexivity
         end.

Lemma no_request_mmap {A B : Type} (f : A -> M B) (l : list A) :
  (forall x, requests (fst (f x)) = []) -> requests (fst (mmap f l)) = [].
Proof.
  intro Hf. induction l as [| x xs IH]; [reflexivity |].
  cbn [mmap]. apply no_request_bind; [apply Hf | intro].
  apply no_request_bind; [exact IH | intro; reflexivity].
Qed.

Lemma no_request_mfilter {A : Type} (f : A -> M bool) (l : list A) :
  (forall x, requests (fst (f x)) = []) -> requests (fst (mfilter f l)) = [].
Proof.
  intro Hf. induction l as [| x xs IH]; [reflexivity |].
  cbn [mfilter]. apply no_request_bind; [apply Hf | intro].
  apply no_request_bind; [exact IH | intro; reflexivity].
Qed.

Section ReportRequests.

Variable L : libs.
Variable W : world.
Variable cfg : config.

Lemma no_request_distance (v : variant) (lat lon : pyval) :
  requests (fst (distance L cfg v lat lon)) = [].
Proof. unfold distance. offline. Qed.

Lemma no_request_admin_row (s : state) : requests (fst (admin_row L cfg s)) = [].
Proof. unfold admin_row. offline. Qed.

Lemma no_request_has_name (element : pyval) : requests (fst (has_name element)) = [].
Proof. unfold has_name. offline. Qed.

Lemma no_request_feature_rows (v : variant) (s : state) (filtered : list pyval) :
  requests (fst (feature_rows L cfg v s filtered)) = [].
Proof.
  unfold feature_rows. destruct filtered as [| e rest]; [reflexivity |].
  apply no_request_bind; [| intro; reflexivity].
  apply no_request_mmap. intro x. unfold feature_row.
  apply no_request_bind; [reflexivity | intro name].
  apply no_request_bind; [| intro position].
  - unfold coordinate, calculate_centroid. offline.
  - destruct (truthy (fst position) && truthy (snd position)); [| reflexivity].
    apply no_request_bind; [apply no_request_distance | intro]. offline.
Qed.

Lemma no_request_write_csv (filename : string) (rows : list row) :
  requests (fst (write_csv filename rows)) = [].
Proof. unfold write_csv. destruct (snd (writerows rows)); reflexivity. Qed.

(** What follows the Wikipedia group sends nothing. *)
Lemma report_requests_are_wiki_requests (v : variant) (s : state) :
  requests (fst (report L W cfg v s)) = requests (fst (wiki_rows L W cfg v s)).
Proof.
  unfold report. rewrite requests_bind.
  destruct (snd (wiki_rows L W cfg v s)) as [wiki | e]; [| apply app_nil_r].
  replace (requests (fst (bind (admin_row L cfg s) _))) with (@nil event);
    [apply app_nil_r |].
  symmetry. apply no_request_bind; [apply no_request_admin_row | intro admin].
  apply no_request_bind; [apply no_request_mfilter, no_request_has_name | intro filtered].
  apply no_request_bind; [apply no_request_feature_rows | intro features].
  cbv zeta. apply no_request_bind; [apply no_request_write_csv | intro].
  offline.
Qed.

Lemma v1_wiki_rows_offline (s : state) : requests (fst (wiki_rows L W cfg V1 s)) = [].
Proof.
  assert (Hfrom : forall places i, requests (fst (wiki_rows_from L W cfg V1 i places)) = []).
  { induction places as [| place rest IH]; intro i; [reflexivity |].
    cbn [wiki_rows_from]. apply no_request_bind; [| intro].
    - unfold wiki_row. offline; [apply no_request_distance |].
      unfold get_wikipedia_url. offline.
    - apply no_request_bind; [apply IH | intro; reflexivity]. }
  unfold wiki_rows. apply no_request_bind; [reflexivity | intro nonempty].
  destruct nonempty; [| reflexivity]. offline. apply Hfrom.
Qed.

(** A Wikipedia row of [V3] that is built has cost one request, the lookup
    of the address of its article. *)
Lemma v3_wiki_row_request (i : nat) (place : pyval) (r : row) :
  snd (wiki_row L W cfg V3 i place) = Ok r ->
  exists title,
    py_getitem place "title" = Ok title
    /\ requests (fst (wiki_row L W cfg V3 i place))
       = [HttpGet (wikipedia_endpoint)
            (PDict [("action", PStr "query"); ("titles", title);
                    ("prop", PStr "info"); ("inprop", PStr "url");
                    ("format", PStr "json")]) PNone].
Proof.
  unfold wiki_row. msimpl.
  destruct (py_getitem place "lat") as [lat | e]; [| discriminate]. msimpl.
  destruct (py_getitem place "lon") as [lon | e]; [| discriminate]. msimpl.
  unfold distance. msimpl.
  destruct (rbind (haversine_distance_float (fp L) _ _ lat lon) _) as [d | e];
    [| discriminate]. msimpl.
  destruct (py_getitem place "title") as [title | e]; [| discriminate]. msimpl.
  intros _. exists title. split; [reflexivity |].
  rewrite requests_bind.
  assert (Hurl : requests (fst (get_wikipedia_url L V3 (wikiurl_reply W i) title))
                 = [HttpGet (wikipedia_endpoint)
                      (PDict [("action", PStr "query"); ("titles", title);
                              ("prop", PStr "info"); ("inprop", PStr "url");
                              ("format", PStr "json")]) PNone]).
  { unfold get_wikipedia_url.
    destruct (status_code (wikiurl_reply W i) =? 200)%Z; msimpl;
      repeat (branch; msimpl); reflexivity. }
  rewrite Hurl.
  destruct (snd (get_wikipedia_url L V3 (wikiurl_reply W i) title)); reflexivity.
Qed.

Lemma v3_wiki_rows_from_requests (places : list pyval) :
  forall (i : nat) (rows : list row),
    snd (wiki_rows_from L W cfg V3 i places) = Ok rows ->
    List.length (requests (fst (wiki_rows_from L W cfg V3 i places))) = List.length rows.
Proof.
  induction places as [| place rest IH]; intros i rows H.
  - injection H as <-. reflexivity.
  - cbn [wiki_rows_from] in H |- *. rewrite requests_bind, length_app.
    apply bind_value_ok in H as (r & Hr & H). rewrite Hr.
    destruct (v3_wiki_row_request i place r Hr) as (title & _ & ->).
    rewrite requests_bind.
    apply bind_value_ok in H as (rs & Hrs & H). rewrite Hrs.
    injection H as <-. rewrite length_app, (IH _ _ Hrs). cbn. lia.
Qed.

(** X15.  After the loop [V1] sends no request at all.  [V3] sends exactly
    one request per Wikipedia row it builds, the lookup of the article's
    address, and none when the group is the placeholder; the other groups
    never cost a request. *)
Theorem report_requests (v : variant) (s : state) (rows : list row) :
  snd (report L W cfg v s) = Ok rows ->
  match v with
  | V1 => requests (fst (report L W cfg V1 s)) = []
  | V3 =>
      exists (wiki : list row) (n : Z),
        snd (wiki_rows L W cfg V3 s) = Ok wiki
        /\ py_len (wiki_results s) = Ok n
        /\ List.length (requests (fst (report L W cfg V3 s)))
           = (if (1 <=? n)%Z then List.length wiki else O)
  end.
Proof.
  intro Hreport. destruct v.
  - rewrite report_requests_are_wiki_requests. apply v1_wiki_rows_offline.
  - rewrite report_requests_are_wiki_requests.
    unfold report in Hreport. apply bind_value_ok in Hreport as (wiki & Hwiki & _).
    exists wiki. revert Hwiki. unfold wiki_rows. msimpl.
    destruct (py_len (wiki_results s)) as [n |]; [| discriminate]. msimpl.
    intro Hwiki. exists n. split; [exact Hwiki | split; [reflexivity |]].
    destruct (1 <=? n)%Z; [| reflexivity].
    revert Hwiki. msimpl.
    destruct (py_slice_to (wiki_results s) (max_results cfg)) as [head |]; [| discriminate].
    msimpl. destruct (py_iter head) as [places |]; [| discriminate]. msimpl.
    apply v3_wiki_rows_from_requests.
Qed.

End ReportRequests.

(** ** A run in which every request fails *)

Section Outage.

Variable L : libs.
Variable W : world.
Variable cfg : config.

(** No server answers 200, and Overpass does not answer 429 either. *)
Hypothesis geosearch_down : forall k, status_code (geosearch_reply W k) <> 200%Z.
Hypothesis nominatim_down : forall k, status_code (nominatim_reply W k) <> 200%Z.
Hypothesis overpass_down :
  forall k, status_code (overpass_reply W k O) <> 200%Z
            /\ status_code (overpass_reply W k O) <> 429%Z.
Hypothesis one_frame : (1 <= recursion_limit W)%nat.

(** The state that holds nothing, at radius [r]. *)
Local Abbreviation idle r :=
  {| current_radius := r; wiki_results := PList [];
     osm_admin_data := PNone; osm_features_data := [] |}.

(** A pass from a state that holds nothing returns, holds nothing still and
    has widened the radius. *)
Lemma outage_pass (v : variant) (k : nat) (r : Z) :
  snd (loop_body L W cfg v k (idle r)) = Ok (idle (r + radius_increment cfg), false).
Proof.
  rewrite loop_body_value. cbn [osm_admin_data truthy osm_features_data wiki_results
                                 current_radius].
  pose proof (geosearch_down k) as Hgeo. apply Z.eqb_neq in Hgeo.
  pose proof (nominatim_down k) as Hnom. apply Z.eqb_neq in Hnom.
  destruct (overpass_down k) as [Hover Hbusy].
  apply Z.eqb_neq in Hover. apply Z.eqb_neq in Hbusy.
  unfold geosearch_call, get_wikipedia_geosearch. rewrite Hgeo.
  unfold admin_call, get_osm_administrative_info. rewrite Hnom.
  unfold features_call. destruct (recursion_limit W) as [| depth]; [lia |].
  rewrite nearby_features_unfold, Hover, Hbusy.
  destruct v; reflexivity.
Qed.

Lemma outage_loop (v : variant) :
  (0 < radius_increment cfg)%Z ->
  forall (fuel k : nat) (r : Z),
    (remaining cfg (idle r) < Z.of_nat fuel)%Z ->
    exists (r' : Z) (n : nat),
      snd (controller_loop L W cfg v fuel k (idle r)) = Ok (Some (idle r', n)).
Proof.
  intro Hinc. induction fuel as [| fuel IH]; intros k r Hfuel.
  - pose proof (remaining_nonneg cfg (idle r) Hinc) as H0. lia.
  - rewrite controller_loop_unfold.
    destruct (snd (loop_cond cfg (idle r))) as [[|] | e] eqn:Hcond.
    + rewrite outage_pass. cbn [snd].
      destruct (loop_cond_true cfg _ Hcond) as (Hle & _). cbn [current_radius] in Hle.
      apply IH.
      pose proof (remaining_step cfg (idle r) (idle (r + radius_increment cfg))
                    Hinc Hle eq_refl) as Hstep.
      lia.
    + exists r, k. reflexivity.
    + exfalso. revert Hcond. unfold loop_cond. cbn [current_radius wiki_results].
      destruct (r <=? max_radius cfg)%Z; discriminate.
Qed.

Lemma outage_report (v : variant) (r : Z) :
  report L W cfg v (idle r)
  = ([Print ("No OSM features found with radius: " ++ string_of_Z r ++ " meters");
      WriteCsv (strftime_now W)
        [header; wiki_placeholder; admin_placeholder; features_placeholder];
      Print ("Results saved to " ++ strftime_now W);
      Print ("Final radius used: " ++ string_of_Z r ++ " meters");
      Print "Total Wikipedia results found: 0";
      Print "Total OSM features found: 0"],
     Ok [header; wiki_placeholder; admin_placeholder; features_placeholder]).
Proof. destruct v; reflexivity. Qed.

(** X14.  When every request fails (no reply has status 200, and Overpass
    does not rate limit), a run with a positive increment still completes:
    the rows it returns, and the one file it writes, hold the header followed
    by the three placeholder rows and nothing else. *)
Theorem total_outage_gives_placeholders (v : variant) (fuel : nat) :
  (0 < radius_increment cfg)%Z ->
  (Z.max 0 (iteration_bound cfg) < Z.of_nat fuel)%Z ->
  snd (main L W cfg v fuel)
  = Ok (Some [header; wiki_placeholder; admin_placeholder; features_placeholder])
  /\ writes (fst (main L W cfg v fuel))
     = [WriteCsv (strftime_now W)
          [header; wiki_placeholder; admin_placeholder; features_placeholder]].
Proof.
  intros Hinc Hfuel.
  pose proof (remaining_initial cfg Hinc) as Hrem.
  destruct (outage_loop v Hinc fuel O (initial_radius cfg)) as (r' & n & Hloop).
  { change (idle (initial_radius cfg)) with (initial_state cfg). lia. }
  change (idle (initial_radius cfg)) with (initial_state cfg) in Hloop.
  unfold main. split.
  - rewrite bind_value, Hloop, bind_value, outage_report. reflexivity.
  - rewrite (writes_bind _ _ (files_nil_writes _ (no_file_loop L W cfg v fuel O _))), Hloop.
    rewrite bind_trace, outage_report. reflexivity.
Qed.

End Outage.

(** ** The theorems at work on the sample worlds *)

Lemma loop_stops_when_enough_results_witness :
  controller_loop sample_libs sample_world (default_config V3) V3 2 1
    (initial_state (default_config V3))
  = (r <- loop_body sample_libs sample_world (default_config V3) V3 1
            (initial_state (default_config V3)) ;;
     ret (Some (fst r, 2%nat)))
  /\ (forall (s' : state) (b : bool),
        snd (loop_body sample_libs sample_world (default_config V3) V3 1
               (initial_state (default_config V3))) = Ok (s', b) ->
        current_radius s' = current_radius (initial_state (default_config V3))
        /\ wiki_results s' = PList five_places).
Proof.
  apply (loop_stops_when_enough_results sample_libs sample_world (default_config V3)
           V3 0 1 (initial_state (default_config V3)) (geosearch_body five_places) five_places).
  - reflexivity.
  - reflexivity.
  - reflexivity.
  - vm_compute. discriminate.
Defined.

Lemma loop_terminates_within_bound_witness :
  (Z.of_nat (iterations_started
               (fst (controller_loop sample_libs sample_world (default_config V3) V3 25 O
                       (initial_state (default_config V3)))))
   <= 20)%Z.
Proof.
  exact (proj1 (loop_terminates_within_bound sample_libs sample_world (default_config V3) V3
                  eq_refl) 25%nat).
Defined.

Lemma rate_limit_pause_and_retry_witness :
  requests (fst (get_osm_nearby_features sample_libs 2 busy_once (PFloat 0) (PFloat 0) 500))
  = [overpass_request sample_libs (PFloat 0) (PFloat 0) 500;
     overpass_request sample_libs (PFloat 0) (PFloat 0) 500]
  /\ sleeps (fst (get_osm_nearby_features sample_libs 2 busy_once (PFloat 0) (PFloat 0) 500))
     = [Sleep 60].
Proof.
  pose proof (rate_limit_pause_and_retry sample_libs 0 busy_once (PFloat 0) (PFloat 0) 500
                eq_refl) as H.
  cbv zeta in H. destruct H as (_ & H & _). apply H. vm_compute. discriminate.
Defined.

Lemma admin_info_first_nonempty_wins_witness : osm_admin_data sample_exit = washington.
Proof.
  apply (proj2 (admin_info_first_nonempty_wins sample_libs sample_world (default_config V3) V3)
           25%nat sample_exit 2%nat 1%nat washington).
  - vm_compute. reflexivity.
  - lia.
  - reflexivity.
  - reflexivity.
  - intros [| i] b Hi H; [| lia]. vm_compute in H. injection H as <-. reflexivity.
Defined.

Lemma failed_request_is_logged_and_absent_witness :
  get_osm_nearby_features sample_libs 1 (fun _ => server_error) (PFloat 0) (PFloat 0) 500
  = ([overpass_request sample_libs (PFloat 0) (PFloat 0) 500;
      Print "Error fetching OSM features: 500"], Ok PNone).
Proof.
  apply (failed_request_is_logged_and_absent sample_libs V3 (fun _ => server_error) 0
           (PFloat 0) (PFloat 0) PNone 500 20);
    vm_compute; discriminate.
Defined.

Lemma triangle_centroid_agrees_witness :
  calculate_centroid sample_libs V1 triangle = ([], Ok (PFloat (5 # 3), PFloat 2)).
Proof.
  apply (triangle_centroid_agrees sample_libs (default_config V1) V1 (PInt 44)
           (PDict [("name", PStr "Triangle Hall")]) (PStr "Triangle Hall"));
    reflexivity.
Defined.

Lemma sample_distance (cfg : config) (a b : Q) :
  distance sample_libs cfg V3 (PFloat a) (PFloat b)
  = ([], Ok (PInt (haversine_distance (Q2R (center_lat cfg)) (Q2R (center_lon cfg))
                     (Q2R a) (Q2R b)))).
Proof.
  unfold distance. change (fp sample_libs) with exact_floats.
  rewrite (haversine_distance_float_exact _ _ _ _ (Q2R a) (Q2R b)); reflexivity.
Qed.

Lemma white_house_row :
  snd (wiki_row sample_libs sample_world (default_config V3) V3 0 (white_house V3))
  = Ok [PStr "Wikipedia"; PStr "White House";
        PFloat (center_lat (default_config V3)); PFloat (center_lon (default_config V3));
        PInt 0; PStr "https://en.wikipedia.org/wiki/White_House"].
Proof.
  unfold wiki_row, white_house.
  cbn [py_getitem lookup String.eqb Ascii.eqb Bool.eqb]. msimpl.
  rewrite sample_distance, haversine_distance_same. reflexivity.
Qed.

Lemma sample_wiki_row (i : nat) (title : string) (a b : Q) :
  snd (wiki_row sample_libs sample_world (default_config V3) V3 i (place title a b))
  = Ok [PStr "Wikipedia"; PStr title; PFloat a; PFloat b;
        PInt (haversine_distance (Q2R (center_lat (default_config V3)))
                (Q2R (center_lon (default_config V3))) (Q2R a) (Q2R b));
        PStr "https://en.wikipedia.org/wiki/White_House"].
Proof.
  unfold wiki_row, place.
  cbn [py_getitem lookup String.eqb Ascii.eqb Bool.eqb]. msimpl.
  rewrite sample_distance. reflexivity.
Qed.


Lemma sample_wiki_rows :
  exists wiki,
    snd (wiki_rows sample_libs sample_world (default_config V3) V3 sample_exit) = Ok wiki
    /\ forallb encodable wiki = true.
Proof.
  assert (Hpre : wiki_rows sample_libs sample_world (default_config V3) V3 sample_exit
                 = wiki_rows_from sample_libs sample_world (default_config V3) V3 O five_places).
  { unfold wiki_rows. change (wiki_results sample_exit) with (PList five_places).
    cbn [py_len]. msimpl.
    change (1 <=? Z.of_nat (List.length five_places))%Z with true. cbv iota.
    cbn [py_slice_to]. msimpl. cbn [py_iter]. msimpl. 
    reflexivity. }
  rewrite Hpre. unfold five_places, two_places. cbn [app wiki_rows_from].
  repeat (progress (rewrite ?bind_value, ?sample_wiki_row; cbv beta iota)). cbn [ret snd].
  eexists. split; reflexivity.
Qed.

Lemma sample_cafe_row :
  snd (feature_row sample_libs (default_config V3) V3 cafe)
  = Ok (Some [PStr "OSM"; PStr "Corner Cafe";
              PFloat (388981 # 10000); PFloat (- (770370 # 10000));
              PInt (haversine_distance (Q2R (center_lat (default_config V3)))
                      (Q2R (center_lon (default_config V3)))
                      (Q2R (388981 # 10000)) (Q2R (- (770370 # 10000))));
              PStr "https://www.openstreetmap.org/node/42"]).
Proof.
  unfold feature_row.
  replace (coordinate sample_libs V3 cafe)
    with (@ret (pyval * pyval) (PFloat (388981 # 10000), PFloat (- (770370 # 10000))))
    by reflexivity.
  unfold cafe. cbn [py_getitem lookup String.eqb Ascii.eqb Bool.eqb rbind py_get_default].
  msimpl. cbn [truthy]. 
  rewrite sample_distance. reflexivity.
Qed.

Lemma sample_triangle_row :
  snd (feature_row sample_libs (default_config V3) V3
         (triangle_way (PInt 44) (PDict [("name", PStr "Triangle Hall")])))
  = Ok (Some [PStr "OSM"; PStr "Triangle Hall"; PFloat (5 # 3); PFloat 2;
              PInt (haversine_distance (Q2R (center_lat (default_config V3)))
                      (Q2R (center_lon (default_config V3))) (Q2R (5 # 3)) (Q2R 2));
              PStr "https://www.openstreetmap.org/way/44"]).
Proof.
  unfold feature_row.
  replace (coordinate sample_libs V3
             (triangle_way (PInt 44) (PDict [("name", PStr "Triangle Hall")])))
    with (@ret (pyval * pyval) (PFloat (5 # 3), PFloat 2)) by reflexivity.
  unfold triangle_way.
  cbn [py_getitem lookup String.eqb Ascii.eqb Bool.eqb rbind py_get_default].
  msimpl. cbn [truthy].
  rewrite sample_distance. reflexivity.
Qed.

Lemma sample_feature_rows :
  exists filtered features,
    snd (mfilter has_name (osm_features_data sample_exit)) = Ok filtered
    /\ snd (feature_rows sample_libs (default_config V3) V3 sample_exit filtered) = Ok features
    /\ forallb encodable features = true.
Proof.
  exists [cafe; triangle_way (PInt 44) (PDict [("name", PStr "Triangle Hall")]);
          cafe; triangle_way (PInt 44) (PDict [("name", PStr "Triangle Hall")])].
  eexists. split; [reflexivity |].
  unfold feature_rows. cbn [mmap].
  repeat (progress (rewrite ?bind_value, ?sample_cafe_row, ?sample_triangle_row;
                    cbv beta iota)).
  cbn [ret snd print tell somes]. split; reflexivity.
Qed.

Lemma sample_report :
  exists rows,
    snd (report sample_libs sample_world (default_config V3) V3 sample_exit) = Ok rows.
Proof.
  destruct sample_wiki_rows as (wiki & Hwiki & Hwenc).
  destruct sample_feature_rows as (filtered & features & Hfiltered & Hfeatures & Hfenc).
  pose proof (report_outcome sample_libs sample_world (default_config V3) V3 sample_exit
                wiki _ filtered features 5 Hwiki eq_refl Hfiltered Hfeatures eq_refl)
    as Hout.
  cbn [forallb] in Hout. rewrite !forallb_app, Hwenc, Hfenc in Hout.
  change (encodable header) with true in Hout. cbn [forallb andb] in Hout.
  match type of Hout with context [encodable ?r] => change (encodable r) with true in Hout end.
  cbn [andb] in Hout. destruct Hout as (Hvalue & _). eexists. exact Hvalue.
Qed.

Lemma sample_distance_returns (v : variant) (cfg : config) (a b : Q) :
  exists d, snd (distance sample_libs cfg v (PFloat a) (PFloat b)) = Ok d.
Proof.
  destruct v; [eexists; reflexivity | rewrite sample_distance; eexists; reflexivity].
Qed.

Lemma sample_computations (v : variant) :
  computations_return sample_libs sample_world (default_config v) v.
Proof.
  split.
  - intros k body hits hit Hjson Hhits Hin.
    assert (Hfive : In hit five_places).
    { destruct k; cbn in Hjson; injection Hjson as <-; cbn in Hhits;
        injection Hhits as <-; [apply in_or_app; left |]; exact Hin. }
    clear -Hfive. unfold five_places, two_places in Hfive. cbn [app In] in Hfive.
    assert (Hplace : exists title a b, hit = place title a b).
    { repeat (destruct Hfive as [<- | Hfive]; [do 3 eexists; reflexivity |]).
      destruct Hfive. }
    destruct Hplace as (title & a & b & ->). split.
    + intros lat lon Hlat Hlon. injection Hlat as <-. injection Hlon as <-.
      apply sample_distance_returns.
    + intros _ t _. eexists. reflexivity.
  - intros k j body elements e Hjson Helems Hin Hnamed.
    destruct j as [| j]; [discriminate Hjson |].
    cbn in Hjson. injection Hjson as <-. cbn in Helems. injection Helems as <-.
    destruct Hin as [<- | [<- | [<- | []]]].
    + exists (PFloat (388981 # 10000)), (PFloat (- (770370 # 10000))).
      split; [reflexivity | intros _; apply sample_distance_returns].
    + discriminate Hnamed.
    + exists (PFloat (5 # 3)), (PFloat 2).
      split; [destruct v; reflexivity | intros _; apply sample_distance_returns].
Qed.

Lemma wiki_row_distance_witness :
  exists d : Z,
    nth 4 [PStr "Wikipedia"; PStr "White House";
           PFloat (center_lat (default_config V3)); PFloat (center_lon (default_config V3));
           PInt 0; PStr "https://en.wikipedia.org/wiki/White_House"] PNone = PInt d
    /\ haversine_distance_float exact_floats
         (Q2R (center_lat (default_config V3))) (Q2R (center_lon (default_config V3)))
         (PFloat (center_lat (default_config V3))) (PFloat (center_lon (default_config V3)))
       = Ok d
    /\ d = py_round (great_circle_distance
                       (Q2R (center_lat (default_config V3)))
                       (Q2R (center_lon (default_config V3)))
                       (Q2R (center_lat (default_config V3)))
                       (Q2R (center_lon (default_config V3))))
    /\ d = 0%Z.
Proof.
  destruct (wiki_row_distance sample_libs (default_config V3) sample_world V3 0
              (white_house V3) _ white_house_row)
    as (lat & lon & Hlat & Hlon & la & lo & d & Hla & Hlo & Hd & Hcell & Hexact & Hsame).
  injection Hlat as <-. injection Hlon as <-.
  injection Hla as <-. injection Hlo as <-.
  exists d. split; [exact Hcell | split; [exact Hd | split]].
  - exact (proj1 (Hexact eq_refl)).
  - exact (Hsame exact_floats_are_sane eq_refl eq_refl).
Defined.

Lemma well_behaved_sample_world : well_behaved sample_world.
Proof.
  split; [| split; [| split]].
  - intros [| k] _; eexists; (split; [reflexivity | vm_compute; reflexivity]).
  - intros [| k] H; [discriminate H |].
    eexists. split; [reflexivity | vm_compute; reflexivity].
  - intro k. exists 1%nat. split; [cbn; lia | split; [| split]].
    + intros [| j] Hj; [reflexivity | lia].
    + cbn. discriminate.
    + intros _. eexists. split; [reflexivity | vm_compute; reflexivity].
  - intros i _. eexists. split; [reflexivity | vm_compute; reflexivity].
Defined.

Lemma run_completes_witness :
  (exists (fuel : nat) (s : state) (n : nat) (wiki : list row) (admin : row)
          (filtered : list pyval) (features : list row),
     snd (controller_loop sample_libs sample_world (default_config V1) V1 fuel O
            (initial_state (default_config V1))) = Ok (Some (s, n))
     /\ snd (wiki_rows sample_libs sample_world (default_config V1) V1 s) = Ok wiki
     /\ snd (admin_row sample_libs (default_config V1) s) = Ok admin
     /\ snd (mfilter has_name (osm_features_data s)) = Ok filtered
     /\ snd (feature_rows sample_libs (default_config V1) V1 s filtered) = Ok features
     /\ (truthy (wiki_results s) = false -> wiki = [wiki_placeholder])
     /\ (truthy (osm_admin_data s) = false -> admin = admin_placeholder)
     /\ (filtered = [] -> features = [features_placeholder])
     /\ (forallb encodable (header :: wiki ++ [admin] ++ features) = true ->
         snd (main sample_libs sample_world (default_config V1) V1 fuel)
         = Ok (Some (header :: wiki ++ [admin] ++ features))
         /\ In (WriteCsv (strftime_now sample_world) (header :: wiki ++ [admin] ++ features))
               (fst (main sample_libs sample_world (default_config V1) V1 fuel)))
     /\ (forallb encodable (header :: wiki ++ [admin] ++ features) = false ->
         snd (main sample_libs sample_world (default_config V1) V1 fuel)
         = Raise UnicodeEncodeError
         /\ exists written r tail,
              In (WriteFailed (strftime_now sample_world) written)
                 (fst (main sample_libs sample_world (default_config V1) V1 fuel))
              /\ header :: wiki ++ [admin] ++ features = written ++ r :: tail
              /\ encodable r = false))
  /\ (exists (fuel : nat) (s : state) (n : nat) (wiki : list row) (admin : row)
          (filtered : list pyval) (features : list row),
     snd (controller_loop sample_libs sample_world (default_config V3) V3 fuel O
            (initial_state (default_config V3))) = Ok (Some (s, n))
     /\ snd (wiki_rows sample_libs sample_world (default_config V3) V3 s) = Ok wiki
     /\ snd (admin_row sample_libs (default_config V3) s) = Ok admin
     /\ snd (mfilter has_name (osm_features_data s)) = Ok filtered
     /\ snd (feature_rows sample_libs (default_config V3) V3 s filtered) = Ok features
     /\ (truthy (wiki_results s) = false -> wiki = [wiki_placeholder])
     /\ (truthy (osm_admin_data s) = false -> admin = admin_placeholder)
     /\ (filtered = [] -> features = [features_placeholder])
     /\ (forallb encodable (header :: wiki ++ [admin] ++ features) = true ->
         snd (main sample_libs sample_world (default_config V3) V3 fuel)
         = Ok (Some (header :: wiki ++ [admin] ++ features))
         /\ In (WriteCsv (strftime_now sample_world) (header :: wiki ++ [admin] ++ features))
               (fst (main sample_libs sample_world (default_config V3) V3 fuel)))
     /\ (forallb encodable (header :: wiki ++ [admin] ++ features) = false ->
         snd (main sample_libs sample_world (default_config V3) V3 fuel)
         = Raise UnicodeEncodeError
         /\ exists written r tail,
              In (WriteFailed (strftime_now sample_world) written)
                 (fst (main sample_libs sample_world (default_config V3) V3 fuel))
              /\ header :: wiki ++ [admin] ++ features = written ++ r :: tail
              /\ encodable r = false)).
Proof.
  split.
  - exact (run_completes sample_libs sample_world (default_config V1)
             well_behaved_sample_world V1 eq_refl (sample_computations V1)).
  - exact (run_completes sample_libs sample_world (default_config V3)
             well_behaved_sample_world V3 eq_refl (sample_computations V3)).
Defined.


Lemma loop_exit_cases_witness :
  exists s' : state,
    snd (controller_loop sample_libs outage_world (default_config V1) V1 25 O
           (initial_state (default_config V1))) = Ok (Some (s', 20%nat))
    /\ current_radius s' = 10500%Z
    /\ Z.of_nat 20 = ((10000 - 500) / 500 + 1)%Z.
Proof.
  eexists. split; [vm_compute; reflexivity |].
  destruct (loop_exit_cases sample_libs outage_world (default_config V1) V1 25
              {| current_radius := 10500; wiki_results := PList [];
                 osm_admin_data := PNone; osm_features_data := [] |} 20)
    as [(H & _) | [(_ & _ & H & _) | (_ & Hr & _ & Hn)]].
  - vm_compute. reflexivity.
  - discriminate H.
  - exfalso. apply H. reflexivity.
  - split; [reflexivity | apply Hn; reflexivity].
Defined.

Lemma pass_without_hits_witness :
  exists s' : state,
    snd (loop_body sample_libs relation_world (default_config V3) V3 0 sample_exit)
    = Ok (s', false)
    /\ current_radius s' = (current_radius sample_exit + 500)%Z
    /\ wiki_results s' = PList five_places.
Proof.
  eexists. split; [vm_compute; reflexivity |].
  refine (proj2 (pass_without_hits sample_libs relation_world (default_config V3) V3 0
                   sample_exit _ false PNone _ _ _)).
  - vm_compute. reflexivity.
  - left. vm_compute. discriminate.
  - vm_compute. reflexivity.
Defined.

Lemma features_accumulate_witness :
  exists s' : state,
    snd (controller_loop sample_libs relation_world (default_config V1) V1 25 O
           (initial_state (default_config V1))) = Ok (Some (s', 20%nat))
    /\ osm_features_data s' = List.concat (repeat [presidents_park] 20).
Proof.
  eexists. split; [vm_compute; reflexivity |].
  refine (proj2 (proj2 (features_accumulate sample_libs relation_world (default_config V1) V1))
            [presidents_park] _ _ 25%nat O (initial_state (default_config V1)) _ 20%nat _).
  - intro k. split; [reflexivity |].
    eexists. split; reflexivity.
  - vm_compute. lia.
  - vm_compute. reflexivity.
Defined.

Lemma cached_admin_ignores_reply_witness :
  snd (loop_body sample_libs garbled_geocoder_world (default_config V3) V3 2 sample_exit)
  = snd (loop_body sample_libs sample_world (default_config V3) V3 2 sample_exit)
  /\ snd (loop_body sample_libs garbled_geocoder_world (default_config V3) V3 0
            (initial_state (default_config V3))) = Raise JSONDecodeError.
Proof.
  split.
  - apply (proj1 (cached_admin_ignores_reply sample_libs sample_world (default_config V3)
                    garbled_geocoder_world V3 2 sample_exit eq_refl eq_refl eq_refl)).
    reflexivity.
  - apply (proj2 (cached_admin_ignores_reply sample_libs garbled_geocoder_world
                    (default_config V3) garbled_geocoder_world V3 0
                    (initial_state (default_config V3)) eq_refl eq_refl eq_refl)
             eq_refl (geosearch_body two_places)); reflexivity.
Defined.

Lemma wiki_rows_follow_hits_witness :
  exists rows : list row,
    snd (wiki_rows sample_libs sample_world (default_config V1) V1 sample_exit) = Ok rows
    /\ Forall2 (fun place r =>
                  exists title lat lon d url,
                    py_getitem place "title" = Ok title
                    /\ py_getitem place "lat" = Ok lat
                    /\ py_getitem place "lon" = Ok lon
                    /\ r = [PStr "Wikipedia"; title; lat; lon; d; url])
               (firstn (Z.to_nat (max_results (default_config V1))) five_places) rows
    /\ (Z.of_nat (List.length rows) <= max_results (default_config V1))%Z
    /\ (List.length rows <= List.length five_places)%nat.
Proof.
  eexists. split; [vm_compute; reflexivity |].
  refine (wiki_rows_follow_hits sample_libs sample_world (default_config V1) V1 sample_exit
            five_places _ _ _ _ _).
  - reflexivity.
  - discriminate.
  - vm_compute. discriminate.
  - vm_compute. reflexivity.
Defined.

Lemma feature_rows_are_named_witness :
  exists (filtered : list pyval) (rows : list row),
    snd (mfilter has_name (osm_features_data sample_exit)) = Ok filtered
    /\ snd (feature_rows sample_libs (default_config V1) V1 sample_exit filtered) = Ok rows
    /\ (List.length rows <= List.length filtered)%nat
    /\ (List.length filtered <= List.length (osm_features_data sample_exit))%nat.
Proof.
  do 2 eexists. split; [vm_compute; reflexivity |]. split; [vm_compute; reflexivity |].
  match goal with
  | |- (List.length ?rows <= List.length ?filtered)%nat /\ _ =>
      destruct (feature_rows_are_named sample_libs (default_config V1) V1 sample_exit
                  filtered rows) as (Hrows & Hfiltered & _)
  end.
  - vm_compute. reflexivity.
  - discriminate.
  - vm_compute. reflexivity.
  - split; [exact Hrows | exact Hfiltered].
Defined.

Lemma v1_geosearch_all_or_nothing_witness :
  exists places : list pyval,
    snd (get_wikipedia_geosearch sample_libs V1 (reply 200 (geosearch_body two_places))
           (PFloat 0) (PFloat 0) 500 20) = Ok (PList places)
    /\ List.length places = 2%nat.
Proof.
  destruct (proj1 (v1_geosearch_all_or_nothing sample_libs
                     (reply 200 (geosearch_body two_places)) (PFloat 0) (PFloat 0) 500 20
                     (geosearch_body two_places) two_places eq_refl eq_refl eq_refl))
    as (places & Hvalue & Hplaces).
  - repeat constructor; eexists; vm_compute; reflexivity.
  - exists places. split; [exact Hvalue |].
    apply Forall2_length in Hplaces. symmetry. exact Hplaces.
Defined.

Lemma sustained_rate_limit_witness :
  snd (get_osm_nearby_features sample_libs 3 always_busy (PFloat 0) (PFloat 0) 500)
  = Raise RecursionError
  /\ sleeps (fst (get_osm_nearby_features sample_libs 3 always_busy (PFloat 0) (PFloat 0) 500))
     = [Sleep 60; Sleep 60; Sleep 60].
Proof.
  destruct (sustained_rate_limit sample_libs (PFloat 0) (PFloat 0) 500 3 always_busy)
    as (Hvalue & _ & Hsleeps).
  - intros j _. reflexivity.
  - split; [exact Hvalue | exact Hsleeps].
Defined.

Lemma total_outage_gives_placeholders_witness :
  snd (main sample_libs outage_world (default_config V3) V3 25)
  = Ok (Some [header; wiki_placeholder; admin_placeholder; features_placeholder])
  /\ writes (fst (main sample_libs outage_world (default_config V3) V3 25))
     = [WriteCsv (strftime_now outage_world)
          [header; wiki_placeholder; admin_placeholder; features_placeholder]].
Proof.
  refine (total_outage_gives_placeholders sample_libs outage_world (default_config V3)
            _ _ _ _ V3 25 _ _).
  - intro k. vm_compute. discriminate.
  - intro k. vm_compute. discriminate.
  - intro k. split; vm_compute; discriminate.
  - vm_compute. lia.
  - reflexivity.
  - vm_compute. reflexivity.
Defined.

Lemma report_requests_witness :
  requests (fst (report sample_libs sample_world (default_config V1) V1 sample_exit)) = []
  /\ exists (wiki : list row) (n : Z),
       snd (wiki_rows sample_libs sample_world (default_config V3) V3 sample_exit) = Ok wiki
       /\ py_len (wiki_results sample_exit) = Ok n
       /\ List.length (requests (fst (report sample_libs sample_world (default_config V3) V3
                                        sample_exit)))
          = (if (1 <=? n)%Z then List.length wiki else O).
Proof.
  split.
  - assert (H : exists rows,
               snd (report sample_libs sample_world (default_config V1) V1 sample_exit)
               = Ok rows) by (eexists; vm_compute; reflexivity).
    destruct H as (rows & H).
    exact (report_requests sample_libs sample_world (default_config V1) V1 sample_exit rows H).
  - destruct sample_report as (rows & H).
    exact (report_requests sample_libs sample_world (default_config V3) V3 sample_exit rows H).
Defined.

(** ** Where the code departs from the claims *)

(** Against C5: the distance cell of a Wikipedia row of [V1] is the float the
    [haversine] package returned, here 203.71, not an integer. *)
Lemma v1_distance_is_not_rounded :
  snd (wiki_row sample_libs sample_world (default_config V1) V1 1
         (place "Lafayette Square" (388995 # 10000) (- (770366 # 10000))))
  = Ok [PStr "Wikipedia"; PStr "Lafayette Square";
        PFloat (388995 # 10000); PFloat (- (770366 # 10000));
        PFloat (20371 # 100);
        PStr "https://en.wikipedia.org/wiki/Lafayette_Square"].
Proof. vm_compute. reflexivity. Qed.

(** Against C7: a geocoder answering 200 with an error record makes the run
    of either variant end in a [KeyError] before any file is created; so does,
    in [V3], a URL lookup answered 200 without [fullurl]. *)
Lemma malformed_reply_aborts_run :
  snd (main sample_libs geocode_error_world (default_config V1) V1 25) = Raise KeyError
  /\ existsb is_file (fst (main sample_libs geocode_error_world (default_config V1) V1 25))
     = false
  /\ snd (main sample_libs geocode_error_world (default_config V3) V3 25) = Raise KeyError
  /\ existsb is_file (fst (main sample_libs geocode_error_world (default_config V3) V3 25))
     = false
  /\ snd (get_wikipedia_url sample_libs V3 (reply 200 missing_page_body) (PStr ""))
     = Raise KeyError.
Proof. vm_compute. repeat split; reflexivity. Qed.

(** Also against C7: a named element whose name holds a lone surrogate lets
    the run of [V1] build every row and open the file, and then stops the
    write: the run ends in [UnicodeEncodeError] and the file holds the header
    and the two placeholder rows that precede the row of the element. *)
Lemma unencodable_name_stops_the_write :
  snd (main sample_libs surrogate_world (default_config V1) V1 25)
  = Raise UnicodeEncodeError
  /\ files (fst (main sample_libs surrogate_world (default_config V1) V1 25))
     = [WriteFailed (strftime_now surrogate_world)
          [header; wiki_placeholder; admin_placeholder]].
Proof. vm_compute. split; reflexivity. Qed.

